(** * droidrun_wrapper.py: the file-based bridge between the agent and the
      Android executor

    A shallow embedding of [AndroidToolsWrapper]
    (app/src/main/assets/droidrun_wrapper.py) and the properties of its
    request/result protocol, its state reader, its element resolver and its
    session state.

    Conventions of the embedding.
    - A Python [str] is a [string]; a character stands for a code point
      below 256.
    - A Python [int] is a [Z].  Floating-point numbers are left out: the
      clock [time.time()], the poll interval and the 30 second limit are
      counted in whole milliseconds.
    - The interpreter is CPython 3.11 with its limit of 4300 digits on the
      conversions between [int] and [str]: [str] of a longer argument of a
      tool and [int] of a longer literal raise ValueError.  The two messages
      of the resolver that quote the index are written without the limit.
    - A value decoded from JSON is a [pyval].
    - [json.loads] and [base64.b64decode] belong to the Python library; they
      are parameters of the development, and so is what [json.load] makes of
      a file: a value, JSONDecodeError, or another exception.
    - An [async] method is run to completion; the only suspension points
      are the calls of [asyncio.sleep], during which the executor process
      may rewrite the files.
    - The three paths name three different files; writing the actions file
      and removing a result file that is there succeed.
    - [Tools.ui_action] (imported from droidrun) wraps a method without
      changing its result while [save_trajectories] is "none", the value set
      by [__init__] and never changed here; it is not modelled. *)

From Stdlib Require Import ZArith List String Ascii Bool Lia Arith DecimalString.
From Stdlib Require DecimalPos.
Import ListNotations.
Set Warnings "-register-all".
Local Open Scope string_scope.
Local Open Scope Z_scope.

(** ** Python values and the built-ins the wrapper uses *)

Module Py.

(** What [json.load] can return (floats left out). *)
Inductive pyval : Type :=
| PNone
| PBool (b : bool)
| PInt (n : Z)
| PStr (s : string)
| PList (items : list pyval)
| PDict (entries : list (string * pyval)).

(** The exceptions that occur, by class, with [str(e)] as message. *)
Inductive exn_class : Type :=
| ValueError | AttributeError | TypeError | OSError | TimeoutError | Exception
| UnicodeDecodeError | RecursionError.

Record exn : Type := Raise { exn_of : exn_class; exn_msg : string }.

(** The outcome of a call: a returned value or a raised exception. *)
Inductive result (A : Type) : Type :=
| Returned (a : A)
| Raised (e : exn).
Arguments Returned {A} a.
Arguments Raised {A} e.

(** [bool(v)]. *)
Definition truthy (v : pyval) : bool :=
  match v with
  | PNone => false
  | PBool b => b
  | PInt n => negb (n =? 0)
  | PStr s => negb (s =? "")%string
  | PList l => match l with [] => false | _ => true end
  | PDict d => match d with [] => false | _ => true end
  end.

(** [type(v).__name__]. *)
Definition type_name (v : pyval) : string :=
  match v with
  | PNone => "NoneType"
  | PBool _ => "bool"
  | PInt _ => "int"
  | PStr _ => "str"
  | PList _ => "list"
  | PDict _ => "dict"
  end.

Definition no_attribute (v : pyval) (attr : string) : exn :=
  Raise AttributeError
        ("'" ++ type_name v ++ "' object has no attribute '" ++ attr ++ "'").

Fixpoint assoc (k : string) (d : list (string * pyval)) : option pyval :=
  match d with
  | [] => None
  | (k', v) :: d' => if (k =? k')%string then Some v else assoc k d'
  end.

(** [d.get(k, default)] for a dict [d]. *)
Definition dict_get (d : list (string * pyval)) (k : string) (default : pyval)
  : pyval :=
  match assoc k d with Some x => x | None => default end.

(** [v.get(k, default)]: only a dict has the method. *)
Definition get (v : pyval) (k : string) (default : pyval) : result pyval :=
  match v with
  | PDict d => Returned (dict_get d k default)
  | _ => Raised (no_attribute v "get")
  end.

(** [k in v] for a dict [v]. *)
Definition has_key (k : string) (d : list (string * pyval)) : bool :=
  match assoc k d with Some _ => true | None => false end.

(** [v == n] for an int [n]; [True == 1] and [False == 0] hold in Python. *)
Definition eq_int (v : pyval) (n : Z) : bool :=
  match v with
  | PInt m => m =? n
  | PBool b => (if b then 1 else 0) =? n
  | _ => false
  end.

(** [v == s] for a str [s]. *)
Definition eq_str (v : pyval) (s : string) : bool :=
  match v with
  | PStr t => (t =? s)%string
  | _ => false
  end.

(** [len(v)]. *)
Definition len (v : pyval) : result Z :=
  match v with
  | PStr s => Returned (Z.of_nat (String.length s))
  | PList l => Returned (Z.of_nat (List.length l))
  | PDict d => Returned (Z.of_nat (List.length d))
  | _ => Raised (Raise TypeError
                       ("object of type '" ++ type_name v ++ "' has no len()"))
  end.

(** [str(n)] for an int and [str(b)] for a bool. *)
Definition str_of_int (n : Z) : string := NilZero.string_of_int (Z.to_int n).

Definition str_of_bool (b : bool) : string := if b then "True" else "False".

(** [sys.get_int_max_str_digits()]: an int of more decimal digits is not
    converted to a str, and a literal of more digits is not converted to
    an int. *)
Definition max_str_digits : nat := 4300.

(** The number of decimal digits of [n], its sign left out. *)
Definition digit_count (n : Z) : nat := String.length (str_of_int (Z.abs n)).

(** [str(n)] and [f"{n}"] for an int [n] as the interpreter runs them:
    [str_of_int n] within the limit, a ValueError beyond it. *)
Definition str_int (n : Z) : result string :=
  if (max_str_digits <? digit_count n)%nat then
    Raised (Raise ValueError
                  "Exceeds the limit (4300 digits) for integer string conversion; use sys.set_int_max_str_digits() to increase the limit")
  else Returned (str_of_int n).

Definition code (c : ascii) : N := N_of_ascii c.

Definition in_range (lo hi : N) (c : ascii) : bool :=
  ((lo <=? code c) && (code c <=? hi))%N.

(** [c.isspace()] on the code points below 256. *)
Definition isspace (c : ascii) : bool :=
  in_range 9 13 c || in_range 28 32 c || (code c =? 133)%N || (code c =? 160)%N.

Fixpoint lstrip (s : string) : string :=
  match s with
  | String c s' => if isspace c then lstrip s' else s
  | EmptyString => EmptyString
  end.

Fixpoint rstrip (s : string) : string :=
  match s with
  | EmptyString => EmptyString
  | String c s' =>
      match rstrip s' with
      | EmptyString => if isspace c then EmptyString else String c EmptyString
      | r => String c r
      end
  end.

(** [s.strip()]. *)
Definition strip (s : string) : string := rstrip (lstrip s).

(** [s.split(sep)] for a one-character separator: never an empty list. *)
Fixpoint split (sep : ascii) (s : string) : list string :=
  match s with
  | EmptyString => [EmptyString]
  | String c s' =>
      if Ascii.eqb c sep then EmptyString :: split sep s'
      else match split sep s' with
           | h :: t => String c h :: t
           | [] => [String c EmptyString]
           end
  end.

(** The blanks [int] skips around a literal: the ASCII ones, and U+0085 and
    U+00A0. *)
Definition int_blank (c : ascii) : bool :=
  in_range 9 13 c || (code c =? 32)%N || (code c =? 133)%N || (code c =? 160)%N.

Fixpoint skip_blanks (s : string) : string :=
  match s with
  | String c s' => if int_blank c then skip_blanks s' else s
  | EmptyString => EmptyString
  end.

Definition digit (c : ascii) : option Z :=
  if in_range 48 57 c then Some (Z.of_N (code c) - 48) else None.

(** The digits of a base-10 literal after its sign: [acc] is the value read
    so far, [after_digit] tells whether the last character was a digit (an
    underscore is allowed only between two digits).  Blanks may follow. *)
Fixpoint digits (acc : Z) (after_digit : bool) (s : string) : option Z :=
  match s with
  | EmptyString => if after_digit then Some acc else None
  | String c s' =>
      match digit c with
      | Some d => digits (10 * acc + d) true s'
      | None =>
          if (code c =? 95)%N then
            if after_digit then
              match s' with
              | String c' _ =>
                  match digit c' with
                  | Some _ => digits acc false s'
                  | None => None
                  end
              | EmptyString => None
              end
            else None
          else if after_digit then
            match skip_blanks s with
            | EmptyString => Some acc
            | _ => None
            end
          else None
      end
  end.

(** [int(s)] for a str [s]; [None] is the ValueError. *)
Definition parse_int (s : string) : option Z :=
  match skip_blanks s with
  | String c s' =>
      if (code c =? 45)%N then option_map Z.opp (digits 0 false s')
      else if (code c =? 43)%N then digits 0 false s'
      else digits 0 false (String c s')
  | EmptyString => None
  end.

Definition hex_digit (n : N) : ascii :=
  ascii_of_N (if (n <? 10)%N then 48 + n else 87 + n).

Definition printable (c : ascii) : bool :=
  negb (in_range 0 31 c || in_range 127 160 c || (code c =? 173)%N).

Definition squote : ascii := ascii_of_N 39.
Definition dquote : ascii := ascii_of_N 34.
Definition backslash : ascii := ascii_of_N 92.

Fixpoint contains (q : ascii) (s : string) : bool :=
  match s with
  | EmptyString => false
  | String c s' => Ascii.eqb c q || contains q s'
  end.

Fixpoint escape (q : ascii) (s : string) : string :=
  match s with
  | EmptyString => EmptyString
  | String c s' =>
      let rest := escape q s' in
      if Ascii.eqb c q || Ascii.eqb c backslash then String backslash (String c rest)
      else if (code c =? 9)%N then String backslash (String "t" rest)
      else if (code c =? 10)%N then String backslash (String "n" rest)
      else if (code c =? 13)%N then String backslash (String "r" rest)
      else if printable c then String c rest
      else String backslash
             (String "x" (String (hex_digit (code c / 16))
                                 (String (hex_digit (code c mod 16)) rest)))
  end.

(** [repr(s)] for a str: double quotes only when [s] has a single quote and
    no double quote. *)
Definition repr_str (s : string) : string :=
  let q := if contains squote s && negb (contains dquote s) then dquote else squote in
  String q (escape q s ++ String q EmptyString).

Definition join (sep : string) (l : list string) : string :=
  match l with
  | [] => EmptyString
  | h :: t => fold_left (fun acc x => acc ++ sep ++ x) t h
  end.

(** [repr(v)]. *)
Fixpoint repr (v : pyval) : string :=
  match v with
  | PNone => "None"
  | PBool b => str_of_bool b
  | PInt n => str_of_int n
  | PStr s => repr_str s
  | PList l => "[" ++ join ", " (map repr l) ++ "]"
  | PDict d =>
      "{" ++ join ", " (map (fun kv => repr_str (fst kv) ++ ": " ++ repr (snd kv)) d)
          ++ "}"
  end.

(** [str(v)], what an f-string puts for [{v}]. *)
Definition str (v : pyval) : string :=
  match v with
  | PStr s => s
  | _ => repr v
  end.

(** The run of digits and underscores at the head of a literal, as [int]
    scans it before it converts: the number of its digits, or [None] when the
    run is empty, begins or ends with an underscore or has two in a row. *)
Fixpoint scan (after_digit : bool) (count : nat) (s : string) : option nat :=
  match s with
  | EmptyString => if after_digit then Some count else None
  | String c s' =>
      match digit c with
      | Some _ => scan true (S count) s'
      | None =>
          if (code c =? 95)%N then
            if after_digit then scan false count s' else None
          else if after_digit then Some count else None
      end
  end.

Definition digit_run (s : string) : option nat :=
  match skip_blanks s with
  | String c s' =>
      if (code c =? 45)%N || (code c =? 43)%N then scan false 0 s'
      else scan false 0 (String c s')
  | EmptyString => None
  end.

(** The ValueError of a literal that is no integer: the message carries at
    most 200 characters of the repr. *)
Definition invalid_literal (s : string) : exn :=
  Raise ValueError
        ("invalid literal for int() with base 10: "
           ++ substring 0 200 (repr_str s)).

Definition too_many_digits (count : nat) : exn :=
  Raise ValueError
        ("Exceeds the limit (4300 digits) for integer string conversion: value has "
           ++ str_of_int (Z.of_nat count)
           ++ " digits; use sys.set_int_max_str_digits() to increase the limit").

(** [int(s)] as the code calls it: the run of digits is scanned and held
    against the limit before the rest of the literal is looked at. *)
Definition int (s : string) : result Z :=
  match digit_run s with
  | None => Raised (invalid_literal s)
  | Some count =>
      if (max_str_digits <? count)%nat then Raised (too_many_digits count)
      else match parse_int s with
           | Some n => Returned n
           | None => Raised (invalid_literal s)
           end
  end.

End Py.
Import Py.


(** ** The files, the clock and the other process *)

Module Bridge.

(** What the wrapper finds when it looks at one of the three files. *)
Inductive file : Type :=
| Missing                      (* os.path.exists is False *)
| Unreadable (msg : string)    (* open raises OSError(msg) *)
| Partial                      (* json.load raises JSONDecodeError *)
| Doc (v : pyval)              (* json.load returns v *)
| Corrupt (e : exn).           (* json.load raises e, no JSONDecodeError:
                                  UnicodeDecodeError on a character cut
                                  short, ValueError on a number beyond the
                                  digit limit, RecursionError *)

Inductive path : Type := StateFile | ActionsFile | ResultFile.

Record Files : Type := {
  state_file : file;
  actions_file : file;
  result_file : file
}.

(** The calls the wrapper makes on the outside, kept as a history. *)
Inductive syscall : Type :=
| Exists (p : path) (found : bool)   (* os.path.exists(p) *)
| Load (p : path)                    (* open(p, 'r') and json.load *)
| Dump (request : pyval)             (* open(actions_file, 'w') and json.dump *)
| Remove                             (* os.remove(result_file) *)
| Sleep.                             (* await asyncio.sleep(poll_interval) *)

Record World : Type := {
  files : Files;
  clock : Z;                 (* time.time(), in milliseconds *)
  naps : nat;                (* calls of asyncio.sleep so far *)
  uuids : nat;               (* calls of uuid.uuid4 so far *)
  trace : list syscall       (* newest first *)
}.

(** Everything the wrapper does not decide: the library functions it
    calls, the identifiers it draws, what the executor does to the files
    while the wrapper sleeps, and by how much a sleep overruns. *)
Record Env : Type := {
  json_loads : string -> option pyval;     (* None: JSONDecodeError *)
  json_loads_fault : string -> option exn; (* Some e: json.loads raises e, no
                                              JSONDecodeError (ValueError on a
                                              number beyond the digit limit,
                                              RecursionError); comes first *)
  b64decode : pyval -> result string;
  uuid4 : nat -> string;
  executor : nat -> Files -> Files;
  lag : nat -> N
}.

Definition record (c : syscall) (w : World) : World :=
  {| files := files w; clock := clock w; naps := naps w; uuids := uuids w;
     trace := c :: trace w |}.

Definition look (p : path) (w : World) : file :=
  match p with
  | StateFile => state_file (files w)
  | ActionsFile => actions_file (files w)
  | ResultFile => result_file (files w)
  end.

(** [os.path.exists(p)] and, when the file is there, [open] and
    [json.load]: the calls are noted, the files stay as they are. *)
Definition probe (p : path) (w : World) : World :=
  match look p w with
  | Missing => record (Exists p false) w
  | _ => record (Load p) (record (Exists p true) w)
  end.

(** [json.dump(request, f)] on the actions file. *)
Definition dump (request : pyval) (w : World) : World :=
  {| files := {| state_file := state_file (files w);
                 actions_file := Doc request;
                 result_file := result_file (files w) |};
     clock := clock w; naps := naps w; uuids := uuids w;
     trace := Dump request :: trace w |}.

(** [os.remove(self.result_file)]. *)
Definition remove (w : World) : World :=
  {| files := {| state_file := state_file (files w);
                 actions_file := actions_file (files w);
                 result_file := Missing |};
     clock := clock w; naps := naps w; uuids := uuids w;
     trace := Remove :: trace w |}.

(** [str(uuid.uuid4())]. *)
Definition draw (E : Env) (w : World) : string * World :=
  (uuid4 E (uuids w),
   {| files := files w; clock := clock w; naps := naps w; uuids := S (uuids w);
      trace := trace w |}).

(** The requests written so far, newest first. *)
Fixpoint requests (t : list syscall) : list pyval :=
  match t with
  | [] => []
  | Dump r :: t' => r :: requests t'
  | _ :: t' => requests t'
  end.

Definition count (f : syscall -> bool) (t : list syscall) : nat :=
  List.length (filter f t).

Definition is_remove (c : syscall) : bool :=
  match c with Remove => true | _ => false end.

Definition is_probe (p : path) (c : syscall) : bool :=
  match c, p with
  | Exists StateFile _, StateFile => true
  | Exists ActionsFile _, ActionsFile => true
  | Exists ResultFile _, ResultFile => true
  | _, _ => false
  end.

End Bridge.
Import Bridge.

(** ** AndroidToolsWrapper *)

(** The fields of [self] that change or are read; the three paths are the
    three files of the world. *)
Record Wrapper : Type := {
  poll_interval : Z;                   (* milliseconds; 100 by default *)
  clickable_elements_cache : pyval;
  memory : list string;
  success : option bool;
  reason : option string;
  finished : bool
}.

(** [__init__]. *)
Definition init (poll_interval : Z) : Wrapper :=
  {| poll_interval := poll_interval;
     clickable_elements_cache := PList [];
     memory := [];
     success := None;
     reason := None;
     finished := false |}.

(** [await asyncio.sleep(self.poll_interval)]: the executor has its turn and
    the clock moves on by the interval and the overrun. *)
Definition sleep (E : Env) (self : Wrapper) (w : World) : World :=
  {| files := executor E (naps w) (files w);
     clock := clock w + poll_interval self + Z.of_N (lag E (naps w));
     naps := S (naps w);
     uuids := uuids w;
     trace := Sleep :: trace w |}.

(** *** get_state *)

Record Snapshot : Type := {
  formatted_text : pyval;
  focused_text : pyval;
  a11y_tree : pyval;
  phone_state : pyval
}.

Definition empty_phone_state : pyval :=
  PDict [("packageName", PStr "Unknown");
         ("currentApp", PStr "Unknown");
         ("activityName", PStr "Unknown");
         ("keyboardVisible", PBool false);
         ("isEditable", PBool false);
         ("focusedElement", PDict [])].

(** The tuple both fallback returns build, with their first component. *)
Definition unavailable (text : string) : Snapshot :=
  {| formatted_text := PStr text;
     focused_text := PStr "";
     a11y_tree := PList [];
     phone_state := empty_phone_state |}.

Definition set_cache (self : Wrapper) (tree : pyval) : Wrapper :=
  {| poll_interval := poll_interval self;
     clickable_elements_cache := tree;
     memory := memory self;
     success := success self;
     reason := reason self;
     finished := finished self |}.

(** The [for attempt in range(max_retries)] loop with the handlers around
    it; [attempts] is what is left of the range. *)
Fixpoint get_state_from (attempts : nat) (E : Env) (self : Wrapper) (w : World)
  : Snapshot * Wrapper * World :=
  match attempts with
  | O => (unavailable "State not available", self, w)
  | S attempts' =>
      let w' := probe StateFile w in
      match state_file (files w) with
      | Missing =>
          (* else: the file does not exist yet *)
          get_state_from attempts' E self (sleep E self w')
      | Partial =>
          (* except json.JSONDecodeError *)
          get_state_from attempts' E self (sleep E self w')
      | Unreadable msg =>
          (* except Exception as e *)
          (unavailable ("Error: " ++ msg), self, w')
      | Doc state_data =>
          match state_data with
          | PDict d =>
              let snap :=
                {| formatted_text := dict_get d "formattedText" (PStr "");
                   focused_text := dict_get d "focusedText" (PStr "");
                   a11y_tree := dict_get d "a11yTree" (PList []);
                   phone_state := dict_get d "phoneState" (PDict []) |} in
              let self' := set_cache self (a11y_tree snap) in
              (* the f-string of logger.debug evaluates len(a11y_tree) *)
              match len (a11y_tree snap) with
              | Returned _ => (snap, self', w')
              | Raised e => (unavailable ("Error: " ++ exn_msg e), self', w')
              end
          | _ =>
              (* state_data.get raises AttributeError: except Exception as e *)
              (unavailable ("Error: " ++ exn_msg (no_attribute state_data "get")),
               self, w')
          end
      | Corrupt e =>
          (* except Exception as e *)
          (unavailable ("Error: " ++ exn_msg e), self, w')
      end
  end.

Definition max_retries : nat := 10.

Definition get_state (E : Env) (self : Wrapper) (w : World)
  : Snapshot * Wrapper * World :=
  get_state_from max_retries E self w.

(** *** _extract_element_coordinates_by_index *)

(** [for item in v]: the items a loop over [v] visits. *)
Definition iterate (v : pyval) : result (list pyval) :=
  match v with
  | PList l => Returned l
  | PDict d => Returned (map (fun kv => PStr (fst kv)) d)
  | PStr s => Returned (map (fun c => PStr (String c EmptyString))
                            (list_ascii_of_string s))
  | _ => Raised (Raise TypeError ("'" ++ type_name v ++ "' object is not iterable"))
  end.

(** How deeply lists and dicts are nested in a value. *)
Fixpoint height (v : pyval) : nat :=
  match v with
  | PList l => S (fold_right (fun x h => Nat.max (height x) h) O l)
  | PDict d => S (fold_right (fun kv h => Nat.max (height (snd kv)) h) O d)
  | _ => O
  end.

(** The nested function [find_element_by_index].  The recursion goes into
    [item.get("children", [])]; [depth] bounds the nesting it may descend
    ([None] when the bound is too small; one more than the [height] of the
    value looped over is enough).  Python's [None] result is [PNone]. *)
Fixpoint find_element_by_index (depth : nat) (elements : list pyval)
         (target_index : Z) {struct depth} : option (result pyval) :=
  match depth with
  | O => None
  | S depth' =>
      (fix for_item (items : list pyval) : option (result pyval) :=
         match items with
         | [] => Some (Returned PNone)
         | item :: items' =>
             match item with
             | PDict d =>
                 if eq_int (dict_get d "index" PNone) target_index
                 then Some (Returned item)
                 else
                   let children := dict_get d "children" (PList []) in
                   if truthy children then
                     match iterate children with
                     | Raised e => Some (Raised e)
                     | Returned kids =>
                         match find_element_by_index depth' kids target_index with
                         | None => None
                         | Some (Raised e) => Some (Raised e)
                         | Some (Returned found) =>
                             if truthy found then Some (Returned found)
                             else for_item items'
                         end
                     end
                   else for_item items'
             | _ => Some (Raised (no_attribute item "get"))
             end
         end) elements
  end.

(** [[int(x) for x in parts]]: the first literal that fails raises. *)
Fixpoint ints (parts : list string) : result (list Z) :=
  match parts with
  | [] => Returned []
  | x :: parts' =>
      match int x with
      | Raised e => Raised e
      | Returned n =>
          match ints parts' with
          | Raised e => Raised e
          | Returned ns => Returned (n :: ns)
          end
      end
  end.

Definition comma : ascii := ascii_of_N 44.

(** From the element found to the coordinates: the part of the method
    after the search. *)
Definition center_of (element : pyval) (index : Z) : result (Z * Z) :=
  match get element "bounds" PNone with
  | Raised e => Raised e
  | Returned bounds_str =>
      if negb (truthy bounds_str) then
        Raised (Raise ValueError
                      ("Element with index " ++ str_of_int index ++ " has no bounds"))
      else
        match bounds_str with
        | PStr s =>
            match ints (split comma s) with
            | Raised e => Raised e
            | Returned bounds =>
                match bounds with
                | [left_; top; right_; bottom] =>
                    Returned ((left_ + right_) / 2, (top + bottom) / 2)
                | _ =>
                    Raised (Raise ValueError ("Invalid bounds format: " ++ s))
                end
            end
        | _ => Raised (no_attribute bounds_str "split")
        end
  end.

Definition _extract_element_coordinates_by_index (self : Wrapper) (index : Z)
  : option (result (Z * Z)) :=
  let cache := clickable_elements_cache self in
  if negb (truthy cache) then
    Some (Raised (Raise ValueError "No UI elements cached. Call get_state first."))
  else
    match iterate cache with
    | Raised e => Some (Raised e)
    | Returned elements =>
        match find_element_by_index (S (height cache)) elements index with
        | None => None
        | Some (Raised e) => Some (Raised e)
        | Some (Returned element) =>
            if negb (truthy element) then
              Some (Raised (Raise ValueError
                                  ("No element found with index " ++ str_of_int index)))
            else Some (center_of element index)
        end
    end.

(** *** _execute_action *)

Definition max_wait_time : Z := 30000.    (* 30.0 seconds *)

Definition action_data (action_type : string) (parameters : list (string * string))
           (timestamp : Z) (action_id : string) : pyval :=
  PDict [("actionType", PStr action_type);
         ("parameters", PDict (map (fun kv => (fst kv, PStr (snd kv))) parameters));
         ("timestamp", PInt timestamp);
         ("actionId", PStr action_id)].

(** [json.loads(result_str)] under its handler: a str that is not JSON
    (JSONDecodeError) and a value that is not a str (TypeError) are returned
    as they are. *)
Definition decode (E : Env) (result_str : pyval) : pyval :=
  match result_str with
  | PStr s => match json_loads E s with Some v => v | None => result_str end
  | _ => result_str
  end.

(** The exception of [json.loads(result_str)] that the handler does not
    catch, if there is one. *)
Definition decode_fault (E : Env) (result_str : pyval) : option exn :=
  match result_str with
  | PStr s => json_loads_fault E s
  | _ => None
  end.

(** The body of the [while] loop before its sleep.  [Some r]: the call ends
    with [r]; [None]: control reaches the sleep. *)
Definition check_result (E : Env) (action_id : string) (w : World)
  : option (result pyval) * World :=
  let w' := probe ResultFile w in
  match result_file (files w) with
  | Missing => (None, w')
  | Unreadable msg =>
      (* OSError: not caught by the inner handler, re-raised by the outer *)
      (Some (Raised (Raise OSError msg)), w')
  | Partial =>
      (* except (json.JSONDecodeError, KeyError): pass *)
      (None, w')
  | Doc result_data =>
      match result_data with
      | PDict d =>
          if eq_str (dict_get d "actionId" PNone) action_id then
            let w'' := remove w' in
            if truthy (dict_get d "success" PNone) then
              let result_str := dict_get d "result" (PStr "") in
              match decode_fault E result_str with
              | Some e => (Some (Raised e), w'')
              | None => (Some (Returned (decode E result_str)), w'')
              end
            else
              (Some (Raised (Raise Exception
                                   ("Action failed: "
                                      ++ str (dict_get d "error" (PStr "Unknown error"))))),
               w'')
          else (None, w')
      | _ =>
          (* AttributeError: not caught by the inner handler either *)
          (Some (Raised (no_attribute result_data "get")), w')
      end
  | Corrupt e =>
      (* not a JSONDecodeError: not caught by the inner handler *)
      (Some (Raised e), w')
  end.

(** The [while time.time() - start_time < max_wait_time] loop and the
    [raise TimeoutError] after it.  [fuel] bounds the iterations ([None]
    when it runs out). *)
Fixpoint poll (fuel : nat) (E : Env) (self : Wrapper) (action_type action_id : string)
         (start_time : Z) (w : World) : option (result pyval * World) :=
  match fuel with
  | O => None
  | S fuel' =>
      if clock w - start_time <? max_wait_time then
        match check_result E action_id w with
        | (Some r, w') => Some (r, w')
        | (None, w') =>
            poll fuel' E self action_type action_id start_time (sleep E self w')
        end
      else
        Some (Raised (Raise TimeoutError
                            ("Action " ++ action_type ++ " timed out after 30.0s")),
              w)
  end.

(** A sleep of a millisecond or more leaves room for at most
    [max_wait_time] iterations before the limit. *)
Definition enough : nat := S (Z.to_nat max_wait_time).

Definition _execute_action (E : Env) (self : Wrapper) (action_type : string)
           (parameters : list (string * string)) (w : World)
  : option (result pyval * World) :=
  let (action_id, w0) := draw E w in
  let w1 := dump (action_data action_type parameters (clock w0) action_id) w0 in
  let start_time := clock w1 in
  poll enough E self action_type action_id start_time w1.

(** *** The tools *)

(** What an [await self._execute_action(...)] hands to the lines after it:
    an exception passes through them. *)
Definition and_then {A B : Type} (run : option (result A * World))
           (rest : A -> result B) : option (result B * World) :=
  match run with
  | None => None
  | Some (Raised e, w') => Some (Raised e, w')
  | Some (Returned a, w') => Some (rest a, w')
  end.

(** A parameter [str(n)] of a request: when the conversion raises, the
    method raises before anything is drawn or written. *)
Definition with_str {A : Type} (n : Z) (w : World)
           (rest : string -> option (result A * World))
  : option (result A * World) :=
  match str_int n with
  | Raised e => Some (Raised e, w)
  | Returned s => rest s
  end.

Definition tap_by_index (E : Env) (self : Wrapper) (index : Z) (w : World)
  : option (result pyval * World) :=
  with_str index w (fun index_ =>
  _execute_action E self "tap_by_index" [("index", index_)] w).

(** [result.get("success", False) if isinstance(result, dict) else False]. *)
Definition success_of (r : pyval) : pyval :=
  match r with
  | PDict d => dict_get d "success" (PBool false)
  | _ => PBool false
  end.

Definition swipe (E : Env) (self : Wrapper) (start_x start_y end_x end_y duration_ms : Z)
           (w : World) : option (result pyval * World) :=
  with_str start_x w (fun start_x_ =>
  with_str start_y w (fun start_y_ =>
  with_str end_x w (fun end_x_ =>
  with_str end_y w (fun end_y_ =>
  with_str duration_ms w (fun duration_ms_ =>
  and_then (_execute_action E self "swipe"
              [("start_x", start_x_); ("start_y", start_y_);
               ("end_x", end_x_); ("end_y", end_y_);
               ("duration_ms", duration_ms_)] w)
           (fun r => Returned (success_of r))))))).

Definition drag (E : Env) (self : Wrapper) (start_x start_y end_x end_y duration_ms : Z)
           (w : World) : option (result pyval * World) :=
  with_str start_x w (fun start_x_ =>
  with_str start_y w (fun start_y_ =>
  with_str end_x w (fun end_x_ =>
  with_str end_y w (fun end_y_ =>
  with_str duration_ms w (fun duration_ms_ =>
  and_then (_execute_action E self "drag"
              [("start_x", start_x_); ("start_y", start_y_);
               ("end_x", end_x_); ("end_y", end_y_);
               ("duration_ms", duration_ms_)] w)
           (fun r => Returned (success_of r))))))).

Definition input_text (E : Env) (self : Wrapper) (text : string) (index : Z)
           (clear : bool) (w : World) : option (result pyval * World) :=
  with_str index w (fun index_ =>
  _execute_action E self "input_text"
    [("text", text); ("index", index_); ("clear", str_of_bool clear)] w).

Definition back (E : Env) (self : Wrapper) (w : World)
  : option (result pyval * World) :=
  _execute_action E self "back" [] w.

Definition press_key (E : Env) (self : Wrapper) (keycode : Z) (w : World)
  : option (result pyval * World) :=
  with_str keycode w (fun keycode_ =>
  _execute_action E self "press_key" [("keycode", keycode_)] w).

Definition start_app (E : Env) (self : Wrapper) (package activity : string)
           (w : World) : option (result pyval * World) :=
  _execute_action E self "start_app" [("package", package); ("activity", activity)] w.

Definition take_screenshot (E : Env) (self : Wrapper) (w : World)
  : option (result (string * string) * World) :=
  and_then (_execute_action E self "take_screenshot" [] w)
           (fun r =>
              match r with
              | PDict d =>
                  if has_key "image_base64" d then
                    match b64decode E (dict_get d "image_base64" PNone) with
                    | Raised e => Raised e
                    | Returned image_bytes => Returned ("PNG", image_bytes)
                    end
                  else Raised (Raise ValueError "Screenshot failed")
              | _ => Raised (Raise ValueError "Screenshot failed")
              end).

(** [result[key]] when [result] is a dict with [key], else the empty list. *)
Definition field_or_empty (key : string) (r : pyval) : pyval :=
  match r with
  | PDict d => if has_key key d then dict_get d key PNone else PList []
  | _ => PList []
  end.

Definition list_packages (E : Env) (self : Wrapper) (include_system_apps : bool)
           (w : World) : option (result pyval * World) :=
  and_then (_execute_action E self "list_packages"
              [("include_system_apps", str_of_bool include_system_apps)] w)
           (fun r => Returned (field_or_empty "packages" r)).

Definition get_apps (E : Env) (self : Wrapper) (include_system : bool) (w : World)
  : option (result pyval * World) :=
  and_then (_execute_action E self "get_apps"
              [("include_system", str_of_bool include_system)] w)
           (fun r => Returned (field_or_empty "apps" r)).

Definition max_memory_items : nat := 10.

(** [l[-n:]] for a positive [n]. *)
Definition last_items {A : Type} (n : nat) (l : list A) : list A :=
  skipn (List.length l - n) l.

Definition set_memory (self : Wrapper) (m : list string) : Wrapper :=
  {| poll_interval := poll_interval self;
     clickable_elements_cache := clickable_elements_cache self;
     memory := m;
     success := success self;
     reason := reason self;
     finished := finished self |}.

(** [remember]: the guard refuses what is falsy or not a str. *)
Definition remember (self : Wrapper) (information : pyval) : string * Wrapper :=
  match information with
  | PStr s =>
      if negb (truthy information) then
        ("Error: Please provide valid information to remember.", self)
      else
        let appended := (memory self ++ [strip s])%list in
        let kept :=
          if (max_memory_items <? List.length appended)%nat
          then last_items max_memory_items appended
          else appended in
        ("Remembered: " ++ s, set_memory self kept)
  | _ => ("Error: Please provide valid information to remember.", self)
  end.

Definition get_memory (self : Wrapper) : list string := memory self.

(** The three assignments of [complete]. *)
Definition mark_complete (self : Wrapper) (success_ : bool) (reason_ : string)
  : Wrapper :=
  {| poll_interval := poll_interval self;
     clickable_elements_cache := clickable_elements_cache self;
     memory := memory self;
     success := Some success_;
     reason := Some (if truthy (PStr reason_) then reason_
                     else if success_ then "Task completed successfully."
                          else "Task failed.");
     finished := true |}.

Definition complete (E : Env) (self : Wrapper) (success_ : bool) (reason_ : string)
           (w : World) : option (result unit * Wrapper * World) :=
  let self' := mark_complete self success_ reason_ in
  match _execute_action E self' "complete"
          [("success", str_of_bool success_); ("reason", reason_)] w with
  | None => None
  | Some (Raised e, w') => Some (Raised e, self', w')
  | Some (Returned _, w') => Some (Returned tt, self', w')
  end.

(** The methods that reach the executor, as one type of calls. *)
Inductive call : Type :=
| TapByIndex (index : Z)
| Swipe (start_x start_y end_x end_y duration_ms : Z)
| Drag (start_x start_y end_x end_y duration_ms : Z)
| InputText (text : string) (index : Z) (clear : bool)
| Back
| PressKey (keycode : Z)
| StartApp (package activity : string)
| TakeScreenshot
| ListPackages (include_system_apps : bool)
| GetApps (include_system : bool)
| Complete (success_ : bool) (reason_ : string).

Inductive answer : Type :=
| Value (v : pyval)
| Image (format image_bytes : string)
| Nothing.

Definition answered {A : Type} (f : A -> answer) (self : Wrapper)
           (run : option (result A * World))
  : option (result answer * Wrapper * World) :=
  match run with
  | None => None
  | Some (Raised e, w') => Some (Raised e, self, w')
  | Some (Returned a, w') => Some (Returned (f a), self, w')
  end.

Definition perform (E : Env) (self : Wrapper) (c : call) (w : World)
  : option (result answer * Wrapper * World) :=
  match c with
  | TapByIndex index => answered Value self (tap_by_index E self index w)
  | Swipe sx sy ex ey d => answered Value self (swipe E self sx sy ex ey d w)
  | Drag sx sy ex ey d => answered Value self (drag E self sx sy ex ey d w)
  | InputText text index clear =>
      answered Value self (input_text E self text index clear w)
  | Back => answered Value self (back E self w)
  | PressKey keycode => answered Value self (press_key E self keycode w)
  | StartApp package activity =>
      answered Value self (start_app E self package activity w)
  | TakeScreenshot =>
      answered (fun p => Image (fst p) (snd p)) self (take_screenshot E self w)
  | ListPackages b => answered Value self (list_packages E self b w)
  | GetApps b => answered Value self (get_apps E self b w)
  | Complete success_ reason_ =>
      match complete E self success_ reason_ w with
      | None => None
      | Some (Raised e, self', w') => Some (Raised e, self', w')
      | Some (Returned _, self', w') => Some (Returned Nothing, self', w')
      end
  end.

(** ** The course of a call while nothing ends it *)

(** The world at the [n]-th look at file [p] when every earlier look was
    followed by a sleep. *)
Definition at_look (p : path) (E : Env) (self : Wrapper) (n : nat) (w : World)
  : World :=
  Nat.iter n (fun v => sleep E self (probe p v)) w.

(** A result file that is there and is not the answer awaited: cut short,
    or an object with another [actionId]. *)
Definition foreign (action_id : string) (f : file) : bool :=
  match f with
  | Partial => true
  | Doc (PDict d) => negb (eq_str (dict_get d "actionId" PNone) action_id)
  | _ => false
  end.

(** A result file the loop passes over: absent or foreign. *)
Definition passed_over (action_id : string) (f : file) : bool :=
  match f with
  | Missing => true
  | _ => foreign action_id f
  end.

(** A state file an attempt of [get_state] retries on. *)
Definition not_ready (f : file) : bool :=
  match f with
  | Missing | Partial => true
  | _ => false
  end.

(** The world in which [_execute_action] starts to poll: the identifier
    drawn and the request written. *)
Definition submitted (E : Env) (action_type : string)
           (parameters : list (string * string)) (w : World) : World :=
  dump (action_data action_type parameters (clock w) (uuid4 E (uuids w)))
       (snd (draw E w)).

(** The snapshot [get_state] builds from a state document. *)
Definition snapshot_of (d : list (string * pyval)) : Snapshot :=
  {| formatted_text := dict_get d "formattedText" (PStr "");
     focused_text := dict_get d "focusedText" (PStr "");
     a11y_tree := dict_get d "a11yTree" (PList []);
     phone_state := dict_get d "phoneState" (PDict []) |}.

(** [remember] called on each item in turn. *)
Definition remember_all (self : Wrapper) (infos : list pyval) : Wrapper :=
  fold_left (fun s info => snd (remember s info)) infos self.

(** The items [remember] accepts: the non-empty strs. *)
Definition accepted (infos : list pyval) : list string :=
  flat_map (fun info => match info with
                        | PStr s => if truthy info then [s] else []
                        | _ => []
                        end) infos.

(** *** The element tree read in preorder (the resolver's specification) *)

(** An element is a dict; its [children], when present, is a list of
    elements. *)
Fixpoint well_formed (v : pyval) : bool :=
  match v with
  | PDict d =>
      (fix entries (es : list (string * pyval)) : bool :=
         match es with
         | [] => true
         | (k, c) :: es' =>
             if (k =? "children")%string then
               match c with
               | PList l =>
                   (fix each (l : list pyval) : bool :=
                      match l with
                      | [] => true
                      | x :: l' => well_formed x && each l'
                      end) l
               | _ => false
               end
             else entries es'
         end) d
  | _ => false
  end.

(** A node, then the nodes of each child in order. *)
Fixpoint preorder (v : pyval) : list pyval :=
  match v with
  | PDict d =>
      v :: (fix entries (es : list (string * pyval)) : list pyval :=
              match es with
              | [] => []
              | (k, c) :: es' =>
                  if (k =? "children")%string then
                    match c with
                    | PList l =>
                        (fix each (l : list pyval) : list pyval :=
                           match l with
                           | [] => []
                           | x :: l' => (preorder x ++ each l')%list
                           end) l
                    | _ => []
                    end
                  else entries es'
              end) d
  | _ => []
  end.

(** [item.get("index") == target_index] on a node. *)
Definition has_index (target_index : Z) (item : pyval) : bool :=
  match item with
  | PDict d => eq_int (dict_get d "index" PNone) target_index
  | _ => false
  end.

(** The first node in preorder with the index, Python's [None] without. *)
Definition first_match (elements : list pyval) (target_index : Z) : pyval :=
  match find (has_index target_index) (flat_map preorder elements) with
  | Some item => item
  | None => PNone
  end.

(** Whether every character of a string passes a test. *)
Fixpoint every_char (test : ascii -> bool) (s : string) : bool :=
  match s with
  | EmptyString => true
  | String c s' => test c && every_char test s'
  end.

(** ** A small setting for the examples *)

Module Demo.

(** A stand-in for [json.loads] that knows the documents the examples use. *)
Definition loads (s : string) : option pyval :=
  if (s =? "true")%string then Some (PBool true)
  else if (s =? "null")%string then Some PNone
  else if (s =? "42")%string then Some (PInt 42)
  else if (s =? "[1, 2]")%string then Some (PList [PInt 1; PInt 2])
  else None.

Definition no_image (v : pyval) : result string :=
  Raised (Raise ValueError "Incorrect padding").

Definition is_digit (c : ascii) : bool := in_range 48 57 c.

(** The documents on which [json.loads] raises the ValueError of the digit
    limit, as far as the examples go: a number written with digits only,
    more than 4300 of them, the first not a zero. *)
Definition faults (s : string) : option exn :=
  match s with
  | String c _ =>
      if in_range 49 57 c && every_char is_digit s
         && (max_str_digits <? String.length s)%nat
      then Some (too_many_digits (String.length s))
      else None
  | EmptyString => None
  end.

(** The number written with [n] digits, all of them 1. *)
Fixpoint ones (n : nat) : string :=
  match n with
  | O => EmptyString
  | S n' => String (ascii_of_N 49) (ones n')
  end.

Definition untouched : nat -> Files -> Files := fun _ fs => fs.

(** The executor writes [f] as result file during the sleep number [n]. *)
Definition writes_at (n : nat) (f : file) : nat -> Files -> Files :=
  fun k fs =>
    if (k =? n)%nat
    then {| state_file := state_file fs; actions_file := actions_file fs;
            result_file := f |}
    else fs.

(** The executor writes [f] as result file during every sleep. *)
Definition keeps_writing (f : file) : nat -> Files -> Files :=
  fun _ fs =>
    {| state_file := state_file fs; actions_file := actions_file fs;
       result_file := f |}.

Definition ident (n : nat) : string := "id-" ++ str_of_int (Z.of_nat n).

Definition env (script : nat -> Files -> Files) : Env :=
  {| json_loads := loads; json_loads_fault := faults; b64decode := no_image;
     uuid4 := ident; executor := script; lag := fun _ => 0%N |}.

Definition nothing : Files :=
  {| state_file := Missing; actions_file := Missing; result_file := Missing |}.

Definition boot (fs : Files) : World :=
  {| files := fs; clock := 1700000000000; naps := 0; uuids := 0; trace := [] |}.

Definition answer_to (id : string) (body : list (string * pyval)) : file :=
  Doc (PDict (("actionId", PStr id) :: body)).

(** The tree of the resolver's example:
    [{index:1, bounds:"0,0,10,10"},
     {index:2, bounds:"0,0,20,20",
      children:[{index:3, bounds:"4,4,6,6"}]}]. *)
Definition tree : list pyval :=
  [PDict [("index", PInt 1); ("bounds", PStr "0,0,10,10")];
   PDict [("index", PInt 2); ("bounds", PStr "0,0,20,20");
          ("children",
           PList [PDict [("index", PInt 3); ("bounds", PStr "4,4,6,6")]])]].

End Demo.


(** ** The requests of the tools, and what they make of an odd answer *)

(** The action type and the parameters each method hands to
    [_execute_action]. *)
Definition request_of (c : call) : string * list (string * string) :=
  match c with
  | TapByIndex index => ("tap_by_index", [("index", str_of_int index)])
  | Swipe sx sy ex ey d =>
      ("swipe", [("start_x", str_of_int sx); ("start_y", str_of_int sy);
                 ("end_x", str_of_int ex); ("end_y", str_of_int ey);
                 ("duration_ms", str_of_int d)])
  | Drag sx sy ex ey d =>
      ("drag", [("start_x", str_of_int sx); ("start_y", str_of_int sy);
                ("end_x", str_of_int ex); ("end_y", str_of_int ey);
                ("duration_ms", str_of_int d)])
  | InputText text index clear =>
      ("input_text", [("text", text); ("index", str_of_int index);
                      ("clear", str_of_bool clear)])
  | Back => ("back", [])
  | PressKey keycode => ("press_key", [("keycode", str_of_int keycode)])
  | StartApp package activity =>
      ("start_app", [("package", package); ("activity", activity)])
  | TakeScreenshot => ("take_screenshot", [])
  | ListPackages b => ("list_packages", [("include_system_apps", str_of_bool b)])
  | GetApps b => ("get_apps", [("include_system", str_of_bool b)])
  | Complete success_ reason_ =>
      ("complete", [("success", str_of_bool success_); ("reason", reason_)])
  end.

(** Whether the numbers of a call are within the digit limit of [str]: a
    call with a longer one raises before it writes its request. *)
Definition within_limit (n : Z) : bool :=
  negb (max_str_digits <? digit_count n)%nat.

Definition sendable (c : call) : bool :=
  match c with
  | TapByIndex index => within_limit index
  | Swipe sx sy ex ey d | Drag sx sy ex ey d =>
      within_limit sx && within_limit sy && within_limit ex && within_limit ey
      && within_limit d
  | InputText _ index _ => within_limit index
  | PressKey keycode => within_limit keycode
  | _ => true
  end.

(** The field of the answer a method reads, if it reads one. *)
Definition field_read (c : call) : option string :=
  match c with
  | Swipe _ _ _ _ _ | Drag _ _ _ _ _ => Some "success"
  | TakeScreenshot => Some "image_base64"
  | ListPackages _ => Some "packages"
  | GetApps _ => Some "apps"
  | _ => None
  end.

(** An answer without the field: not a dict, or a dict without the key. *)
Definition lacks (key : string) (v : pyval) : bool :=
  match v with
  | PDict d => negb (has_key key d)
  | _ => true
  end.

(** ** json.dumps and the entry point *)

(** A character of a JSON string as [json.dumps] writes it (ASCII only):
    the short escapes, and a [u] escape for every other character outside
    the printable ASCII range. *)
Definition json_char (c : ascii) : string :=
  if Ascii.eqb c dquote then String backslash (String dquote EmptyString)
  else if Ascii.eqb c backslash then String backslash (String backslash EmptyString)
  else if (code c =? 8)%N then String backslash "b"
  else if (code c =? 12)%N then String backslash "f"
  else if (code c =? 10)%N then String backslash "n"
  else if (code c =? 13)%N then String backslash "r"
  else if (code c =? 9)%N then String backslash "t"
  else if in_range 32 126 c then String c EmptyString
  else String backslash
         ("u00" ++ String (hex_digit (code c / 16))
                          (String (hex_digit (code c mod 16)) EmptyString)).

Fixpoint json_chars (s : string) : string :=
  match s with
  | EmptyString => EmptyString
  | String c s' => json_char c ++ json_chars s'
  end.

Definition json_str (s : string) : string :=
  String dquote (json_chars s ++ String dquote EmptyString).

(** [json.dumps(v)] with the default separators. *)
Fixpoint json_dumps (v : pyval) : string :=
  match v with
  | PNone => "null"
  | PBool b => if b then "true" else "false"
  | PInt n => str_of_int n
  | PStr s => json_str s
  | PList l => "[" ++ join ", " (map json_dumps l) ++ "]"
  | PDict d =>
      "{" ++ join ", " (map (fun kv => json_str (fst kv) ++ ": "
                                         ++ json_dumps (snd kv)) d)
          ++ "}"
  end.

(** What a run of the script leaves: the texts printed on the two streams,
    one for each call of [print] (a text may hold line breaks), and the
    status of [sys.exit] ([None]: the script ends without it). *)
Record Outcome : Type := {
  stdout : list string;
  stderr : list string;
  exit_status : option Z
}.

(** What [main] is given: the environment variables, and the two droidrun
    calls it makes, [DroidrunConfig.from_yaml] and the construction and run
    of a [DroidAgent], whose result comes as [str(result)]. *)
Record Launch (Config : Type) : Type := {
  environ : string -> option string;
  from_yaml : string -> result Config;
  run_agent : string -> Config -> Wrapper -> result string
}.
Arguments environ {Config} l _.
Arguments from_yaml {Config} l _.
Arguments run_agent {Config} l _ _ _.

(** [os.environ.get(name, "")]. *)
Definition environ_get {Config : Type} (L : Launch Config) (name : string) : string :=
  match environ L name with
  | Some v => v
  | None => EmptyString
  end.

Definition fails (message : string) : Outcome :=
  {| stdout := []; stderr := [message]; exit_status := Some 1 |}.

Definition main {Config : Type} (L : Launch Config) : Outcome :=
  let goal := environ_get L "DROIDRUN_GOAL" in
  let config_path := environ_get L "DROIDRUN_CONFIG" in
  if negb (truthy (PStr goal)) then fails "Error: DROIDRUN_GOAL not set"
  else if negb (truthy (PStr config_path)) then fails "Error: DROIDRUN_CONFIG not set"
  else
    match from_yaml L config_path with
    | Raised e => fails ("Error loading config: " ++ exn_msg e)
    | Returned config =>
        (* AndroidToolsWrapper(state_file, actions_file, result_file) *)
        let tools := init 100 in
        match run_agent L goal config tools with
        | Returned result =>
            {| stdout := [json_dumps (PDict [("type", PStr "complete");
                                             ("success", PBool true);
                                             ("result", PStr result)])];
               stderr := [];
               exit_status := None |}
        | Raised e =>
            fails (json_dumps (PDict [("type", PStr "error");
                                      ("message", PStr (exn_msg e))]))
        end
    end.

(** ** How the world moves *)

Section Course.

Variable E : Env.
Variable self : Wrapper.

Lemma sleep_clock (w : World) :
  clock (sleep E self w) = clock w + poll_interval self + Z.of_N (lag E (naps w)).
Proof. reflexivity. Qed.

Lemma probe_keeps (p : path) (w : World) :
  files (probe p w) = files w /\ clock (probe p w) = clock w
  /\ naps (probe p w) = naps w /\ uuids (probe p w) = uuids w.
Proof. unfold probe. destruct (look p w); simpl; auto. Qed.

Lemma probe_requests (p : path) (w : World) :
  requests (trace (probe p w)) = requests (trace w).
Proof. unfold probe. destruct (look p w); reflexivity. Qed.

Lemma probe_removes (p : path) (w : World) :
  count is_remove (trace (probe p w)) = count is_remove (trace w).
Proof. unfold probe. destruct (look p w); reflexivity. Qed.

Lemma probe_counted (p : path) (w : World) :
  count (is_probe p) (trace (probe p w)) = S (count (is_probe p) (trace w)).
Proof. unfold probe. destruct (look p w), p; reflexivity. Qed.

Lemma at_look_next (p : path) (n : nat) (w : World) :
  at_look p E self (S n) w = sleep E self (probe p (at_look p E self n w)).
Proof. reflexivity. Qed.

Lemma at_look_shift (p : path) (n : nat) (w : World) :
  at_look p E self (S n) w = at_look p E self n (sleep E self (probe p w)).
Proof.
  unfold at_look.
  exact (Nat.iter_succ_r n World (fun v => sleep E self (probe p v)) w).
Qed.

Lemma at_look_naps (p : path) (n : nat) (w : World) :
  naps (at_look p E self n w) = (n + naps w)%nat.
Proof.
  induction n as [|n IH]; [reflexivity|].
  rewrite at_look_next. simpl. destruct (probe_keeps p (at_look p E self n w)) as (_ & _ & Hn & _).
  rewrite Hn, IH. reflexivity.
Qed.

Lemma at_look_uuids (p : path) (n : nat) (w : World) :
  uuids (at_look p E self n w) = uuids w.
Proof.
  induction n as [|n IH]; [reflexivity|].
  rewrite at_look_next. simpl. destruct (probe_keeps p (at_look p E self n w)) as (_ & _ & _ & Hu).
  congruence.
Qed.

Lemma at_look_requests (p : path) (n : nat) (w : World) :
  requests (trace (at_look p E self n w)) = requests (trace w).
Proof.
  induction n as [|n IH]; [reflexivity|].
  rewrite at_look_next. simpl. rewrite probe_requests. exact IH.
Qed.

Lemma at_look_removes (p : path) (n : nat) (w : World) :
  count is_remove (trace (at_look p E self n w)) = count is_remove (trace w).
Proof.
  induction n as [|n IH]; [reflexivity|].
  rewrite at_look_next. unfold sleep, count. simpl.
  fold (count is_remove (trace (probe p (at_look p E self n w)))).
  rewrite probe_removes. exact IH.
Qed.

Lemma at_look_probes (p : path) (n : nat) (w : World) :
  count (is_probe p) (trace (at_look p E self n w))
  = (n + count (is_probe p) (trace w))%nat.
Proof.
  induction n as [|n IH]; [reflexivity|].
  rewrite at_look_next. unfold sleep, count. simpl.
  fold (count (is_probe p) (trace (probe p (at_look p E self n w)))).
  rewrite probe_counted, IH. reflexivity.
Qed.

(** A sleep lasts the interval at least. *)
Lemma at_look_clock_step (p : path) (n : nat) (w : World) :
  clock (at_look p E self n w) + poll_interval self
  <= clock (at_look p E self (S n) w).
Proof.
  rewrite at_look_next. simpl.
  destruct (probe_keeps p (at_look p E self n w)) as (_ & Hc & _).
  rewrite Hc. lia.
Qed.

(** Without overrun a sleep lasts the interval exactly. *)
Lemma at_look_clock_exact (p : path) (n : nat) (w : World) :
  (forall k, lag E k = 0%N) ->
  clock (at_look p E self (S n) w)
  = clock (at_look p E self n w) + poll_interval self.
Proof.
  intros Hlag. rewrite at_look_next. simpl.
  destruct (probe_keeps p (at_look p E self n w)) as (_ & Hc & _).
  rewrite Hc, Hlag. lia.
Qed.

Lemma at_look_clock (p : path) (n : nat) (w : World) :
  0 <= poll_interval self ->
  clock w + Z.of_nat n * poll_interval self <= clock (at_look p E self n w).
Proof.
  intros Hp. induction n as [|n IH]; [simpl; lia|].
  pose proof (at_look_clock_step p n w). lia.
Qed.

Lemma at_look_clock_mono (p : path) (j n : nat) (w : World) :
  0 <= poll_interval self -> (j <= n)%nat ->
  clock (at_look p E self j w) <= clock (at_look p E self n w).
Proof.
  intros Hp Hjn. induction Hjn as [|n Hjn IH]; [lia|].
  pose proof (at_look_clock_step p n w). lia.
Qed.

(** *** One turn of the loop *)

Lemma check_passed_over (action_id : string) (w : World) :
  passed_over action_id (result_file (files w)) = true ->
  check_result E action_id w = (None, probe ResultFile w).
Proof.
  unfold check_result, passed_over, foreign.
  destruct (result_file (files w)) as [|msg| |[| | | | |d]|e0]; try discriminate; auto.
  destruct (eq_str (dict_get d "actionId" PNone) action_id); [discriminate|auto].
Qed.

Lemma poll_turn (fuel : nat) (action_type action_id : string) (start_time : Z)
      (w : World) :
  passed_over action_id (result_file (files w)) = true ->
  clock w - start_time < max_wait_time ->
  poll (S fuel) E self action_type action_id start_time w
  = poll fuel E self action_type action_id start_time
         (sleep E self (probe ResultFile w)).
Proof.
  intros Hpass Hclock. simpl.
  apply Z.ltb_lt in Hclock. rewrite Hclock.
  rewrite (check_passed_over _ _ Hpass). reflexivity.
Qed.

(** While the looks are passed over before the limit, the loop is where
    [at_look] says. *)
Lemma poll_skip (n fuel : nat) (action_type action_id : string) (start_time : Z)
      (w : World) :
  (forall j, (j < n)%nat ->
             passed_over action_id
                         (result_file (files (at_look ResultFile E self j w))) = true
             /\ clock (at_look ResultFile E self j w) - start_time < max_wait_time) ->
  poll (n + fuel) E self action_type action_id start_time w
  = poll fuel E self action_type action_id start_time
         (at_look ResultFile E self n w).
Proof.
  revert fuel. induction n as [|n IH]; intros fuel Hall; [reflexivity|].
  replace (S n + fuel)%nat with (n + S fuel)%nat by lia.
  rewrite IH by (intros j Hj; apply Hall; lia).
  destruct (Hall n (Nat.lt_succ_diag_r n)) as [Hpass Hclock].
  rewrite poll_turn by assumption. reflexivity.
Qed.

Lemma poll_requests (fuel : nat) (action_type action_id : string) (start_time : Z)
      (w : World) (r : result pyval) (w' : World) :
  poll fuel E self action_type action_id start_time w = Some (r, w') ->
  requests (trace w') = requests (trace w).
Proof.
  revert w. induction fuel as [|fuel IH]; intros w; simpl; [discriminate|].
  destruct (clock w - start_time <? max_wait_time).
  - destruct (check_result E action_id w) as [[r0|] w0] eqn:Hcheck.
    + intros H; inversion H; subst; clear H.
      unfold check_result in Hcheck.
      destruct (result_file (files w)) as [|msg| |[| | | | |d]|e0];
        try (inversion Hcheck; subst; apply probe_requests).
      destruct (eq_str _ _); [|discriminate].
      destruct (truthy _); [destruct (decode_fault _ _)|];
        inversion Hcheck; subst; simpl; apply probe_requests.
    + intros H. apply IH in H. simpl in H. rewrite H.
      unfold check_result in Hcheck.
      destruct (result_file (files w)) as [|msg| |[| | | | |d]|e0];
        try (inversion Hcheck; subst; apply probe_requests).
      destruct (eq_str _ _); [|inversion Hcheck; subst; apply probe_requests].
      destruct (truthy _); [destruct (decode_fault _ _)|]; discriminate.
  - intros H; inversion H; subst; reflexivity.
Qed.

(** The loop ends: every sleep takes a millisecond off what is left. *)
Lemma poll_ends (fuel : nat) (action_type action_id : string) (start_time : Z)
      (w : World) :
  0 < poll_interval self ->
  (Z.to_nat (max_wait_time - (clock w - start_time)) < fuel)%nat ->
  exists r w', poll fuel E self action_type action_id start_time w = Some (r, w').
Proof.
  intros Hp. revert w. induction fuel as [|fuel IH]; intros w Hfuel; [lia|].
  simpl. destruct (clock w - start_time <? max_wait_time) eqn:Hclock.
  - destruct (check_result E action_id w) as [[r0|] w0] eqn:Hcheck; [eauto|].
    apply IH. rewrite sleep_clock.
    assert (clock w0 = clock w) as ->.
    { unfold check_result in Hcheck.
      destruct (result_file (files w)) as [|msg| |[| | | | |d]|e0];
        try (inversion Hcheck; subst; apply probe_keeps).
      destruct (eq_str _ _); [|inversion Hcheck; subst; apply probe_keeps].
      destruct (truthy _); [destruct (decode_fault _ _)|]; discriminate. }
    apply Z.ltb_lt in Hclock. lia.
  - eauto.
Qed.

End Course.

(** ** _execute_action: the request/result protocol *)

Section Protocol.

Variable E : Env.
Variable self : Wrapper.
Variable action_type : string.
Variable parameters : list (string * string).
Variable w : World.

Let action_id : string := uuid4 E (uuids w).
Let w1 : World := submitted E action_type parameters w.
Let seen (j : nat) : World := at_look ResultFile E self j w1.

Lemma execute_polls :
  _execute_action E self action_type parameters w
  = poll enough E self action_type action_id (clock w1) w1.
Proof. reflexivity. Qed.

Lemma submitted_requests :
  requests (trace w1)
  = action_data action_type parameters (clock w) action_id :: requests (trace w).
Proof. reflexivity. Qed.

Lemma submitted_removes :
  count is_remove (trace w1) = count is_remove (trace w).
Proof. reflexivity. Qed.

(** A look before the limit is one of the first [max_wait_time] looks. *)
Lemma look_in_time (n : nat) :
  0 < poll_interval self ->
  clock (seen n) - clock w1 < max_wait_time ->
  (n < Z.to_nat max_wait_time)%nat.
Proof.
  intros Hp Hclock.
  pose proof (at_look_clock E self ResultFile n w1 (Z.lt_le_incl _ _ Hp)) as Hlow.
  unfold seen in Hclock.
  assert (Z.of_nat n * 1 <= Z.of_nat n * poll_interval self) as Hmul
      by (apply Z.mul_le_mono_nonneg_l; lia).
  lia.
Qed.

(** The run up to the look [n], when the looks before it are passed over
    and the look [n] comes before the limit. *)
Lemma execute_reaches (n : nat) :
  0 < poll_interval self ->
  (forall j, (j < n)%nat ->
             passed_over action_id (result_file (files (seen j))) = true) ->
  clock (seen n) - clock w1 < max_wait_time ->
  _execute_action E self action_type parameters w
  = poll (enough - n) E self action_type action_id (clock w1) (seen n)
  /\ (0 < enough - n)%nat.
Proof.
  intros Hp Hpass Hclock.
  pose proof (look_in_time n Hp Hclock) as Hn.
  assert (0 < enough - n)%nat as Hpos by (unfold enough; lia).
  split; [|exact Hpos].
  rewrite execute_polls.
  replace enough with (n + (enough - n))%nat at 1 by (unfold enough; lia).
  apply poll_skip. intros j Hj. split; [apply Hpass; exact Hj|].
  pose proof (at_look_clock_mono E self ResultFile j n w1 (Z.lt_le_incl _ _ Hp)
                                 (Nat.lt_le_incl _ _ Hj)) as Hmono.
  unfold seen in *. lia.
Qed.

(** The look that finds the answer. *)
Lemma poll_answer (fuel : nat) (v : World) (d : list (string * pyval)) :
  clock v - clock w1 < max_wait_time ->
  result_file (files v) = Doc (PDict d) ->
  eq_str (dict_get d "actionId" PNone) action_id = true ->
  poll (S fuel) E self action_type action_id (clock w1) v
  = Some (if truthy (dict_get d "success" PNone)
          then match decode_fault E (dict_get d "result" (PStr "")) with
               | Some e => Raised e
               | None => Returned (decode E (dict_get d "result" (PStr "")))
               end
          else Raised (Raise Exception
                             ("Action failed: "
                                ++ str (dict_get d "error" (PStr "Unknown error")))),
          remove (probe ResultFile v)).
Proof.
  intros Hclock Hfile Hid. cbn [poll].
  apply Z.ltb_lt in Hclock. rewrite Hclock.
  unfold check_result. rewrite Hfile, Hid.
  destruct (truthy (dict_get d "success" PNone)); [|reflexivity].
  destruct (decode_fault E (dict_get d "result" (PStr ""))); reflexivity.
Qed.


End Protocol.

(** The call always ends, with a value or with an exception. *)
Lemma execute_ends (E : Env) (self : Wrapper) (action_type : string)
      (parameters : list (string * string)) (w : World) :
  0 < poll_interval self ->
  exists r w',
    _execute_action E self action_type parameters w = Some (r, w')
    /\ requests (trace w')
       = action_data action_type parameters (clock w) (uuid4 E (uuids w))
           :: requests (trace w).
Proof.
  intros Hp. rewrite execute_polls.
  destruct (poll_ends E self enough action_type (uuid4 E (uuids w))
                      (clock (submitted E action_type parameters w))
                      (submitted E action_type parameters w) Hp) as (r & w' & Hrun).
  - unfold enough. rewrite Z.sub_diag, Z.sub_0_r. lia.
  - exists r, w'. split; [exact Hrun|].
    rewrite (poll_requests _ _ _ _ _ _ _ _ _ Hrun). reflexivity.
Qed.

(** A look changes of the files nothing but the result file. *)
Lemma check_result_others (E : Env) (action_id : string) (v : World) :
  actions_file (files (snd (check_result E action_id v))) = actions_file (files v)
  /\ state_file (files (snd (check_result E action_id v))) = state_file (files v).
Proof.
  unfold check_result. destruct (probe_keeps ResultFile v) as (Hf & _).
  destruct (result_file (files v)) as [|msg| |[| | | | |d]|e0];
    cbn [snd]; try (rewrite Hf; auto).
  destruct (eq_str _ _); [|cbn [snd]; rewrite Hf; auto].
  destruct (truthy _); [destruct (decode_fault _ _)|];
    cbn [snd remove files actions_file state_file]; rewrite Hf; auto.
Qed.

(** With an executor that leaves the actions file alone, the loop leaves it
    as it found it. *)
Lemma poll_actions (E : Env) (self : Wrapper) (fuel : nat)
      (action_type action_id : string) (start_time : Z)
      (w : World) (r : result pyval) (w' : World) :
  (forall k fs, actions_file (executor E k fs) = actions_file fs) ->
  poll fuel E self action_type action_id start_time w = Some (r, w') ->
  actions_file (files w') = actions_file (files w).
Proof.
  intros Hkeep. revert w.
  induction fuel as [|fuel IH]; intros w; cbn [poll]; [discriminate|].
  destruct (clock w - start_time <? max_wait_time).
  - pose proof (check_result_others E action_id w) as [Ha _].
    destruct (check_result E action_id w) as [[r0|] w0]; cbn [snd] in Ha.
    + intros H; inversion H; subst. exact Ha.
    + intros H. apply IH in H. rewrite H. cbn [sleep files].
      rewrite Hkeep. exact Ha.
  - intros H; inversion H; subst; reflexivity.
Qed.

(** The call always ends, having written its request once; the request is
    what the actions file holds unless the executor has changed it. *)
Lemma execute_sends (E : Env) (self : Wrapper) (action_type : string)
      (parameters : list (string * string)) (w : World) :
  0 < poll_interval self ->
  exists r w',
    _execute_action E self action_type parameters w = Some (r, w')
    /\ requests (trace w')
       = action_data action_type parameters (clock w) (uuid4 E (uuids w))
           :: requests (trace w)
    /\ ((forall k fs, actions_file (executor E k fs) = actions_file fs) ->
        actions_file (files w')
        = Doc (action_data action_type parameters (clock w) (uuid4 E (uuids w)))).
Proof.
  intros Hp.
  destruct (execute_ends E self action_type parameters w Hp)
    as (r & w' & Hrun & Hsent).
  exists r, w'. split; [exact Hrun|]. split; [exact Hsent|].
  intros Hkeep. rewrite execute_polls in Hrun.
  rewrite (poll_actions _ _ _ _ _ _ _ _ _ Hkeep Hrun). reflexivity.
Qed.

(** X23.  Whatever the action type and the parameters: when, before the 30
    seconds are over, the poll loop finds in the result file an object whose
    [actionId] is the one just written and whose [success] is true (the
    earlier looks having found no file, a partial file or another
    [actionId]), and [json.loads] raises on the [result] nothing but what
    its handler catches, [_execute_action] removes the result file and
    returns the [result] string decoded by [json.loads], or the string
    itself when [json.loads] rejects it with JSONDecodeError; the result
    file is gone afterwards. *)
Theorem execute_returns_decoded_result
        (E : Env) (self : Wrapper) (action_type : string)
        (parameters : list (string * string)) (w : World)
        (n : nat) (d : list (string * pyval)) :
  0 < poll_interval self ->
  let action_id := uuid4 E (uuids w) in
  let w1 := submitted E action_type parameters w in
  let seen := fun j => at_look ResultFile E self j w1 in
  (forall j, (j < n)%nat ->
             passed_over action_id (result_file (files (seen j))) = true) ->
  clock (seen n) - clock w1 < max_wait_time ->
  result_file (files (seen n)) = Doc (PDict d) ->
  eq_str (dict_get d "actionId" PNone) action_id = true ->
  truthy (dict_get d "success" PNone) = true ->
  decode_fault E (dict_get d "result" (PStr "")) = None ->
  let w' := remove (probe ResultFile (seen n)) in
  _execute_action E self action_type parameters w
  = Some (Returned (decode E (dict_get d "result" (PStr ""))), w')
  /\ result_file (files w') = Missing
  /\ trace w' = Remove :: trace (probe ResultFile (seen n))
  /\ (forall s, dict_get d "result" (PStr "") = PStr s ->
                decode E (dict_get d "result" (PStr ""))
                = match json_loads E s with
                  | Some v => v
                  | None => PStr s
                  end).
Proof.
  intros Hp action_id w1 seen Hpass Hclock Hfile Hid Hsuccess Hnone w'.
  destruct (execute_reaches E self action_type parameters w n Hp Hpass Hclock)
    as [Hrun Hfuel].
  repeat split.
  - rewrite Hrun.
    destruct (enough - n)%nat as [|fuel] eqn:Hleft; [lia|].
    etransitivity.
    { exact (poll_answer E self action_type parameters w fuel (seen n) d
                         Hclock Hfile Hid). }
    rewrite Hsuccess, Hnone. reflexivity.
  - intros s Hs. rewrite Hs. reflexivity.
Qed.

(** C1.  The case the handler around [json.loads] misses.  When, before the
    30 seconds are over, the poll loop finds in the result file an object
    whose [actionId] is the one just written and whose [success] is true,
    and [json.loads] raises on its [result] string an exception [e] that is
    neither JSONDecodeError nor TypeError (the plain ValueError of the digit
    limit on a number of more than 4300 digits, RecursionError on deep
    nesting), [_execute_action] has removed the result file and raises [e]
    to its caller: the string is not returned as it is. *)
Theorem undecodable_result_is_raised
        (E : Env) (self : Wrapper) (action_type : string)
        (parameters : list (string * string)) (w : World)
        (n : nat) (d : list (string * pyval)) (s : string) (e : exn) :
  0 < poll_interval self ->
  let action_id := uuid4 E (uuids w) in
  let w1 := submitted E action_type parameters w in
  let seen := fun j => at_look ResultFile E self j w1 in
  (forall j, (j < n)%nat ->
             passed_over action_id (result_file (files (seen j))) = true) ->
  clock (seen n) - clock w1 < max_wait_time ->
  result_file (files (seen n)) = Doc (PDict d) ->
  eq_str (dict_get d "actionId" PNone) action_id = true ->
  truthy (dict_get d "success" PNone) = true ->
  dict_get d "result" (PStr "") = PStr s ->
  json_loads_fault E s = Some e ->
  let w' := remove (probe ResultFile (seen n)) in
  _execute_action E self action_type parameters w = Some (Raised e, w')
  /\ result_file (files w') = Missing
  /\ trace w' = Remove :: trace (probe ResultFile (seen n)).
Proof.
  intros Hp action_id w1 seen Hpass Hclock Hfile Hid Hsuccess Hresult Hfault w'.
  destruct (execute_reaches E self action_type parameters w n Hp Hpass Hclock)
    as [Hrun Hfuel].
  repeat split.
  rewrite Hrun.
  destruct (enough - n)%nat as [|fuel] eqn:Hleft; [lia|].
  etransitivity.
  { exact (poll_answer E self action_type parameters w fuel (seen n) d
                       Hclock Hfile Hid). }
  rewrite Hsuccess, Hresult. cbn [decode_fault]. rewrite Hfault. reflexivity.
Qed.

(** X24.  A look of the poll loop that finds a result file [json.load]
    rejects with JSONDecodeError, or an object with another [actionId],
    leaves the file as it is: no [os.remove] has been called since the call
    began, and the call sleeps and goes on with the loop at the next
    look. *)
Theorem foreign_result_is_not_deleted
        (E : Env) (self : Wrapper) (action_type : string)
        (parameters : list (string * string)) (w : World) (n : nat) :
  0 < poll_interval self ->
  let action_id := uuid4 E (uuids w) in
  let w1 := submitted E action_type parameters w in
  let seen := fun j => at_look ResultFile E self j w1 in
  (forall j, (j < n)%nat ->
             passed_over action_id (result_file (files (seen j))) = true) ->
  clock (seen n) - clock w1 < max_wait_time ->
  foreign action_id (result_file (files (seen n))) = true ->
  let after := snd (check_result E action_id (seen n)) in
  fst (check_result E action_id (seen n)) = None
  /\ files after = files (seen n)
  /\ count is_remove (trace after) = count is_remove (trace w)
  /\ seen (S n) = sleep E self after
  /\ _execute_action E self action_type parameters w
     = poll (enough - S n) E self action_type action_id (clock w1) (seen (S n))
  /\ (0 < enough - S n)%nat.
Proof.
  intros Hp action_id w1 seen Hpass Hclock Hforeign after.
  assert (passed_over action_id (result_file (files (seen n))) = true) as Hover.
  { unfold passed_over. destruct (result_file (files (seen n))); auto. }
  assert (check_result E action_id (seen n) = (None, probe ResultFile (seen n)))
    as Hcheck by (apply check_passed_over; exact Hover).
  destruct (execute_reaches E self action_type parameters w n Hp Hpass Hclock)
    as [Hrun Hfuel].
  pose proof (look_in_time E self action_type parameters w n Hp Hclock) as Hn.
  unfold after. rewrite Hcheck. cbn [fst snd].
  split; [reflexivity|].
  split; [apply probe_keeps|].
  split.
  { rewrite probe_removes. unfold seen. rewrite at_look_removes. reflexivity. }
  split; [reflexivity|].
  split; [|unfold enough; lia].
  rewrite Hrun.
  replace (enough - n)%nat with (S (enough - S n)) by (unfold enough; lia).
  apply poll_turn; assumption.
Qed.

(** C2.  The partial write the handler of the loop misses.  When a look
    of the poll loop, before the 30 seconds are over, finds a result file on
    which [json.load] raises an exception [e] that is neither
    JSONDecodeError nor KeyError (UnicodeDecodeError on a file cut inside a
    character of several bytes), [_execute_action] raises [e] to its caller
    at that look: it does not sleep and look again.  The file is left in
    place and [os.remove] has not been called. *)
Theorem result_cut_inside_a_character_ends_the_call
        (E : Env) (self : Wrapper) (action_type : string)
        (parameters : list (string * string)) (w : World) (n : nat) (e : exn) :
  0 < poll_interval self ->
  let action_id := uuid4 E (uuids w) in
  let w1 := submitted E action_type parameters w in
  let seen := fun j => at_look ResultFile E self j w1 in
  (forall j, (j < n)%nat ->
             passed_over action_id (result_file (files (seen j))) = true) ->
  clock (seen n) - clock w1 < max_wait_time ->
  result_file (files (seen n)) = Corrupt e ->
  let w' := probe ResultFile (seen n) in
  _execute_action E self action_type parameters w = Some (Raised e, w')
  /\ result_file (files w') = Corrupt e
  /\ naps w' = (n + naps w)%nat
  /\ count is_remove (trace w') = count is_remove (trace w).
Proof.
  intros Hp action_id w1 seen Hpass Hclock Hfile w'.
  destruct (execute_reaches E self action_type parameters w n Hp Hpass Hclock)
    as [Hrun Hfuel].
  apply Z.ltb_lt in Hclock.
  destruct (probe_keeps ResultFile (seen n)) as (Hf & _ & Hn & _).
  split; [|split; [|split]].
  - rewrite Hrun.
    destruct (enough - n)%nat as [|fuel]; [lia|].
    cbn [poll]. fold w1 (seen n). rewrite Hclock.
    unfold check_result. rewrite Hfile. reflexivity.
  - unfold w'. rewrite Hf. exact Hfile.
  - unfold w'. rewrite Hn. unfold seen. rewrite at_look_naps. reflexivity.
  - unfold w'. rewrite probe_removes. unfold seen. rewrite at_look_removes.
    reflexivity.
Qed.


(** C4.  When the poll loop finds in the result file an object whose
    [actionId] is the one just written and whose [success] is false (or
    absent), [_execute_action] removes the result file and then raises
    Exception("Action failed: <error>"), which is not a TimeoutError;
    <error> is the [error] field, "Unknown error" without one.  The request
    has been written once. *)
Theorem execute_raises_action_failure
        (E : Env) (self : Wrapper) (action_type : string)
        (parameters : list (string * string)) (w : World)
        (n : nat) (d : list (string * pyval)) :
  0 < poll_interval self ->
  let action_id := uuid4 E (uuids w) in
  let w1 := submitted E action_type parameters w in
  let seen := fun j => at_look ResultFile E self j w1 in
  (forall j, (j < n)%nat ->
             passed_over action_id (result_file (files (seen j))) = true) ->
  clock (seen n) - clock w1 < max_wait_time ->
  result_file (files (seen n)) = Doc (PDict d) ->
  eq_str (dict_get d "actionId" PNone) action_id = true ->
  truthy (dict_get d "success" PNone) = false ->
  let w' := remove (probe ResultFile (seen n)) in
  let failure :=
    Raise Exception
          ("Action failed: " ++ str (dict_get d "error" (PStr "Unknown error"))) in
  _execute_action E self action_type parameters w = Some (Raised failure, w')
  /\ exn_of failure <> TimeoutError
  /\ (forall s, assoc "error" d = Some (PStr s) ->
                exn_msg failure = "Action failed: " ++ s)
  /\ (assoc "error" d = None -> exn_msg failure = "Action failed: Unknown error")
  /\ result_file (files w') = Missing
  /\ trace w' = Remove :: trace (probe ResultFile (seen n))
  /\ requests (trace w')
     = action_data action_type parameters (clock w) action_id :: requests (trace w).
Proof.
  intros Hp action_id w1 seen Hpass Hclock Hfile Hid Hsuccess w' failure.
  destruct (execute_reaches E self action_type parameters w n Hp Hpass Hclock)
    as [Hrun Hfuel].
  split; [|split; [|split; [|split; [|split; [|split]]]]].
  - rewrite Hrun.
    destruct (enough - n)%nat as [|fuel] eqn:Hleft; [lia|].
    etransitivity.
    { exact (poll_answer E self action_type parameters w fuel (seen n) d
                         Hclock Hfile Hid). }
    rewrite Hsuccess. reflexivity.
  - discriminate.
  - intros s Hs. unfold failure, dict_get. rewrite Hs. reflexivity.
  - intros Hnone. unfold failure, dict_get. rewrite Hnone. reflexivity.
  - reflexivity.
  - reflexivity.
  - unfold w'. cbn [remove trace requests]. rewrite probe_requests.
    unfold seen. rewrite at_look_requests. reflexivity.
Qed.

(** *** The protocol at work *)

Lemma untouched_files (p : path) (self : Wrapper) (j : nat) (w : World) :
  files (at_look p (Demo.env Demo.untouched) self j w) = files w.
Proof.
  induction j as [|j IH]; [reflexivity|].
  rewrite at_look_next. cbn [sleep files Demo.env executor Demo.untouched].
  destruct (probe_keeps p (at_look p (Demo.env Demo.untouched) self j w)) as (Hf & _).
  rewrite Hf. exact IH.
Qed.

(** The executor answers during the third sleep: the value is returned at
    the fourth look and the file is gone. *)
Lemma execute_returns_decoded_result_witness :
  exists w',
    _execute_action
      (Demo.env (Demo.writes_at 2
                   (Demo.answer_to "id-0" [("success", PBool true);
                                           ("result", PStr "[1, 2]")])))
      (init 100) "tap_by_index" [("index", "7")] (Demo.boot Demo.nothing)
    = Some (Returned (PList [PInt 1; PInt 2]), w')
    /\ result_file (files w') = Missing.
Proof.
  destruct (execute_returns_decoded_result
              (Demo.env (Demo.writes_at 2
                           (Demo.answer_to "id-0" [("success", PBool true);
                                                   ("result", PStr "[1, 2]")])))
              (init 100) "tap_by_index" [("index", "7")] (Demo.boot Demo.nothing)
              3%nat [("actionId", PStr "id-0"); ("success", PBool true);
                     ("result", PStr "[1, 2]")])
    as (Hrun & Hgone & _).
  - reflexivity.
  - intros [|[|[|j]]] Hj; [reflexivity | reflexivity | reflexivity | lia].
  - vm_compute. reflexivity.
  - reflexivity.
  - reflexivity.
  - reflexivity.
  - reflexivity.
  - eexists. split; [exact Hrun | exact Hgone].
Defined.

(** The executor answers during the first sleep with a [result] of 4301
    digits: [json.loads] raises the ValueError of the digit limit, and so
    does the call, the file being gone. *)
Lemma undecodable_result_is_raised_witness :
  exists w',
    _execute_action
      (Demo.env (Demo.writes_at 0
                   (Demo.answer_to "id-0" [("success", PBool true);
                                           ("result", PStr (Demo.ones 4301))])))
      (init 100) "tap_by_index" [("index", "7")] (Demo.boot Demo.nothing)
    = Some (Raised (Raise ValueError
                          "Exceeds the limit (4300 digits) for integer string conversion: value has 4301 digits; use sys.set_int_max_str_digits() to increase the limit"),
            w')
    /\ result_file (files w') = Missing.
Proof.
  destruct (undecodable_result_is_raised
              (Demo.env (Demo.writes_at 0
                           (Demo.answer_to "id-0"
                              [("success", PBool true);
                               ("result", PStr (Demo.ones 4301))])))
              (init 100) "tap_by_index" [("index", "7")] (Demo.boot Demo.nothing)
              1%nat [("actionId", PStr "id-0"); ("success", PBool true);
                     ("result", PStr (Demo.ones 4301))]
              (Demo.ones 4301)
              (Raise ValueError
                     "Exceeds the limit (4300 digits) for integer string conversion: value has 4301 digits; use sys.set_int_max_str_digits() to increase the limit"))
    as (Hrun & Hgone & _).
  - reflexivity.
  - intros [|j] Hj; [reflexivity | lia].
  - vm_compute. reflexivity.
  - reflexivity.
  - reflexivity.
  - reflexivity.
  - reflexivity.
  - vm_compute. reflexivity.
  - eexists. split; [exact Hrun | exact Hgone].
Defined.

(** A result for another call lies in the file from the first sleep on: at
    the second look it is found, left in place, and the call goes on. *)
Lemma foreign_result_is_not_deleted_witness :
  let E := Demo.env (Demo.keeps_writing
                       (Demo.answer_to "id-9" [("success", PBool true)])) in
  let w1 := submitted E "back" [] (Demo.boot Demo.nothing) in
  let seen := fun j => at_look ResultFile E (init 100) j w1 in
  result_file (files (snd (check_result E "id-0" (seen 1%nat))))
  = Demo.answer_to "id-9" [("success", PBool true)]
  /\ _execute_action E (init 100) "back" [] (Demo.boot Demo.nothing)
     = poll (enough - 2) E (init 100) "back" "id-0" (clock w1) (seen 2%nat).
Proof.
  intros E w1 seen.
  destruct (foreign_result_is_not_deleted E (init 100) "back" []
                                          (Demo.boot Demo.nothing) 1%nat)
    as (_ & Hkept & _ & _ & Hrun & _).
  - reflexivity.
  - intros [|j] Hj; [reflexivity | lia].
  - vm_compute. reflexivity.
  - reflexivity.
  - split; [exact (f_equal result_file Hkept) | exact Hrun].
Defined.

(** The executor's write is seen cut inside a character at the second
    look: the call raises the UnicodeDecodeError and the file stays. *)
Lemma result_cut_inside_a_character_ends_the_call_witness :
  let e := Raise UnicodeDecodeError
                 "'utf-8' codec can't decode byte 0xc3 in position 31: unexpected end of data" in
  exists w',
    _execute_action (Demo.env (Demo.writes_at 0 (Corrupt e)))
                    (init 100) "back" [] (Demo.boot Demo.nothing)
    = Some (Raised e, w')
    /\ result_file (files w') = Corrupt e
    /\ naps w' = 1%nat
    /\ count is_remove (trace w') = 0%nat.
Proof.
  intros e.
  destruct (result_cut_inside_a_character_ends_the_call
              (Demo.env (Demo.writes_at 0 (Corrupt e)))
              (init 100) "back" [] (Demo.boot Demo.nothing) 1%nat e)
    as (Hrun & Hfile & Hnaps & Hkept).
  - reflexivity.
  - intros [|j] Hj; [reflexivity | lia].
  - vm_compute. reflexivity.
  - reflexivity.
  - eexists. split; [exact Hrun|]. split; [exact Hfile|].
    split; [exact Hnaps | exact Hkept].
Defined.


(** The executor reports a failure during the first sleep. *)
Lemma execute_raises_action_failure_witness :
  exists w',
    _execute_action
      (Demo.env (Demo.writes_at 0
                   (Demo.answer_to "id-0" [("success", PBool false);
                                           ("error", PStr "No such element")])))
      (init 100) "tap_by_index" [("index", "7")] (Demo.boot Demo.nothing)
    = Some (Raised (Raise Exception "Action failed: No such element"), w')
    /\ result_file (files w') = Missing
    /\ List.length (requests (trace w')) = 1%nat.
Proof.
  destruct (execute_raises_action_failure
              (Demo.env (Demo.writes_at 0
                           (Demo.answer_to "id-0" [("success", PBool false);
                                                   ("error", PStr "No such element")])))
              (init 100) "tap_by_index" [("index", "7")] (Demo.boot Demo.nothing)
              1%nat [("actionId", PStr "id-0"); ("success", PBool false);
                     ("error", PStr "No such element")])
    as (Hrun & _ & _ & _ & Hgone & _ & Hsent).
  - reflexivity.
  - intros [|j] Hj; [reflexivity | lia].
  - vm_compute. reflexivity.
  - reflexivity.
  - reflexivity.
  - reflexivity.
  - eexists. split; [exact Hrun|]. split; [exact Hgone|].
    rewrite Hsent. reflexivity.
Defined.

(** ** _extract_element_coordinates_by_index: the resolver *)

Lemma find_element_nil (depth : nat) (target_index : Z) :
  find_element_by_index (S depth) [] target_index = Some (Returned PNone).
Proof. reflexivity. Qed.

Lemma find_element_cons (depth : nat) (item : pyval) (items : list pyval)
      (target_index : Z) :
  find_element_by_index (S depth) (item :: items) target_index
  = match item with
    | PDict d =>
        if eq_int (dict_get d "index" PNone) target_index
        then Some (Returned item)
        else
          let children := dict_get d "children" (PList []) in
          if truthy children then
            match iterate children with
            | Raised e => Some (Raised e)
            | Returned kids =>
                match find_element_by_index depth kids target_index with
                | None => None
                | Some (Raised e) => Some (Raised e)
                | Some (Returned found) =>
                    if truthy found then Some (Returned found)
                    else find_element_by_index (S depth) items target_index
                end
            end
          else find_element_by_index (S depth) items target_index
    | _ => Some (Raised (no_attribute item "get"))
    end.
Proof. reflexivity. Qed.

Lemma well_formed_dict (d : list (string * pyval)) :
  well_formed (PDict d)
  = match assoc "children" d with
    | None => true
    | Some (PList l) => forallb well_formed l
    | Some _ => false
    end.
Proof.
  cbn [well_formed].
  induction d as [|[k c] d IH]; [reflexivity|].
  cbn [assoc]. rewrite (String.eqb_sym "children" k).
  destruct (k =? "children")%string; [|exact IH].
  destruct c; reflexivity.
Qed.

Lemma preorder_dict (d : list (string * pyval)) :
  preorder (PDict d)
  = PDict d :: match assoc "children" d with
               | Some (PList l) => flat_map preorder l
               | _ => []
               end.
Proof.
  cbn [preorder]. f_equal.
  induction d as [|[k c] d IH]; [reflexivity|].
  cbn [assoc]. rewrite (String.eqb_sym "children" k).
  destruct (k =? "children")%string; [|exact IH].
  destruct c; reflexivity.
Qed.

Lemma assoc_height (k : string) (d : list (string * pyval)) (c : pyval) :
  assoc k d = Some c -> (height c < height (PDict d))%nat.
Proof.
  cbn [height]. induction d as [|[k' c'] d IH]; [discriminate|].
  cbn [assoc fold_right snd]. destruct (k =? k')%string.
  - intros H; inversion H; subst. lia.
  - intros H. apply IH in H. lia.
Qed.

Lemma height_cons (x : pyval) (l : list pyval) :
  height (PList (x :: l)) = S (Nat.max (height x) (Nat.pred (height (PList l)))).
Proof. reflexivity. Qed.

Lemma find_app_none {A : Type} (f : A -> bool) (l1 l2 : list A) :
  find f l1 = None -> find f (l1 ++ l2) = find f l2.
Proof.
  induction l1 as [|x l1 IH]; [reflexivity|].
  cbn [find app]. destruct (f x); [discriminate|exact IH].
Qed.

Lemma find_app_some {A : Type} (f : A -> bool) (l1 l2 : list A) (x : A) :
  find f l1 = Some x -> find f (l1 ++ l2) = Some x.
Proof.
  induction l1 as [|y l1 IH]; [discriminate|].
  cbn [find app]. destruct (f y); [auto|exact IH].
Qed.

(** A node with the index is a non-empty dict, hence true for [if]. *)
Lemma has_index_truthy (target_index : Z) (item : pyval) :
  has_index target_index item = true -> truthy item = true.
Proof.
  destruct item as [| | | | |d]; try discriminate.
  destruct d; [discriminate|reflexivity].
Qed.

Lemma first_match_truthy (elements : list pyval) (target_index : Z) :
  truthy (first_match elements target_index)
  = match find (has_index target_index) (flat_map preorder elements) with
    | Some _ => true
    | None => false
    end.
Proof.
  unfold first_match.
  destruct (find _ _) as [item|] eqn:Hfind; [|reflexivity].
  apply find_some in Hfind. apply (has_index_truthy target_index), Hfind.
Qed.

(** The search returns the first node in preorder that has the index. *)
Lemma find_element_first_match (depth : nat) :
  forall (elements : list pyval) (target_index : Z),
    forallb well_formed elements = true ->
    (height (PList elements) <= depth)%nat ->
    find_element_by_index depth elements target_index
    = Some (Returned (first_match elements target_index)).
Proof.
  induction depth as [|depth IHdepth]; intros elements target_index Hwf Hheight.
  { cbn [height] in Hheight. lia. }
  induction elements as [|item items IHitems]; [reflexivity|].
  cbn [forallb] in Hwf. apply andb_prop in Hwf. destruct Hwf as [Hitem Hitems].
  rewrite height_cons in Hheight.
  assert (height (PList items) <= S depth)%nat as Hrest
      by (cbn [height] in *; lia).
  specialize (IHitems Hitems Hrest).
  rewrite find_element_cons.
  destruct item as [| | | | |d]; try discriminate.
  unfold first_match. cbn [flat_map]. rewrite preorder_dict.
  cbn [app find has_index].
  destruct (eq_int (dict_get d "index" PNone) target_index); [reflexivity|].
  rewrite well_formed_dict in Hitem.
  unfold dict_get at 1 2.
  destruct (assoc "children" d) as [c|] eqn:Hchildren.
  - destruct c as [| | | |l|]; try discriminate.
    pose proof (assoc_height _ _ _ Hchildren) as Hlow.
    destruct l as [|x l].
    + cbn [truthy flat_map app]. exact IHitems.
    + cbn [truthy iterate].
      rewrite (IHdepth (x :: l) target_index Hitem) by lia.
      rewrite first_match_truthy. unfold first_match at 1.
      destruct (find (has_index target_index) (flat_map preorder (x :: l)))
        as [found|] eqn:Hfound.
      * rewrite (find_app_some _ _ _ _ Hfound). reflexivity.
      * rewrite (find_app_none _ _ _ Hfound). exact IHitems.
  - cbn [truthy app]. exact IHitems.
Qed.

(** What a loop visits is at most one level deeper than flat. *)
Lemma iterate_height (v : pyval) (items : list pyval) :
  iterate v = Returned items -> (height (PList items) <= S (height v))%nat.
Proof.
  destruct v as [| | |s|l|d]; try discriminate;
    intros H; inversion H; subst; clear H.
  - assert (height (PList (map (fun c => PStr (String c EmptyString))
                               (list_ascii_of_string s))) <= 1)%nat; [|lia].
    induction (list_ascii_of_string s) as [|c l IH]; [cbn; lia|].
    cbn [map]. rewrite height_cons. cbn [height] in *. lia.
  - lia.
  - assert (height (PList (map (fun kv : string * pyval => PStr (fst kv)) d)) <= 1)%nat;
      [|lia].
    induction d as [|kv d IH]; [cbn; lia|].
    cbn [map]. rewrite height_cons. cbn [height] in *. lia.
Qed.

(** The bound on the nesting is never too small: the search always ends,
    with a node, with [None] or with an exception. *)
Lemma find_element_ends (depth : nat) :
  forall (elements : list pyval) (target_index : Z),
    (height (PList elements) <= depth)%nat ->
    find_element_by_index depth elements target_index <> None.
Proof.
  induction depth as [|depth IHdepth]; intros elements target_index Hheight.
  { cbn [height] in Hheight. lia. }
  induction elements as [|item items IHitems]; [discriminate|].
  rewrite height_cons in Hheight.
  assert (height (PList items) <= S depth)%nat as Hrest
      by (cbn [height] in *; lia).
  specialize (IHitems Hrest).
  rewrite find_element_cons.
  destruct item as [| | | | |d]; try discriminate.
  destruct (eq_int (dict_get d "index" PNone) target_index); [discriminate|].
  cbv zeta.
  destruct (truthy (dict_get d "children" (PList []))); [|exact IHitems].
  destruct (iterate (dict_get d "children" (PList []))) as [kids|e] eqn:Hkids;
    [|discriminate].
  assert (height (PList kids) <= depth)%nat as Hlow.
  { pose proof (iterate_height _ _ Hkids) as Hk.
    unfold dict_get in Hk, Hkids.
    destruct (assoc "children" d) as [c|] eqn:Hc.
    - pose proof (assoc_height _ _ _ Hc). cbn [height] in *. lia.
    - inversion Hkids; subst. cbn [height fold_right] in *. lia. }
  pose proof (IHdepth kids target_index Hlow) as Hsub.
  destruct (find_element_by_index depth kids target_index) as [[found|e]|];
    [|discriminate|contradiction].
  destruct (truthy found); [discriminate|exact IHitems].
Qed.

(** The resolver always ends: with coordinates or with an exception. *)
Lemma extract_ends (self : Wrapper) (index : Z) :
  _extract_element_coordinates_by_index self index <> None.
Proof.
  unfold _extract_element_coordinates_by_index.
  destruct (negb (truthy (clickable_elements_cache self))); [discriminate|].
  destruct (iterate (clickable_elements_cache self)) as [elements|e] eqn:Hiter;
    [|discriminate].
  pose proof (find_element_ends (S (height (clickable_elements_cache self)))
                                elements index (iterate_height _ _ Hiter)) as Hsub.
  destruct (find_element_by_index _ elements index) as [[element|e]|];
    [|discriminate|contradiction].
  destruct (negb (truthy element)); discriminate.
Qed.

Lemma center_of_bounds (element : pyval) (index : Z) (s : string)
      (left_ top right_ bottom : Z) :
  get element "bounds" PNone = Returned (PStr s) ->
  ints (split comma s) = Returned [left_; top; right_; bottom] ->
  center_of element index
  = Returned ((left_ + right_) / 2, (top + bottom) / 2).
Proof.
  intros Hget Hints. unfold center_of. rewrite Hget.
  destruct s as [|c s]; [discriminate|].
  cbn [truthy negb String.eqb]. rewrite Hints. reflexivity.
Qed.

Lemma center_of_returned (element : pyval) (index x y : Z) :
  center_of element index = Returned (x, y) ->
  exists s left_ top right_ bottom,
    get element "bounds" PNone = Returned (PStr s)
    /\ ints (split comma s) = Returned [left_; top; right_; bottom]
    /\ x = (left_ + right_) / 2 /\ y = (top + bottom) / 2.
Proof.
  unfold center_of.
  destruct (get element "bounds" PNone) as [bounds_str|e]; [|discriminate].
  destruct (negb (truthy bounds_str)); [discriminate|].
  destruct bounds_str as [| | |s| |]; try discriminate.
  destruct (ints (split comma s)) as [bounds|e] eqn:Hints; [|discriminate].
  destruct bounds as [|a [|b [|c [|d [|? ?]]]]]; try discriminate.
  intros H; inversion H; subst. exists s, a, b, c, d. repeat split. exact Hints.
Qed.

(** C5.  For a tree of elements (dicts whose [children], when present, is a
    list of elements) and a target index, the resolver takes the first node
    in preorder (a node, then its children in order) whose [index] equals
    the target; when it returns, it returns x = (left+right) div 2 and
    y = (top+bottom) div 2 of the node's four-integer bounds, the division
    rounding down.  On the tree
    [{index:1,bounds:"0,0,10,10"},{index:2,bounds:"0,0,20,20",
    children:[{index:3,bounds:"4,4,6,6"}]}] target 3 gives (5,5) and target
    99 raises ValueError("No element found with index 99"). *)
Theorem locate_takes_first_preorder_match :
  (forall (self : Wrapper) (elements : list pyval) (index : Z),
      clickable_elements_cache self = PList elements ->
      forallb well_formed elements = true ->
      _extract_element_coordinates_by_index self index
      = match elements with
        | [] =>
            Some (Raised (Raise ValueError
                                "No UI elements cached. Call get_state first."))
        | _ =>
            match find (has_index index) (flat_map preorder elements) with
            | Some element => Some (center_of element index)
            | None =>
                Some (Raised (Raise ValueError
                                    ("No element found with index "
                                       ++ str_of_int index)))
            end
        end)
  /\ (forall (element : pyval) (index x y : Z),
         center_of element index = Returned (x, y) ->
         exists s left_ top right_ bottom,
           get element "bounds" PNone = Returned (PStr s)
           /\ ints (split comma s) = Returned [left_; top; right_; bottom]
           /\ x = (left_ + right_) / 2 /\ y = (top + bottom) / 2
           /\ 2 * x <= left_ + right_ < 2 * x + 2
           /\ 2 * y <= top + bottom < 2 * y + 2)
  /\ (forall (element : pyval) (index : Z) (s : string)
             (left_ top right_ bottom : Z),
         get element "bounds" PNone = Returned (PStr s) ->
         ints (split comma s) = Returned [left_; top; right_; bottom] ->
         center_of element index
         = Returned ((left_ + right_) / 2, (top + bottom) / 2))
  /\ _extract_element_coordinates_by_index
       (set_cache (init 100) (PList Demo.tree)) 3
     = Some (Returned (5, 5))
  /\ _extract_element_coordinates_by_index
       (set_cache (init 100) (PList Demo.tree)) 99
     = Some (Raised (Raise ValueError "No element found with index 99")).
Proof.
  split; [|split; [|split; [|split]]].
  - intros self elements index Hcache Hwf.
    unfold _extract_element_coordinates_by_index. rewrite Hcache.
    destruct elements as [|item items]; [reflexivity|].
    cbn [truthy negb iterate].
    rewrite (find_element_first_match _ (item :: items) index Hwf
                                      (Nat.le_succ_diag_r _)).
    rewrite first_match_truthy. unfold first_match.
    destruct (find (has_index index) (flat_map preorder (item :: items)));
      reflexivity.
  - intros element index x y Hreturned.
    destruct (center_of_returned element index x y Hreturned)
      as (s & l & t & r & b & Hget & Hints & Hx & Hy).
    exists s, l, t, r, b. repeat split; try assumption; subst.
    + apply Z.mul_div_le. lia.
    + pose proof (Z.mul_succ_div_gt (l + r) 2). lia.
    + apply Z.mul_div_le. lia.
    + pose proof (Z.mul_succ_div_gt (t + b) 2). lia.
  - exact center_of_bounds.
  - vm_compute. reflexivity.
  - vm_compute. reflexivity.
Qed.

(** On the example tree the node with index 3 is found under the node with
    index 2. *)
Lemma locate_takes_first_preorder_match_witness :
  _extract_element_coordinates_by_index
    (set_cache (init 100) (PList Demo.tree)) 3
  = Some (center_of (PDict [("index", PInt 3); ("bounds", PStr "4,4,6,6")]) 3).
Proof.
  exact (proj1 locate_takes_first_preorder_match
               (set_cache (init 100) (PList Demo.tree)) Demo.tree 3
               eq_refl eq_refl).
Defined.

(** ** get_state: the state reader *)

Section Reader.

Variable E : Env.
Variable self : Wrapper.

Lemma get_state_retry (attempts : nat) (w : World) :
  not_ready (state_file (files w)) = true ->
  get_state_from (S attempts) E self w
  = get_state_from attempts E self (sleep E self (probe StateFile w)).
Proof.
  intros Hnot. cbn [get_state_from].
  destruct (state_file (files w)); try discriminate; reflexivity.
Qed.

Lemma get_state_skip (n attempts : nat) (w : World) :
  (forall j, (j < n)%nat ->
             not_ready (state_file (files (at_look StateFile E self j w))) = true) ->
  get_state_from (n + attempts) E self w
  = get_state_from attempts E self (at_look StateFile E self n w).
Proof.
  revert attempts. induction n as [|n IH]; intros attempts Hnot; [reflexivity|].
  replace (S n + attempts)%nat with (n + S attempts)%nat by lia.
  rewrite IH by (intros j Hj; apply Hnot; lia).
  rewrite get_state_retry by (apply Hnot; lia).
  reflexivity.
Qed.

(** The attempt [n] is reached when the attempts before it found no file or
    a partial one. *)
Lemma get_state_reaches (n : nat) (w : World) :
  (n < max_retries)%nat ->
  (forall j, (j < n)%nat ->
             not_ready (state_file (files (at_look StateFile E self j w))) = true) ->
  get_state E self w
  = get_state_from (S (max_retries - S n)) E self (at_look StateFile E self n w).
Proof.
  intros Hn Hnot. unfold get_state.
  replace max_retries with (n + S (max_retries - S n))%nat at 1 by lia.
  apply get_state_skip. exact Hnot.
Qed.

Lemma get_state_exhausted (w : World) :
  (forall j, (j < max_retries)%nat ->
             not_ready (state_file (files (at_look StateFile E self j w))) = true) ->
  get_state E self w
  = (unavailable "State not available", self,
     at_look StateFile E self max_retries w).
Proof.
  intros Hnot. unfold get_state.
  replace max_retries with (max_retries + 0)%nat at 1 by lia.
  rewrite get_state_skip by exact Hnot. reflexivity.
Qed.

Lemma get_state_unreadable (n : nat) (w : World) (msg : string) :
  (n < max_retries)%nat ->
  (forall j, (j < n)%nat ->
             not_ready (state_file (files (at_look StateFile E self j w))) = true) ->
  state_file (files (at_look StateFile E self n w)) = Unreadable msg ->
  get_state E self w
  = (unavailable ("Error: " ++ msg), self,
     probe StateFile (at_look StateFile E self n w)).
Proof.
  intros Hn Hnot Hfile. rewrite (get_state_reaches n w Hn Hnot).
  cbn [get_state_from]. rewrite Hfile. reflexivity.
Qed.

Lemma get_state_not_object (n : nat) (w : World) (v : pyval) :
  (n < max_retries)%nat ->
  (forall j, (j < n)%nat ->
             not_ready (state_file (files (at_look StateFile E self j w))) = true) ->
  state_file (files (at_look StateFile E self n w)) = Doc v ->
  (forall d, v <> PDict d) ->
  get_state E self w
  = (unavailable ("Error: '" ++ type_name v ++ "' object has no attribute 'get'"),
     self, probe StateFile (at_look StateFile E self n w)).
Proof.
  intros Hn Hnot Hfile Hshape. rewrite (get_state_reaches n w Hn Hnot).
  cbn [get_state_from]. rewrite Hfile.
  destruct v as [| | | | |d]; try reflexivity.
  exfalso. exact (Hshape d eq_refl).
Qed.

(** How a call can end: with the snapshot of a state document, which is
    cached, or with one of the two fallback tuples. *)
Lemma get_state_cases (attempts : nat) (w : World) :
  let '(snap, self', _) := get_state_from attempts E self w in
  (exists d, snap = snapshot_of d
             /\ self' = set_cache self (a11y_tree snap))
  \/ (snap = unavailable "State not available" /\ self' = self)
  \/ (exists msg, snap = unavailable ("Error: " ++ msg)).
Proof.
  revert w. induction attempts as [|attempts IH]; intros w.
  { right. left. split; reflexivity. }
  cbn [get_state_from].
  destruct (state_file (files w)) as [|msg| |v|e0].
  - apply IH.
  - right. right. exists msg. reflexivity.
  - apply IH.
  - destruct v as [| | | | |d];
      try (right; right; eexists; reflexivity).
    destruct (len _) as [k|e] eqn:Hlen.
    + left. exists d. split; reflexivity.
    + right. right. exists (exn_msg e). reflexivity.
  - right. right. exists (exn_msg e0). reflexivity.
Qed.

End Reader.

(** C6 as amended.  [get_state] returns a tuple whatever happens.  When the
    state file is absent or partial at each of the 10 attempts, the call
    looks at the file exactly 10 times, sleeps exactly 10 times, and
    returns the tuple ("State not available", "", [], phoneState) whose
    phoneState has "Unknown" as packageName: the formatted text is that
    message, not empty.  A file that cannot be opened, or a document that is
    not an object, ends the call at once with the same tuple but for its
    text "Error: <message>".  The tuple of a call is always the snapshot of
    a state document or one of these two. *)
Theorem get_state_falls_back (E : Env) (self : Wrapper) (w : World) :
  let seen := fun j => at_look StateFile E self j w in
  ((forall j, (j < max_retries)%nat ->
              not_ready (state_file (files (seen j))) = true) ->
   get_state E self w
   = (unavailable "State not available", self, seen max_retries)
   /\ count (is_probe StateFile) (trace (seen max_retries))
      = (10 + count (is_probe StateFile) (trace w))%nat
   /\ naps (seen max_retries) = (10 + naps w)%nat)
  /\ (forall n, (n < max_retries)%nat ->
        (forall j, (j < n)%nat ->
                   not_ready (state_file (files (seen j))) = true) ->
        (forall msg, state_file (files (seen n)) = Unreadable msg ->
                     get_state E self w
                     = (unavailable ("Error: " ++ msg), self,
                        probe StateFile (seen n)))
        /\ (forall v, state_file (files (seen n)) = Doc v ->
                      (forall d, v <> PDict d) ->
                      get_state E self w
                      = (unavailable ("Error: '" ++ type_name v
                                        ++ "' object has no attribute 'get'"),
                         self, probe StateFile (seen n))))
  /\ (let '(snap, _, _) := get_state E self w in
      (exists d, snap = snapshot_of d)
      \/ snap = unavailable "State not available"
      \/ (exists msg, snap = unavailable ("Error: " ++ msg)))
  /\ (forall text,
         formatted_text (unavailable text) = PStr text
         /\ focused_text (unavailable text) = PStr ""
         /\ a11y_tree (unavailable text) = PList []
         /\ get (phone_state (unavailable text)) "packageName" PNone
            = Returned (PStr "Unknown")).
Proof.
  intros seen. split; [|split; [|split]].
  - intros Hnot. split; [apply get_state_exhausted; exact Hnot|].
    unfold seen. rewrite at_look_probes, at_look_naps. split; reflexivity.
  - intros n Hn Hnot. split.
    + intros msg Hfile. exact (get_state_unreadable E self n w msg Hn Hnot Hfile).
    + intros v Hfile Hshape.
      exact (get_state_not_object E self n w v Hn Hnot Hfile Hshape).
  - pose proof (get_state_cases E self max_retries w) as Hcases.
    unfold get_state. destruct (get_state_from max_retries E self w) as [[snap self'] w'].
    destruct Hcases as [(d & Hd & _)|[(Hs & _)|(msg & Hm)]]; eauto.
  - intros text. repeat split.
Qed.

(** No state file for ten attempts. *)
Lemma get_state_falls_back_witness :
  get_state (Demo.env Demo.untouched) (init 100) (Demo.boot Demo.nothing)
  = (unavailable "State not available", init 100,
     at_look StateFile (Demo.env Demo.untouched) (init 100) 10
             (Demo.boot Demo.nothing))
  /\ count (is_probe StateFile)
           (trace (at_look StateFile (Demo.env Demo.untouched) (init 100) 10
                           (Demo.boot Demo.nothing)))
     = 10%nat.
Proof.
  destruct (proj1 (get_state_falls_back (Demo.env Demo.untouched) (init 100)
                                        (Demo.boot Demo.nothing)))
    as (Hrun & Hlooks & _).
  - intros j Hj. rewrite untouched_files. reflexivity.
  - split; [exact Hrun | exact Hlooks].
Defined.

(** C6, the claim as stated, fails: after ten attempts without a state file
    the formatted text of the tuple is "State not available", not the
    empty string. *)
Lemma sentinel_text_is_not_empty :
  let run := get_state (Demo.env Demo.untouched) (init 100)
                       (Demo.boot Demo.nothing) in
  fst (fst run) = unavailable "State not available"
  /\ formatted_text (fst (fst run)) <> PStr "".
Proof. vm_compute. split; [reflexivity | discriminate]. Qed.

(** C9 as amended.  A call of [get_state] that reads a state document whose
    [a11yTree] has a length returns its snapshot and leaves in the cache the
    element tree of that snapshot.  A call that gives up after its 10
    attempts, or that ends on a file it cannot open or on a document that is
    not an object, returns the empty tree and leaves the cache as it was. *)
Theorem get_state_caches_the_tree_read (E : Env) (self : Wrapper) (w : World) :
  let seen := fun j => at_look StateFile E self j w in
  (forall n d, (n < max_retries)%nat ->
      (forall j, (j < n)%nat ->
                 not_ready (state_file (files (seen j))) = true) ->
      state_file (files (seen n)) = Doc (PDict d) ->
      (exists k, len (dict_get d "a11yTree" (PList [])) = Returned k) ->
      let '(snap, self', _) := get_state E self w in
      snap = snapshot_of d
      /\ clickable_elements_cache self' = a11y_tree snap)
  /\ ((forall j, (j < max_retries)%nat ->
                 not_ready (state_file (files (seen j))) = true) ->
      let '(snap, self', _) := get_state E self w in
      a11y_tree snap = PList []
      /\ clickable_elements_cache self' = clickable_elements_cache self)
  /\ (forall n, (n < max_retries)%nat ->
        (forall j, (j < n)%nat ->
                   not_ready (state_file (files (seen j))) = true) ->
        (exists msg, state_file (files (seen n)) = Unreadable msg)
        \/ (exists v, state_file (files (seen n)) = Doc v
                      /\ forall d, v <> PDict d) ->
        let '(snap, self', _) := get_state E self w in
        a11y_tree snap = PList []
        /\ clickable_elements_cache self' = clickable_elements_cache self).
Proof.
  intros seen. split; [|split].
  - intros n d Hn Hnot Hfile (k & Hlen).
    rewrite (get_state_reaches E self n w Hn Hnot).
    cbn [get_state_from]. fold (seen n). rewrite Hfile.
    cbn [a11y_tree]. rewrite Hlen. split; reflexivity.
  - intros Hnot. rewrite (get_state_exhausted E self w Hnot). split; reflexivity.
  - intros n Hn Hnot Hbad.
    destruct Hbad as [(msg & Hfile)|(v & Hfile & Hv)].
    + rewrite (get_state_unreadable E self n w msg Hn Hnot Hfile).
      split; reflexivity.
    + rewrite (get_state_not_object E self n w v Hn Hnot Hfile Hv).
      split; reflexivity.
Qed.

(** The state file holds a document with the example tree. *)
Lemma get_state_caches_the_tree_read_witness :
  let '(snap, self', _) :=
    get_state (Demo.env Demo.untouched) (init 100)
              (Demo.boot {| state_file := Doc (PDict [("a11yTree", PList Demo.tree)]);
                            actions_file := Missing;
                            result_file := Missing |}) in
  snap = snapshot_of [("a11yTree", PList Demo.tree)]
  /\ clickable_elements_cache self' = a11y_tree snap.
Proof.
  apply (proj1 (get_state_caches_the_tree_read
                  (Demo.env Demo.untouched) (init 100)
                  (Demo.boot {| state_file := Doc (PDict [("a11yTree", PList Demo.tree)]);
                                actions_file := Missing;
                                result_file := Missing |}))
               0%nat [("a11yTree", PList Demo.tree)]).
  - unfold max_retries. lia.
  - intros j Hj. lia.
  - reflexivity.
  - exists 2. reflexivity.
Defined.

(** C9, the claim as stated, fails: with the example tree in the cache and
    no state file, the call returns the empty tree and the cache still
    holds the example tree. *)
Lemma sentinel_does_not_empty_the_cache :
  let '(snap, self', _) :=
    get_state (Demo.env Demo.untouched)
              (set_cache (init 100) (PList Demo.tree))
              (Demo.boot Demo.nothing) in
  snap = unavailable "State not available"
  /\ a11y_tree snap = PList []
  /\ clickable_elements_cache self' = PList Demo.tree
  /\ clickable_elements_cache self' <> a11y_tree snap.
Proof. vm_compute. repeat split; discriminate. Qed.

(** ** remember: the memory log *)

Lemma last_items_all {A : Type} (n : nat) (l : list A) :
  (List.length l <= n)%nat -> last_items n l = l.
Proof.
  intros Hlen. unfold last_items.
  replace (List.length l - n)%nat with 0%nat by lia. reflexivity.
Qed.

Lemma last_items_length {A : Type} (n : nat) (l : list A) :
  List.length (last_items n l) = Nat.min n (List.length l).
Proof. unfold last_items. rewrite length_skipn. lia. Qed.

(** Trimming before appending does not change what is kept in the end. *)
Lemma last_items_app {A : Type} (n : nat) (a b : list A) :
  last_items n (last_items n a ++ b) = last_items n (a ++ b).
Proof.
  destruct (Nat.le_gt_cases (List.length a) n) as [Hshort|Hlong].
  { rewrite (last_items_all n a Hshort). reflexivity. }
  unfold last_items at 1 3.
  rewrite !length_app, last_items_length.
  replace (Nat.min n (List.length a) + List.length b - n)%nat
    with (List.length b) by lia.
  replace (List.length a + List.length b - n)%nat
    with (List.length b + (List.length a - n))%nat by lia.
  rewrite <- skipn_skipn. rewrite (skipn_app (List.length a - n) a b).
  replace (List.length a - n - List.length a)%nat with 0%nat by lia.
  reflexivity.
Qed.

(** What a call of [remember] leaves in the log. *)
Lemma remember_memory (self : Wrapper) (info : pyval) :
  memory (snd (remember self info))
  = match info with
    | PStr s =>
        if truthy info
        then last_items max_memory_items (memory self ++ [strip s])
        else memory self
    | _ => memory self
    end.
Proof.
  destruct info as [| | |s| |]; try reflexivity.
  unfold remember. destruct (truthy (PStr s)); [|reflexivity].
  cbn [negb snd set_memory memory].
  destruct (max_memory_items <? List.length (memory self ++ [strip s]))%nat
    eqn:Hfull; [reflexivity|].
  apply Nat.ltb_ge in Hfull. rewrite (last_items_all _ _ Hfull). reflexivity.
Qed.

Lemma remember_all_memory (infos : list pyval) :
  forall self : Wrapper,
    (List.length (memory self) <= max_memory_items)%nat ->
    memory (remember_all self infos)
    = last_items max_memory_items (memory self ++ map strip (accepted infos)).
Proof.
  induction infos as [|info infos IH]; intros self Hroom.
  { cbn [remember_all fold_left accepted flat_map map]. rewrite app_nil_r.
    symmetry. apply last_items_all. exact Hroom. }
  change (remember_all self (info :: infos))
    with (remember_all (snd (remember self info)) infos).
  assert (List.length (memory (snd (remember self info))) <= max_memory_items)%nat
    as Hroom'.
  { rewrite remember_memory. destruct info; try exact Hroom.
    destruct (truthy _); [|exact Hroom]. rewrite last_items_length. lia. }
  rewrite (IH _ Hroom'), remember_memory.
  destruct info as [| | |s| |]; try reflexivity.
  cbn [accepted flat_map]. destruct (truthy (PStr s)); [|reflexivity].
  fold (accepted infos). cbn [app map].
  rewrite last_items_app, <- app_assoc. reflexivity.
Qed.

(** C7.  After any sequence of calls of [remember] on a fresh wrapper the
    log holds the last 10 (all, when there are fewer) of the notes accepted,
    each stored after [strip()], in the order of the calls; its length is
    never above 10.  After 11 calls with distinct notes the log holds the
    last 10. *)
Theorem memory_keeps_the_last_ten :
  (forall (poll_interval : Z) (infos : list pyval),
      let self := remember_all (init poll_interval) infos in
      let notes := map strip (accepted infos) in
      memory self = last_items 10 notes
      /\ List.length (memory self) = Nat.min 10 (List.length notes)
      /\ (List.length (memory self) <= 10)%nat
      /\ exists older, notes = (older ++ memory self)%list)
  /\ memory (remember_all (init 100)
               (map PStr ["n1"; "n2"; "n3"; "n4"; "n5"; "n6"; "n7"; "n8"; "n9";
                          "n10"; "n11"]))
     = ["n2"; "n3"; "n4"; "n5"; "n6"; "n7"; "n8"; "n9"; "n10"; "n11"].
Proof.
  split; [|vm_compute; reflexivity].
  intros p infos self notes.
  assert (memory self = last_items 10 notes) as Hlog.
  { unfold self. rewrite remember_all_memory by (cbn; lia). reflexivity. }
  rewrite Hlog, last_items_length.
  split; [reflexivity|]. split; [reflexivity|]. split; [lia|].
  exists (firstn (List.length notes - 10) notes).
  unfold last_items. symmetry. apply firstn_skipn.
Qed.

(** ** complete and the calls that reach the executor *)

(** The loop reads of [self] nothing but the poll interval. *)
Lemma poll_reads_interval (E : Env) (self self' : Wrapper) :
  poll_interval self' = poll_interval self ->
  forall (fuel : nat) (action_type action_id : string) (start_time : Z) (w : World),
    poll fuel E self' action_type action_id start_time w
    = poll fuel E self action_type action_id start_time w.
Proof.
  intros Hsame fuel. induction fuel as [|fuel IH]; intros; [reflexivity|].
  cbn [poll]. destruct (clock w - start_time <? max_wait_time); [|reflexivity].
  destruct (check_result E action_id w) as [[r|] w0]; [reflexivity|].
  unfold sleep. rewrite Hsame. apply IH.
Qed.

Lemma execute_reads_interval (E : Env) (self self' : Wrapper)
      (action_type : string) (parameters : list (string * string)) (w : World) :
  poll_interval self' = poll_interval self ->
  _execute_action E self' action_type parameters w
  = _execute_action E self action_type parameters w.
Proof.
  intros Hsame. rewrite !execute_polls. apply poll_reads_interval. exact Hsame.
Qed.

(** C8.  [complete(success, reason)] sets [finished] to true, [success] to
    the flag and [reason] to the string given, or, when that is empty, to
    "Task completed successfully." or "Task failed." by the flag; so
    complete(false, "") leaves "Task failed." and complete(true, "done")
    leaves "done".  It then writes one request to the actions file, the
    object {"actionType": "complete", "parameters": {"success": "True" or
    "False", "reason": the reason as given}, "timestamp": the time of the
    call, "actionId": the identifier drawn}, and waits for its answer; the
    actions file holds that request when the call ends unless the executor
    has changed the file, and the fields stay set also when the call
    raises. *)
Theorem complete_sets_status_and_notifies
        (E : Env) (self : Wrapper) (success_ : bool) (reason_ : string)
        (w : World) :
  0 < poll_interval self ->
  let request :=
    PDict [("actionType", PStr "complete");
           ("parameters",
            PDict [("success", PStr (if success_ then "True" else "False"));
                   ("reason", PStr reason_)]);
           ("timestamp", PInt (clock w));
           ("actionId", PStr (uuid4 E (uuids w)))] in
  exists r self' w',
    complete E self success_ reason_ w = Some (r, self', w')
    /\ finished self' = true
    /\ success self' = Some success_
    /\ reason self'
       = Some (if (reason_ =? "")%string
               then if success_ then "Task completed successfully."
                    else "Task failed."
               else reason_)
    /\ (success_ = false -> reason_ = "" -> reason self' = Some "Task failed.")
    /\ (success_ = true -> reason_ = "done" -> reason self' = Some "done")
    /\ memory self' = memory self
    /\ clickable_elements_cache self' = clickable_elements_cache self
    /\ requests (trace w') = request :: requests (trace w)
    /\ ((forall k fs, actions_file (executor E k fs) = actions_file fs) ->
        actions_file (files w') = Doc request).
Proof.
  intros Hp request.
  destruct (execute_sends E (mark_complete self success_ reason_) "complete"
                          [("success", str_of_bool success_); ("reason", reason_)]
                          w Hp) as (r & w' & Hrun & Hsent & Hfile).
  exists (match r with Returned _ => Returned tt | Raised e => Raised e end),
         (mark_complete self success_ reason_), w'.
  split.
  { unfold complete. rewrite Hrun. destruct r; reflexivity. }
  split; [reflexivity|]. split; [reflexivity|].
  split.
  { cbn [mark_complete reason truthy]. destruct (reason_ =? "")%string; reflexivity. }
  split; [intros -> ->; reflexivity|].
  split; [intros -> ->; reflexivity|].
  split; [reflexivity|]. split; [reflexivity|].
  split.
  - rewrite Hsent. unfold request. destruct success_; reflexivity.
  - intros Hkeep. rewrite (Hfile Hkeep). unfold request.
    destruct success_; reflexivity.
Qed.

(** complete(false, "") while the executor stays silent: the call times
    out, the status is set all the same, and the request lies in the
    actions file. *)
Lemma complete_sets_status_and_notifies_witness :
  exists r self' w',
    complete (Demo.env Demo.untouched) (init 100) false "" (Demo.boot Demo.nothing)
    = Some (r, self', w')
    /\ finished self' = true
    /\ success self' = Some false
    /\ reason self' = Some "Task failed."
    /\ actions_file (files w')
       = Doc (PDict [("actionType", PStr "complete");
                     ("parameters",
                      PDict [("success", PStr "False"); ("reason", PStr "")]);
                     ("timestamp", PInt 1700000000000);
                     ("actionId", PStr "id-0")]).
Proof.
  destruct (complete_sets_status_and_notifies
              (Demo.env Demo.untouched) (init 100) false ""
              (Demo.boot Demo.nothing))
    as (r & self' & w' & Hrun & Hfinished & Hsuccess & Hreason & _ & _ & _ & _
        & _ & Hfile).
  - reflexivity.
  - exists r, self', w'.
    split; [exact Hrun|]. split; [exact Hfinished|]. split; [exact Hsuccess|].
    split; [exact Hreason|]. apply Hfile. reflexivity.
Defined.

(** The cache a call leaves is the one it found: [carry tree] puts it back
    on the wrapper a run returns. *)
Lemma perform_ignores_cache (E : Env) (self : Wrapper) (c : call) (w : World)
      (tree : pyval) :
  perform E (set_cache self tree) c w
  = option_map (fun out : result answer * Wrapper * World =>
                  let '(r, self', w') := out in (r, set_cache self' tree, w'))
               (perform E self c w).
Proof.
  assert (forall action_type parameters,
             _execute_action E (set_cache self tree) action_type parameters w
             = _execute_action E self action_type parameters w) as Hsame
      by (intros; apply execute_reads_interval; reflexivity).
  destruct c; cbn [perform];
    unfold tap_by_index, swipe, drag, input_text, back, press_key, start_app,
      take_screenshot, list_packages, get_apps, complete, and_then, answered,
      with_str;
    repeat match goal with
           | |- context [str_int ?n] => destruct (str_int n); [|reflexivity]
           end;
    try rewrite Hsame;
    try rewrite (execute_reads_interval
                   E (mark_complete self success_ reason_)
                   (mark_complete (set_cache self tree) success_ reason_)
                   "complete" _ w eq_refl);
    match goal with
    | |- context [_execute_action ?e ?s ?a ?p ?v] =>
        destruct (_execute_action e s a p v) as [[[x|x] w']|];
          try reflexivity
    end.
  destruct x as [| | | | |d]; try reflexivity.
  destruct (has_key "image_base64" d); [|reflexivity].
  destruct (b64decode E _); reflexivity.
Qed.

(** [str(n)] by the number of digits of [n]. *)
Lemma str_int_within (n : Z) :
  (digit_count n <= max_str_digits)%nat -> str_int n = Returned (str_of_int n).
Proof.
  intros Hn. unfold str_int.
  destruct (Nat.ltb_spec max_str_digits (digit_count n)); [lia|reflexivity].
Qed.

Lemma str_int_beyond (n : Z) :
  (max_str_digits < digit_count n)%nat ->
  str_int n
  = Raised (Raise ValueError
                  "Exceeds the limit (4300 digits) for integer string conversion; use sys.set_int_max_str_digits() to increase the limit").
Proof.
  intros Hn. unfold str_int.
  destruct (Nat.ltb_spec max_str_digits (digit_count n)); [reflexivity|lia].
Qed.

Lemma within_limit_count (n : Z) :
  within_limit n = true <-> (digit_count n <= max_str_digits)%nat.
Proof.
  unfold within_limit.
  destruct (Nat.ltb_spec max_str_digits (digit_count n)); cbn [negb];
    split; intros; try discriminate; try reflexivity; lia.
Qed.

(** C10 as amended.  For an [index] of at most 4300 digits,
    [tap_by_index(index)] writes one request to the actions file, the object
    {"actionType": "tap_by_index", "parameters": {"index": str(index)},
    "timestamp": the time of the call, "actionId": the identifier drawn},
    and returns what [_execute_action] returns for it; the actions file
    holds that request when the call ends unless the executor has changed
    the file.  For a longer [index], [str(index)] raises ValueError and
    nothing is written.  The cached element tree plays no part: with another
    cache the call does the same, and so does every method that reaches the
    executor, which shows that none of them goes through
    [_extract_element_coordinates_by_index].  Where the resolver raises its
    ValueError for an index that the cached tree lacks, [tap_by_index]
    returns the executor's answer. *)
Theorem tap_by_index_sends_the_index :
  (forall (E : Env) (self : Wrapper) (index : Z) (w : World),
      0 < poll_interval self ->
      (digit_count index <= max_str_digits)%nat ->
      let request :=
        PDict [("actionType", PStr "tap_by_index");
               ("parameters", PDict [("index", PStr (str_of_int index))]);
               ("timestamp", PInt (clock w));
               ("actionId", PStr (uuid4 E (uuids w)))] in
      exists r w',
        tap_by_index E self index w = Some (r, w')
        /\ _execute_action E self "tap_by_index" [("index", str_of_int index)] w
           = Some (r, w')
        /\ requests (trace w') = request :: requests (trace w)
        /\ ((forall k fs, actions_file (executor E k fs) = actions_file fs) ->
            actions_file (files w') = Doc request))
  /\ (forall (E : Env) (self : Wrapper) (index : Z) (w : World),
         (max_str_digits < digit_count index)%nat ->
         tap_by_index E self index w
         = Some (Raised (Raise ValueError
                               "Exceeds the limit (4300 digits) for integer string conversion; use sys.set_int_max_str_digits() to increase the limit"),
                 w))
  /\ (forall (E : Env) (self : Wrapper) (index : Z) (w : World) (tree : pyval),
         tap_by_index E (set_cache self tree) index w
         = tap_by_index E self index w)
  /\ (forall (E : Env) (self : Wrapper) (c : call) (w : World) (tree : pyval),
         perform E (set_cache self tree) c w
         = option_map (fun out : result answer * Wrapper * World =>
                         let '(r, self', w') := out in
                         (r, set_cache self' tree, w'))
                      (perform E self c w))
  /\ (let E := Demo.env (Demo.writes_at 0
                           (Demo.answer_to "id-0" [("success", PBool true);
                                                   ("result", PStr "true")])) in
      let self := set_cache (init 100) (PList Demo.tree) in
      _extract_element_coordinates_by_index self 99
      = Some (Raised (Raise ValueError "No element found with index 99"))
      /\ exists w',
          tap_by_index E self 99 (Demo.boot Demo.nothing)
          = Some (Returned (PBool true), w')
          /\ requests (trace w')
             = [PDict [("actionType", PStr "tap_by_index");
                       ("parameters", PDict [("index", PStr "99")]);
                       ("timestamp", PInt 1700000000000);
                       ("actionId", PStr "id-0")]]).
Proof.
  split; [|split; [|split; [|split]]].
  - intros E self index w Hp Hn request.
    destruct (execute_sends E self "tap_by_index" [("index", str_of_int index)]
                            w Hp) as (r & w' & Hrun & Hsent & Hfile).
    exists r, w'. split; [|split; [exact Hrun|split; [exact Hsent|exact Hfile]]].
    unfold tap_by_index, with_str. rewrite (str_int_within index Hn). exact Hrun.
  - intros E self index w Hn.
    unfold tap_by_index, with_str. rewrite (str_int_beyond index Hn). reflexivity.
  - intros E self index w tree. unfold tap_by_index, with_str.
    destruct (str_int index); [|reflexivity].
    apply execute_reads_interval. reflexivity.
  - exact perform_ignores_cache.
  - split; [vm_compute; reflexivity|].
    eexists. split; vm_compute; reflexivity.
Qed.

(** A tap on index 7 with the default poll interval. *)
Lemma tap_by_index_sends_the_index_witness :
  exists r w',
    tap_by_index (Demo.env Demo.untouched) (init 100) 7 (Demo.boot Demo.nothing)
    = Some (r, w')
    /\ actions_file (files w')
       = Doc (PDict [("actionType", PStr "tap_by_index");
                     ("parameters", PDict [("index", PStr "7")]);
                     ("timestamp", PInt 1700000000000);
                     ("actionId", PStr "id-0")]).
Proof.
  destruct (proj1 tap_by_index_sends_the_index (Demo.env Demo.untouched)
                  (init 100) 7 (Demo.boot Demo.nothing))
    as (r & w' & Hrun & _ & _ & Hfile).
  - reflexivity.
  - apply Nat.leb_le. vm_compute. reflexivity.
  - exists r, w'. split; [exact Hrun|]. apply Hfile. reflexivity.
Defined.

(** C10, the claim as stated, fails: for the index 10 ** 4300, of 4301
    digits, [str(index)] raises; [tap_by_index] raises that ValueError and
    leaves the world as it was, with no request written and no actions
    file. *)
Lemma long_index_is_not_sent :
  let w := Demo.boot Demo.nothing in
  tap_by_index (Demo.env Demo.untouched) (init 100) (10 ^ 4300) w
  = Some (Raised (Raise ValueError
                        "Exceeds the limit (4300 digits) for integer string conversion; use sys.set_int_max_str_digits() to increase the limit"),
          w)
  /\ requests (trace w) = []
  /\ actions_file (files w) = Missing.
Proof. vm_compute. repeat split. Qed.

(** ** More on _execute_action: how a call can end *)

(** What one look of the loop does, by what the result file holds. *)
Lemma check_result_cases (E : Env) (action_id : string) (w : World) :
  (passed_over action_id (result_file (files w)) = true
   /\ check_result E action_id w = (None, probe ResultFile w))
  \/ (exists msg,
         result_file (files w) = Unreadable msg
         /\ check_result E action_id w
            = (Some (Raised (Raise OSError msg)), probe ResultFile w))
  \/ (exists v,
         result_file (files w) = Doc v /\ (forall d, v <> PDict d)
         /\ check_result E action_id w
            = (Some (Raised (no_attribute v "get")), probe ResultFile w))
  \/ (exists e,
         result_file (files w) = Corrupt e
         /\ check_result E action_id w = (Some (Raised e), probe ResultFile w))
  \/ (exists d,
         result_file (files w) = Doc (PDict d)
         /\ eq_str (dict_get d "actionId" PNone) action_id = true
         /\ check_result E action_id w
            = (Some (if truthy (dict_get d "success" PNone)
                     then match decode_fault E (dict_get d "result" (PStr "")) with
                          | Some e => Raised e
                          | None =>
                              Returned (decode E (dict_get d "result" (PStr "")))
                          end
                     else Raised (Raise Exception
                                        ("Action failed: "
                                           ++ str (dict_get d "error"
                                                            (PStr "Unknown error"))))),
               remove (probe ResultFile w))).
Proof.
  unfold check_result, passed_over, foreign.
  destruct (result_file (files w)) as [|msg| |v|e0].
  - left. auto.
  - right. left. eauto.
  - left. auto.
  - destruct v as [| | | | |d];
      try (right; right; left; eexists; repeat split; discriminate).
    destruct (eq_str (dict_get d "actionId" PNone) action_id) eqn:Hid.
    + right. right. right. right. exists d.
      split; [reflexivity|]. split; [exact Hid|].
      destruct (truthy (dict_get d "success" PNone)); [|reflexivity].
      destruct (decode_fault E (dict_get d "result" (PStr ""))); reflexivity.
    + left. auto.
  - right. right. right. left. eauto.
Qed.

Section Ending.

Variable E : Env.
Variable self : Wrapper.
Variable action_type : string.
Variable parameters : list (string * string).
Variable w : World.

Let action_id : string := uuid4 E (uuids w).
Let w1 : World := submitted E action_type parameters w.

(** The loop from any world [v]: some looks are passed over before the
    limit, then the limit is reached or a look ends the call. *)
Lemma poll_course (fuel : nat) (v : World) :
  0 < poll_interval self ->
  (Z.to_nat (max_wait_time - (clock v - clock w1)) < fuel)%nat ->
  exists n,
    (forall j, (j < n)%nat ->
        passed_over action_id
                    (result_file (files (at_look ResultFile E self j v))) = true
        /\ clock (at_look ResultFile E self j v) - clock w1 < max_wait_time)
    /\ ((max_wait_time <= clock (at_look ResultFile E self n v) - clock w1
         /\ poll fuel E self action_type action_id (clock w1) v
            = Some (Raised (Raise TimeoutError
                                  ("Action " ++ action_type
                                     ++ " timed out after 30.0s")),
                    at_look ResultFile E self n v))
        \/ (clock (at_look ResultFile E self n v) - clock w1 < max_wait_time
            /\ exists r w',
                check_result E action_id (at_look ResultFile E self n v)
                = (Some r, w')
                /\ poll fuel E self action_type action_id (clock w1) v
                   = Some (r, w'))).
Proof.
  intros Hp. revert v. induction fuel as [|fuel IH]; intros v Hfuel; [lia|].
  destruct (Z.lt_ge_cases (clock v - clock w1) max_wait_time) as [Hin|Hout].
  - destruct (check_result E action_id v) as [[r|] w'] eqn:Hcheck.
    + exists 0%nat. split; [intros j Hj; lia|]. right. split; [exact Hin|].
      exists r, w'. split; [exact Hcheck|].
      cbn [poll]. apply Z.ltb_lt in Hin. rewrite Hin, Hcheck. reflexivity.
    + assert (passed_over action_id (result_file (files v)) = true
              /\ w' = probe ResultFile v) as [Hpass ->].
      { destruct (check_result_cases E action_id v)
          as [[Hp0 Hc]|[(m & _ & Hc)|[(x & _ & _ & Hc)|[(e & _ & Hc)
                                                        |(d & _ & _ & Hc)]]]];
          rewrite Hc in Hcheck; inversion Hcheck; auto. }
      destruct (IH (sleep E self (probe ResultFile v))) as (n & Hbefore & Hend).
      { rewrite sleep_clock.
        destruct (probe_keeps ResultFile v) as (_ & Hc & _). rewrite Hc. lia. }
      exists (S n). split.
      * intros [|j] Hj; [split; assumption|].
        rewrite at_look_shift. apply Hbefore. lia.
      * rewrite at_look_shift, (poll_turn E self fuel _ _ _ v Hpass Hin).
        exact Hend.
  - exists 0%nat. split; [intros j Hj; lia|]. left. split; [exact Hout|].
    cbn [poll]. apply Z.ltb_ge in Hout. rewrite Hout. reflexivity.
Qed.

Lemma execute_course :
  0 < poll_interval self ->
  exists n,
    (forall j, (j < n)%nat ->
        passed_over action_id
                    (result_file (files (at_look ResultFile E self j w1))) = true
        /\ clock (at_look ResultFile E self j w1) - clock w1 < max_wait_time)
    /\ ((max_wait_time <= clock (at_look ResultFile E self n w1) - clock w1
         /\ _execute_action E self action_type parameters w
            = Some (Raised (Raise TimeoutError
                                  ("Action " ++ action_type
                                     ++ " timed out after 30.0s")),
                    at_look ResultFile E self n w1))
        \/ (clock (at_look ResultFile E self n w1) - clock w1 < max_wait_time
            /\ exists r w',
                check_result E action_id (at_look ResultFile E self n w1)
                = (Some r, w')
                /\ _execute_action E self action_type parameters w
                   = Some (r, w'))).
Proof.
  intros Hp. rewrite execute_polls. apply poll_course; [exact Hp|].
  unfold enough. rewrite Z.sub_diag, Z.sub_0_r. lia.
Qed.

End Ending.

Lemma remove_counted (v : World) :
  count is_remove (trace (remove v)) = S (count is_remove (trace v)).
Proof. reflexivity. Qed.

Lemma check_result_keeps (E : Env) (action_id : string) (v : World)
      (o : option (result pyval)) (v' : World) :
  check_result E action_id v = (o, v') ->
  clock v' = clock v /\ naps v' = naps v /\ uuids v' = uuids v
  /\ (files v' = files v /\ count is_remove (trace v') = count is_remove (trace v)
      \/ (exists d, result_file (files v) = Doc (PDict d)
                    /\ eq_str (dict_get d "actionId" PNone) action_id = true)
         /\ result_file (files v') = Missing
         /\ count is_remove (trace v') = S (count is_remove (trace v))).
Proof.
  intros Hcheck.
  destruct (probe_keeps ResultFile v) as (Hf & Hc & Hn & Hu).
  pose proof (probe_removes ResultFile v) as Hr.
  destruct (check_result_cases E action_id v)
    as [[_ H]|[(m & _ & H)|[(x & _ & _ & H)|[(e & _ & H)
                                             |(d & Hfile & Hid & H)]]]];
    rewrite H in Hcheck; inversion Hcheck; subst; clear Hcheck;
    repeat split; auto.
  right. split; [eauto|]. split; [reflexivity|].
  rewrite remove_counted, Hr. reflexivity.
Qed.

Lemma at_look_clock_sum (E : Env) (self : Wrapper) (p : path) (n : nat) (w : World) :
  (forall k, lag E k = 0%N) ->
  clock (at_look p E self n w) = clock w + Z.of_nat n * poll_interval self.
Proof.
  intros Hlag. induction n as [|n IH]; [simpl; lia|].
  rewrite (at_look_clock_exact E self p n w Hlag), IH. lia.
Qed.

Lemma writes_at_before (p : path) (self : Wrapper) (k : nat) (f : file)
      (j : nat) (w : World) :
  (j + naps w <= k)%nat ->
  files (at_look p (Demo.env (Demo.writes_at k f)) self j w) = files w.
Proof.
  induction j as [|j IH]; intros Hj; [reflexivity|].
  rewrite at_look_next.
  cbn [sleep files Demo.env executor].
  destruct (probe_keeps p (at_look p (Demo.env (Demo.writes_at k f)) self j w))
    as (Hf & _ & Hn & _).
  rewrite Hf, Hn, at_look_naps. unfold Demo.writes_at.
  replace (j + naps w =? k)%nat with false by (symmetry; apply Nat.eqb_neq; lia).
  apply IH. lia.
Qed.

(** X1.  Whatever the executor does, a call ends, and [os.remove] is called
    in it once or never: once, on a result file that carries the call's own
    [actionId], and then the file is gone whether the call returns or
    raises; never otherwise, and then the call raises, either TimeoutError
    at the limit or the exception of a look at a file that is not an object
    with its [actionId], and the files are as the executor left them. *)
Theorem result_file_removed_only_for_own_answer
        (E : Env) (self : Wrapper) (action_type : string)
        (parameters : list (string * string)) (w : World) :
  0 < poll_interval self ->
  let action_id := uuid4 E (uuids w) in
  let w1 := submitted E action_type parameters w in
  let seen := fun j => at_look ResultFile E self j w1 in
  exists r w' n,
    _execute_action E self action_type parameters w = Some (r, w')
    /\ ((exists d,
            result_file (files (seen n)) = Doc (PDict d)
            /\ eq_str (dict_get d "actionId" PNone) action_id = true
            /\ clock (seen n) - clock w1 < max_wait_time
            /\ count is_remove (trace w') = S (count is_remove (trace w))
            /\ result_file (files w') = Missing)
        \/ (count is_remove (trace w') = count is_remove (trace w)
            /\ files w' = files (seen n)
            /\ ((max_wait_time <= clock (seen n) - clock w1
                 /\ r = Raised (Raise TimeoutError
                                      ("Action " ++ action_type
                                         ++ " timed out after 30.0s")))
                \/ (exists e,
                       r = Raised e
                       /\ forall d,
                           result_file (files (seen n)) = Doc (PDict d) ->
                           eq_str (dict_get d "actionId" PNone) action_id
                           = false)))).
Proof.
  intros Hp action_id w1 seen.
  destruct (execute_course E self action_type parameters w Hp)
    as (n & _ & [[Hlate Hrun]|(Hin & r & w' & Hcheck & Hrun)]).
  - eexists _, _, n. split; [exact Hrun|]. right.
    split; [rewrite at_look_removes; reflexivity|]. split; [reflexivity|].
    left. split; [exact Hlate | reflexivity].
  - exists r, w', n. split; [exact Hrun|].
    pose proof (at_look_removes E self ResultFile n w1) as Hsame.
    destruct (check_result_cases E action_id (seen n))
      as [[_ H]|[(m & Hfile & H)|[(x & Hfile & Hshape & H)|[(e & Hfile & H)
                                                  |(d & Hfile & Hid & H)]]]];
      unfold seen, action_id, w1 in H; rewrite H in Hcheck;
      inversion Hcheck; subst; clear Hcheck.
    + right. split; [rewrite probe_removes; exact Hsame|].
      split; [apply probe_keeps|]. right. eexists. split; [reflexivity|].
      intros d Hd. rewrite Hfile in Hd. discriminate Hd.
    + right. split; [rewrite probe_removes; exact Hsame|].
      split; [apply probe_keeps|]. right. eexists. split; [reflexivity|].
      intros d Hd. rewrite Hfile in Hd. inversion Hd as [Hx].
      destruct (Hshape d Hx).
    + right. split; [rewrite probe_removes; exact Hsame|].
      split; [apply probe_keeps|]. right. eexists. split; [reflexivity|].
      intros d Hd. rewrite Hfile in Hd. discriminate Hd.
    + left. exists d. split; [exact Hfile|]. split; [exact Hid|].
      split; [exact Hin|]. split; [|reflexivity].
      rewrite remove_counted, probe_removes. f_equal. exact Hsame.
Qed.

Lemma result_file_removed_only_for_own_answer_witness :
  exists r w',
    _execute_action (Demo.env Demo.untouched) (init 100) "back" []
                    (Demo.boot Demo.nothing) = Some (r, w').
Proof.
  destruct (result_file_removed_only_for_own_answer
              (Demo.env Demo.untouched) (init 100) "back" []
              (Demo.boot Demo.nothing)) as (r & w' & n & Hrun & _).
  - reflexivity.
  - exists r, w'. exact Hrun.
Defined.

(** X2.  An answer that is in the result file only when the 30 seconds are
    over is not read: the call raises TimeoutError whatever the file holds
    at that moment, and nothing is removed. *)
Theorem late_answer_is_not_consumed
        (E : Env) (self : Wrapper) (action_type : string)
        (parameters : list (string * string)) (w : World) (n : nat) :
  0 < poll_interval self ->
  let action_id := uuid4 E (uuids w) in
  let w1 := submitted E action_type parameters w in
  let seen := fun j => at_look ResultFile E self j w1 in
  (forall j, (j < n)%nat ->
             passed_over action_id (result_file (files (seen j))) = true
             /\ clock (seen j) - clock w1 < max_wait_time) ->
  max_wait_time <= clock (seen n) - clock w1 ->
  _execute_action E self action_type parameters w
  = Some (Raised (Raise TimeoutError
                        ("Action " ++ action_type ++ " timed out after 30.0s")),
          seen n)
  /\ count is_remove (trace (seen n)) = count is_remove (trace w).
Proof.
  intros Hp action_id w1 seen Hbefore Hlate.
  split; [|unfold seen; rewrite at_look_removes; reflexivity].
  assert (n < enough)%nat as Hn.
  { destruct n as [|n]; [unfold enough; lia|].
    destruct (Hbefore n (Nat.lt_succ_diag_r n)) as [_ Hclock].
    pose proof (look_in_time E self action_type parameters w n Hp Hclock).
    unfold enough. lia. }
  rewrite execute_polls.
  replace enough with (n + (enough - n))%nat by lia.
  rewrite poll_skip by exact Hbefore.
  destruct (enough - n)%nat as [|fuel] eqn:Hleft; [lia|].
  cbn [poll]. apply Z.ltb_ge in Hlate. fold w1 (seen n). rewrite Hlate.
  reflexivity.
Qed.

(** The executor answers during the 300th sleep of 100 ms: too late. *)
Lemma late_answer_is_not_consumed_witness :
  let E := Demo.env (Demo.writes_at 299
                       (Demo.answer_to "id-0" [("success", PBool true)])) in
  let w1 := submitted E "back" [] (Demo.boot Demo.nothing) in
  _execute_action E (init 100) "back" [] (Demo.boot Demo.nothing)
  = Some (Raised (Raise TimeoutError "Action back timed out after 30.0s"),
          at_look ResultFile E (init 100) 300 w1)
  /\ result_file (files (at_look ResultFile E (init 100) 300 w1))
     = Demo.answer_to "id-0" [("success", PBool true)].
Proof.
  intros E w1.
  destruct (late_answer_is_not_consumed E (init 100) "back" []
                                        (Demo.boot Demo.nothing) 300)
    as [Hrun _].
  - reflexivity.
  - intros j Hj. split.
    + unfold E. rewrite writes_at_before by (cbn [naps submitted dump draw snd Demo.boot]; lia).
      reflexivity.
    + rewrite at_look_clock_sum by reflexivity.
      cbn [poll_interval init]. unfold max_wait_time. lia.
  - rewrite at_look_clock_sum by reflexivity.
    cbn [poll_interval init]. unfold max_wait_time. lia.
  - split; [exact Hrun|]. vm_compute. reflexivity.
Defined.

(** X3.  A result file that cannot be opened, or whose JSON is not an
    object, ends the call at the look that finds it: the OSError, or the
    AttributeError of [result_data.get], is raised to the caller; the file
    is left in place and nothing is removed. *)
Theorem unusable_result_file_ends_the_call
        (E : Env) (self : Wrapper) (action_type : string)
        (parameters : list (string * string)) (w : World) (n : nat) :
  0 < poll_interval self ->
  let action_id := uuid4 E (uuids w) in
  let w1 := submitted E action_type parameters w in
  let seen := fun j => at_look ResultFile E self j w1 in
  (forall j, (j < n)%nat ->
             passed_over action_id (result_file (files (seen j))) = true) ->
  clock (seen n) - clock w1 < max_wait_time ->
  (forall msg,
      result_file (files (seen n)) = Unreadable msg ->
      _execute_action E self action_type parameters w
      = Some (Raised (Raise OSError msg), probe ResultFile (seen n)))
  /\ (forall v,
         result_file (files (seen n)) = Doc v ->
         (forall d, v <> PDict d) ->
         _execute_action E self action_type parameters w
         = Some (Raised (Raise AttributeError
                               ("'" ++ type_name v
                                    ++ "' object has no attribute 'get'")),
                 probe ResultFile (seen n)))
  /\ files (probe ResultFile (seen n)) = files (seen n)
  /\ count is_remove (trace (probe ResultFile (seen n)))
     = count is_remove (trace w).
Proof.
  intros Hp action_id w1 seen Hpass Hclock.
  destruct (execute_reaches E self action_type parameters w n Hp Hpass Hclock)
    as [Hrun Hfuel].
  apply Z.ltb_lt in Hclock.
  split; [|split; [|split]].
  - intros msg Hfile. rewrite Hrun.
    destruct (enough - n)%nat as [|fuel]; [lia|].
    cbn [poll]. fold w1 (seen n). rewrite Hclock.
    unfold check_result. rewrite Hfile. reflexivity.
  - intros v Hfile Hshape. rewrite Hrun.
    destruct (enough - n)%nat as [|fuel]; [lia|].
    cbn [poll]. fold w1 (seen n). rewrite Hclock.
    unfold check_result. rewrite Hfile.
    destruct v as [| | | | |d]; try reflexivity.
    exfalso. exact (Hshape d eq_refl).
  - apply probe_keeps.
  - rewrite probe_removes. unfold seen. rewrite at_look_removes. reflexivity.
Qed.

(** The executor writes the JSON list [[]] during the first sleep. *)
Lemma unusable_result_file_ends_the_call_witness :
  exists w',
    _execute_action (Demo.env (Demo.writes_at 0 (Doc (PList []))))
                    (init 100) "back" [] (Demo.boot Demo.nothing)
    = Some (Raised (Raise AttributeError "'list' object has no attribute 'get'"),
            w')
    /\ result_file (files w') = Doc (PList []).
Proof.
  destruct (unusable_result_file_ends_the_call
              (Demo.env (Demo.writes_at 0 (Doc (PList []))))
              (init 100) "back" [] (Demo.boot Demo.nothing) 1%nat)
    as (_ & Hshape & Hfiles & _).
  - reflexivity.
  - intros [|j] Hj; [reflexivity | lia].
  - vm_compute. reflexivity.
  - eexists. split.
    + apply (Hshape (PList [])); [reflexivity | discriminate].
    + rewrite Hfiles. reflexivity.
Defined.

(** X4.  Whatever the executor does and however the call ends, without
    overrun of the sleeps the call is over less than 30 seconds and one
    poll interval after it began, and all of that time was spent in its
    sleeps. *)
Theorem execute_ends_within_the_limit
        (E : Env) (self : Wrapper) (action_type : string)
        (parameters : list (string * string)) (w : World) :
  0 < poll_interval self ->
  (forall k, lag E k = 0%N) ->
  exists r w',
    _execute_action E self action_type parameters w = Some (r, w')
    /\ clock w <= clock w' < clock w + max_wait_time + poll_interval self
    /\ clock w' - clock w
       = Z.of_nat (naps w' - naps w) * poll_interval self.
Proof.
  intros Hp Hlag.
  destruct (execute_course E self action_type parameters w Hp)
    as (n & Hbefore & Hend).
  set (w1 := submitted E action_type parameters w) in *.
  assert (clock w1 = clock w) as Hstart by reflexivity.
  assert (naps w1 = naps w) as Hnaps by reflexivity.
  pose proof (at_look_clock_sum E self ResultFile n w1 Hlag) as Hsum.
  pose proof (at_look_naps E self ResultFile n w1) as Hcount.
  assert (clock (at_look ResultFile E self n w1)
          < clock w + max_wait_time + poll_interval self) as Hupper.
  { destruct n as [|n]; [cbn [at_look Nat.iter]; unfold max_wait_time; lia|].
    destruct (Hbefore n (Nat.lt_succ_diag_r n)) as [_ Hclock].
    rewrite (at_look_clock_exact E self ResultFile n w1 Hlag). lia. }
  destruct Hend as [[_ Hrun]|(_ & r & w' & Hcheck & Hrun)].
  - eexists _, _. split; [exact Hrun|].
    split; [nia|]. rewrite Hsum, Hcount.
    replace (n + naps w1 - naps w)%nat with n by lia. lia.
  - exists r, w'. split; [exact Hrun|].
    destruct (check_result_keeps _ _ _ _ _ Hcheck) as (Hc & Hn & _).
    rewrite Hc, Hn. split; [nia|]. rewrite Hsum, Hcount.
    replace (n + naps w1 - naps w)%nat with n by lia. lia.
Qed.

Lemma execute_ends_within_the_limit_witness :
  exists r w',
    _execute_action (Demo.env Demo.untouched) (init 100) "back" []
                    (Demo.boot Demo.nothing) = Some (r, w')
    /\ clock w' < clock (Demo.boot Demo.nothing) + 30100.
Proof.
  destruct (execute_ends_within_the_limit
              (Demo.env Demo.untouched) (init 100) "back" []
              (Demo.boot Demo.nothing)) as (r & w' & Hrun & [_ Hupper] & _).
  - reflexivity.
  - reflexivity.
  - exists r, w'. split; [exact Hrun | exact Hupper].
Defined.

Lemma poll_uuids (E : Env) (self : Wrapper) (fuel : nat)
      (action_type action_id : string) (start_time : Z) (w : World)
      (r : result pyval) (w' : World) :
  poll fuel E self action_type action_id start_time w = Some (r, w') ->
  uuids w' = uuids w.
Proof.
  revert w. induction fuel as [|fuel IH]; intros w; cbn [poll]; [discriminate|].
  destruct (clock w - start_time <? max_wait_time).
  - destruct (check_result E action_id w) as [[r0|] w0] eqn:Hcheck.
    + intros H; inversion H; subst.
      apply (check_result_keeps _ _ _ _ _ Hcheck).
    + intros H. apply IH in H. rewrite H. cbn [sleep uuids].
      apply (check_result_keeps _ _ _ _ _ Hcheck).
  - intros H; inversion H; subst; reflexivity.
Qed.

(** X5.  Two calls in a row draw their identifiers one after the other.
    When the two identifiers differ, an answer to the first call that
    turns up during the second (the first having timed out, say) is
    passed over by every look of the second call: the file is not removed
    and the look falls through to the sleep. *)
Theorem answer_to_an_earlier_call_is_passed_over
        (E : Env) (self : Wrapper) (action_type : string)
        (parameters : list (string * string)) (w : World)
        (r : result pyval) (w' : World) :
  _execute_action E self action_type parameters w = Some (r, w') ->
  uuid4 E (uuids w) <> uuid4 E (S (uuids w)) ->
  uuid4 E (uuids w') = uuid4 E (S (uuids w))
  /\ forall (v : World) (d : list (string * pyval)),
      result_file (files v) = Doc (PDict d) ->
      eq_str (dict_get d "actionId" PNone) (uuid4 E (uuids w)) = true ->
      check_result E (uuid4 E (uuids w')) v = (None, probe ResultFile v)
      /\ files (probe ResultFile v) = files v.
Proof.
  intros Hrun Hfresh.
  rewrite execute_polls in Hrun. apply poll_uuids in Hrun.
  cbn [submitted dump draw snd uuids] in Hrun. rewrite Hrun.
  split; [reflexivity|].
  intros v d Hfile Hid. split; [|apply probe_keeps].
  apply check_passed_over. rewrite Hfile. cbn [passed_over foreign].
  destruct (dict_get d "actionId" PNone) as [| | |s| |]; try discriminate.
  cbn [eq_str] in *. apply String.eqb_eq in Hid. subst s.
  apply Bool.negb_true_iff. apply String.eqb_neq. exact Hfresh.
Qed.

(** A first call times out; its answer arrives afterwards. *)
Lemma answer_to_an_earlier_call_is_passed_over_witness :
  exists r w',
    _execute_action (Demo.env Demo.untouched) (init 100) "back" []
                    (Demo.boot Demo.nothing) = Some (r, w')
    /\ uuid4 (Demo.env Demo.untouched) (uuids w') = "id-1"
    /\ forall v,
        result_file (files v) = Demo.answer_to "id-0" [("success", PBool true)] ->
        check_result (Demo.env Demo.untouched) "id-1" v
        = (None, probe ResultFile v).
Proof.
  destruct (execute_ends (Demo.env Demo.untouched) (init 100) "back" []
                         (Demo.boot Demo.nothing) eq_refl)
    as (r & w' & Hrun & _).
  destruct (answer_to_an_earlier_call_is_passed_over
              (Demo.env Demo.untouched) (init 100) "back" []
              (Demo.boot Demo.nothing) r w' Hrun) as [Hnext Hpass].
  - vm_compute. discriminate.
  - exists r, w'. split; [exact Hrun|]. split; [exact Hnext|].
    intros v Hfile.
    rewrite Hnext in Hpass. exact (proj1 (Hpass v _ Hfile eq_refl)).
Defined.

(** ** More on get_state *)

(** X6.  A state file that is absent or partial at first and readable at
    the attempt [n] (one of the 10) is read then: the call returns the four
    fields of the document, each with its default when the key is missing
    ("", "", [] and {}), after exactly [n] sleeps and [n+1] looks, and does
    not look again. *)
Theorem get_state_reads_after_retries
        (E : Env) (self : Wrapper) (w : World) (n : nat)
        (d : list (string * pyval)) :
  let seen := fun j => at_look StateFile E self j w in
  (n < max_retries)%nat ->
  (forall j, (j < n)%nat -> not_ready (state_file (files (seen j))) = true) ->
  state_file (files (seen n)) = Doc (PDict d) ->
  (exists k, len (dict_get d "a11yTree" (PList [])) = Returned k) ->
  let w' := probe StateFile (seen n) in
  get_state E self w
  = ({| formatted_text := dict_get d "formattedText" (PStr "");
        focused_text := dict_get d "focusedText" (PStr "");
        a11y_tree := dict_get d "a11yTree" (PList []);
        phone_state := dict_get d "phoneState" (PDict []) |},
     set_cache self (dict_get d "a11yTree" (PList [])), w')
  /\ naps w' = (n + naps w)%nat
  /\ count (is_probe StateFile) (trace w')
     = (S n + count (is_probe StateFile) (trace w))%nat
  /\ (d = [] ->
      fst (fst (get_state E self w))
      = {| formatted_text := PStr ""; focused_text := PStr "";
           a11y_tree := PList []; phone_state := PDict [] |}).
Proof.
  intros seen Hn Hnot Hfile (k & Hlen) w'.
  assert (get_state E self w
          = (snapshot_of d, set_cache self (dict_get d "a11yTree" (PList [])), w'))
    as Hrun.
  { rewrite (get_state_reaches E self n w Hn Hnot).
    cbn [get_state_from]. fold (seen n). rewrite Hfile.
    cbn [a11y_tree]. rewrite Hlen. reflexivity. }
  split; [exact Hrun|]. split; [|split].
  - unfold w'. destruct (probe_keeps StateFile (seen n)) as (_ & _ & Hnaps & _).
    rewrite Hnaps. apply at_look_naps.
  - unfold w'. rewrite probe_counted. unfold seen. rewrite at_look_probes.
    reflexivity.
  - intros ->. rewrite Hrun. reflexivity.
Qed.

(** The state file is written during the third sleep. *)
Lemma get_state_reads_after_retries_witness :
  let E :=
    {| json_loads := Demo.loads; json_loads_fault := Demo.faults;
       b64decode := Demo.no_image; uuid4 := Demo.ident;
       executor := fun k fs =>
                     if (k =? 2)%nat
                     then {| state_file := Doc (PDict [("formattedText", PStr "Home")]);
                             actions_file := actions_file fs;
                             result_file := result_file fs |}
                     else fs;
       lag := fun _ => 0%N |} in
  exists w',
    get_state E (init 100) (Demo.boot Demo.nothing)
    = ({| formatted_text := PStr "Home"; focused_text := PStr "";
          a11y_tree := PList []; phone_state := PDict [] |},
       init 100, w')
    /\ naps w' = 3%nat.
Proof.
  intros E.
  destruct (get_state_reads_after_retries
              E (init 100) (Demo.boot Demo.nothing) 3
              [("formattedText", PStr "Home")]) as (Hrun & Hnaps & _).
  - unfold max_retries. lia.
  - intros [|[|[|j]]] Hj; [reflexivity | reflexivity | reflexivity | lia].
  - reflexivity.
  - exists 0. reflexivity.
  - eexists. split; [exact Hrun | exact Hnaps].
Defined.

Lemma get_state_from_keeps (E : Env) (self : Wrapper) (attempts : nat) :
  forall w : World,
    let '(_, self', w') := get_state_from attempts E self w in
    (poll_interval self' = poll_interval self
     /\ memory self' = memory self
     /\ success self' = success self
     /\ reason self' = reason self
     /\ finished self' = finished self)
    /\ requests (trace w') = requests (trace w)
    /\ count is_remove (trace w') = count is_remove (trace w)
    /\ uuids w' = uuids w
    /\ (naps w <= naps w' <= naps w + attempts)%nat.
Proof.
  induction attempts as [|attempts IH]; intros w.
  { cbn [get_state_from]. repeat split; lia. }
  pose proof (probe_requests StateFile w) as Hreq.
  pose proof (probe_removes StateFile w) as Hrem.
  destruct (probe_keeps StateFile w) as (_ & _ & Hnaps & Huuids).
  assert (let '(_, self', w') :=
            get_state_from attempts E self (sleep E self (probe StateFile w)) in
          (poll_interval self' = poll_interval self
           /\ memory self' = memory self
           /\ success self' = success self
           /\ reason self' = reason self
           /\ finished self' = finished self)
          /\ requests (trace w') = requests (trace w)
          /\ count is_remove (trace w') = count is_remove (trace w)
          /\ uuids w' = uuids w
          /\ (naps w <= naps w' <= naps w + S attempts)%nat) as Hretry.
  { specialize (IH (sleep E self (probe StateFile w))).
    destruct (get_state_from attempts E self (sleep E self (probe StateFile w)))
      as [[snap self'] w'].
    destruct IH as (Hself & Hr & Hm & Hu & Hn).
    change (requests (trace (sleep E self (probe StateFile w))))
      with (requests (trace (probe StateFile w))) in Hr.
    change (count is_remove (trace (sleep E self (probe StateFile w))))
      with (count is_remove (trace (probe StateFile w))) in Hm.
    cbn [sleep uuids naps] in Hu, Hn.
    split; [exact Hself|]. split; [congruence|]. split; [congruence|].
    split; [congruence|]. lia. }
  cbn [get_state_from].
  destruct (state_file (files w)) as [|msg| |v|e0]; try exact Hretry.
  - repeat split; try assumption; lia.
  - destruct v as [| | | | |d]; try (repeat split; try assumption; lia).
    destruct (len _); repeat split; try assumption; lia.
  - repeat split; try assumption; lia.
Qed.

(** X7.  [get_state] only reads: whatever the state file holds, the call
    leaves the memory log, the completion status and the poll interval of
    the wrapper as they were, writes no request, removes no file, and
    sleeps 10 times at most. *)
Theorem get_state_only_reads (E : Env) (self : Wrapper) (w : World) :
  let '(_, self', w') := get_state E self w in
  memory self' = memory self
  /\ success self' = success self
  /\ reason self' = reason self
  /\ finished self' = finished self
  /\ poll_interval self' = poll_interval self
  /\ requests (trace w') = requests (trace w)
  /\ count is_remove (trace w') = count is_remove (trace w)
  /\ (naps w' - naps w <= 10)%nat.
Proof.
  pose proof (get_state_from_keeps E self max_retries w) as Hkeeps.
  unfold get_state.
  destruct (get_state_from max_retries E self w) as [[snap self'] w'].
  destruct Hkeeps as ((Hp & Hm & Hs & Hr & Hf) & Hreq & Hrem & _ & Hn).
  repeat split; try assumption. unfold max_retries in Hn. lia.
Qed.

(** X8.  A state document whose [a11yTree] has no length ([null], a number,
    [true]) is put in the cache before the logging line evaluates
    [len(a11y_tree)]; the TypeError is caught, the call returns the fallback
    tuple with "Error: object of type '...' has no len()" and the empty
    tree, and the cache holds the value without length. *)
Theorem tree_without_length_is_cached
        (E : Env) (self : Wrapper) (w : World) (n : nat)
        (d : list (string * pyval)) (e : exn) :
  let seen := fun j => at_look StateFile E self j w in
  (n < max_retries)%nat ->
  (forall j, (j < n)%nat -> not_ready (state_file (files (seen j))) = true) ->
  state_file (files (seen n)) = Doc (PDict d) ->
  len (dict_get d "a11yTree" (PList [])) = Raised e ->
  let tree := dict_get d "a11yTree" (PList []) in
  get_state E self w
  = (unavailable ("Error: object of type '" ++ type_name tree ++ "' has no len()"),
     set_cache self tree, probe StateFile (seen n))
  /\ tree <> PList []
  /\ (truthy tree = false ->
      _extract_element_coordinates_by_index (set_cache self tree) 0
      = Some (Raised (Raise ValueError
                            "No UI elements cached. Call get_state first."))).
Proof.
  intros seen Hn Hnot Hfile Hlen tree.
  split; [|split].
  - rewrite (get_state_reaches E self n w Hn Hnot).
    cbn [get_state_from]. fold (seen n). rewrite Hfile.
    cbn [a11y_tree]. fold tree. fold tree in Hlen. rewrite Hlen.
    destruct tree; try discriminate; inversion Hlen; reflexivity.
  - fold tree in Hlen. intros Heq. rewrite Heq in Hlen. discriminate.
  - intros Hfalsy. unfold _extract_element_coordinates_by_index.
    cbn [set_cache clickable_elements_cache]. rewrite Hfalsy. reflexivity.
Qed.

Lemma tree_without_length_is_cached_witness :
  let w := Demo.boot {| state_file := Doc (PDict [("a11yTree", PNone)]);
                        actions_file := Missing; result_file := Missing |} in
  let '(snap, self', _) := get_state (Demo.env Demo.untouched) (init 100) w in
  snap = unavailable "Error: object of type 'NoneType' has no len()"
  /\ clickable_elements_cache self' = PNone.
Proof.
  intros w.
  destruct (tree_without_length_is_cached
              (Demo.env Demo.untouched) (init 100) w 0 [("a11yTree", PNone)]
              (Raise TypeError "object of type 'NoneType' has no len()"))
    as (Hrun & _).
  - unfold max_retries. lia.
  - intros j Hj. lia.
  - reflexivity.
  - reflexivity.
  - rewrite Hrun. split; reflexivity.
Defined.

(** ** More on the resolver *)

(** X9.  For bounds whose left is not beyond its right and whose top is not
    below its bottom, the coordinates returned lie inside the rectangle,
    edges included; a rectangle of no width or no height gives its own
    edge. *)
Theorem center_lies_within_the_bounds
        (element : pyval) (index : Z) (s : string) (left_ top right_ bottom : Z) :
  get element "bounds" PNone = Returned (PStr s) ->
  ints (split comma s) = Returned [left_; top; right_; bottom] ->
  left_ <= right_ ->
  top <= bottom ->
  exists x y,
    center_of element index = Returned (x, y)
    /\ left_ <= x <= right_
    /\ top <= y <= bottom
    /\ (left_ = right_ -> x = left_)
    /\ (top = bottom -> y = top).
Proof.
  intros Hget Hints Hwide Hhigh.
  exists ((left_ + right_) / 2), ((top + bottom) / 2).
  split; [exact (center_of_bounds element index s _ _ _ _ Hget Hints)|].
  pose proof (Z.mul_div_le (left_ + right_) 2 ltac:(lia)).
  pose proof (Z.mul_succ_div_gt (left_ + right_) 2 ltac:(lia)).
  pose proof (Z.mul_div_le (top + bottom) 2 ltac:(lia)).
  pose proof (Z.mul_succ_div_gt (top + bottom) 2 ltac:(lia)).
  repeat split; lia.
Qed.

Lemma center_lies_within_the_bounds_witness :
  exists x y,
    center_of (PDict [("index", PInt 7); ("bounds", PStr "-3,0,4,9")]) 7
    = Returned (x, y)
    /\ -3 <= x <= 4 /\ 0 <= y <= 9.
Proof.
  destruct (center_lies_within_the_bounds
              (PDict [("index", PInt 7); ("bounds", PStr "-3,0,4,9")]) 7
              "-3,0,4,9" (-3) 0 4 9) as (x & y & Hrun & Hx & Hy & _).
  - reflexivity.
  - reflexivity.
  - lia.
  - lia.
  - exists x, y. auto.
Defined.

(** X10.  An element found without usable bounds: when [bounds] is missing,
    [null] or empty the resolver raises ValueError("Element with index
    <index> has no bounds"); when it is a str whose comma-separated parts
    are all integers but not four of them, it raises ValueError("Invalid
    bounds format: <bounds>"). *)
Theorem bounds_missing_or_miscounted
        (d : list (string * pyval)) (index : Z) :
  (truthy (dict_get d "bounds" PNone) = false ->
   center_of (PDict d) index
   = Raised (Raise ValueError
                   ("Element with index " ++ str_of_int index ++ " has no bounds")))
  /\ (forall s bounds,
         dict_get d "bounds" PNone = PStr s ->
         ints (split comma s) = Returned bounds ->
         List.length bounds <> 4%nat ->
         center_of (PDict d) index
         = Raised (Raise ValueError ("Invalid bounds format: " ++ s))).
Proof.
  split.
  - intros Hfalsy. unfold center_of. cbn [get]. rewrite Hfalsy. reflexivity.
  - intros s bounds Hbounds Hints Hcount. unfold center_of. cbn [get].
    rewrite Hbounds.
    destruct s as [|c s]; [discriminate|].
    cbn [truthy negb String.eqb]. rewrite Hints.
    destruct bounds as [|a [|b [|c' [|e [|? ?]]]]]; try reflexivity.
    exfalso. apply Hcount. reflexivity.
Qed.

Lemma bounds_missing_or_miscounted_witness :
  center_of (PDict [("index", PInt 7)]) 7
  = Raised (Raise ValueError "Element with index 7 has no bounds")
  /\ center_of (PDict [("index", PInt 7); ("bounds", PStr "1,2,3")]) 7
     = Raised (Raise ValueError "Invalid bounds format: 1,2,3").
Proof.
  split.
  - exact (proj1 (bounds_missing_or_miscounted [("index", PInt 7)] 7) eq_refl).
  - apply (proj2 (bounds_missing_or_miscounted
                    [("index", PInt 7); ("bounds", PStr "1,2,3")] 7)
                 "1,2,3" [1; 2; 3]).
    + reflexivity.
    + reflexivity.
    + cbn. lia.
Defined.

Lemma ints_first_bad (good : list string) (bad : string) (rest : list string)
      (e : exn) :
  Forall (fun x => exists n, int x = Returned n) good ->
  int bad = Raised e ->
  ints (good ++ bad :: rest) = Raised e.
Proof.
  intros Hgood Hbad. induction Hgood as [|x good [n Hx] _ IH].
  - cbn [app ints]. rewrite Hbad. reflexivity.
  - cbn [app ints]. rewrite Hx, IH. reflexivity.
Qed.

Lemma scan_length (s : string) :
  forall (b : bool) (count found : nat),
    scan b count s = Some found -> (found <= count + String.length s)%nat.
Proof.
  induction s as [|c s IH]; intros b count found; cbn [scan String.length].
  - destruct b; [|discriminate]. intros H; inversion H; lia.
  - destruct (digit c).
    + intros H. apply IH in H. lia.
    + destruct (code c =? 95)%N.
      * destruct b; [|discriminate]. intros H. apply IH in H. lia.
      * destruct b; [|discriminate]. intros H; inversion H; lia.
Qed.

Lemma skip_blanks_length (s : string) :
  (String.length (skip_blanks s) <= String.length s)%nat.
Proof.
  induction s as [|c s IH]; [reflexivity|].
  cbn [skip_blanks]. destruct (int_blank c); cbn [String.length] in *; lia.
Qed.

(** The digits [int] counts are characters of the literal. *)
Lemma digit_run_length (s : string) (found : nat) :
  digit_run s = Some found -> (found <= String.length s)%nat.
Proof.
  unfold digit_run. pose proof (skip_blanks_length s) as Hskip.
  destruct (skip_blanks s) as [|c s']; [discriminate|].
  cbn [String.length] in Hskip.
  destruct ((code c =? 45)%N || (code c =? 43)%N); intros H;
    apply scan_length in H; cbn [String.length] in H; lia.
Qed.

Lemma int_invalid (bad : string) :
  parse_int bad = None ->
  (String.length bad <= max_str_digits)%nat ->
  int bad
  = Raised (Raise ValueError
                  ("invalid literal for int() with base 10: "
                     ++ substring 0 200 (repr_str bad))).
Proof.
  intros Hbad Hshort. unfold int.
  destruct (digit_run bad) as [found|] eqn:Hrun; [|reflexivity].
  pose proof (digit_run_length bad found Hrun) as Hfound.
  destruct (Nat.ltb_spec max_str_digits found); [lia|].
  rewrite Hbad. reflexivity.
Qed.

(** X11.  When a part of non-empty bounds, of 4300 characters at most, is
    not an integer literal and the parts before it are, the resolver raises
    the ValueError of [int] for that part, however many parts there are: its
    message is "invalid literal for int() with base 10: " and the first 200
    characters of the repr of the part. *)
Theorem bounds_with_a_bad_number
        (d : list (string * pyval)) (index : Z) (s : string)
        (good : list string) (bad : string) (rest : list string) :
  dict_get d "bounds" PNone = PStr s ->
  truthy (PStr s) = true ->
  split comma s = (good ++ bad :: rest)%list ->
  Forall (fun x => exists n, int x = Returned n) good ->
  parse_int bad = None ->
  (String.length bad <= max_str_digits)%nat ->
  center_of (PDict d) index
  = Raised (Raise ValueError
                  ("invalid literal for int() with base 10: "
                     ++ substring 0 200 (repr_str bad))).
Proof.
  intros Hbounds Hfull Hsplit Hgood Hbad Hshort. unfold center_of. cbn [get].
  rewrite Hbounds, Hfull. cbn [negb]. rewrite Hsplit.
  rewrite (ints_first_bad good bad rest _ Hgood (int_invalid bad Hbad Hshort)).
  reflexivity.
Qed.

Lemma bounds_with_a_bad_number_witness :
  center_of (PDict [("bounds", PStr "0,0,1e3,20")]) 7
  = Raised (Raise ValueError "invalid literal for int() with base 10: '1e3'").
Proof.
  apply (bounds_with_a_bad_number [("bounds", PStr "0,0,1e3,20")] 7
                                  "0,0,1e3,20" ["0"; "0"] "1e3" ["20"]).
  - reflexivity.
  - reflexivity.
  - reflexivity.
  - constructor; [exists 0; vm_compute; reflexivity|].
    constructor; [exists 0; vm_compute; reflexivity|]. constructor.
  - reflexivity.
  - apply Nat.leb_le. vm_compute. reflexivity.
Defined.

Lemma find_app_none_inv {A : Type} (f : A -> bool) (l1 l2 : list A) :
  find f (l1 ++ l2) = None -> find f l1 = None /\ find f l2 = None.
Proof.
  induction l1 as [|x l1 IH]; [auto|].
  cbn [find app]. destruct (f x); [discriminate|exact IH].
Qed.

Lemma height_prefix (good tl : list pyval) :
  (height (PList good) <= height (PList (good ++ tl)))%nat.
Proof.
  induction good as [|x good IH]; [cbn [app height fold_right]; lia|].
  cbn [app]. rewrite !height_cons. lia.
Qed.

(** Well-formed elements without the index are searched through and left
    behind. *)
Lemma find_element_skips (depth : nat) (good tl : list pyval) (target_index : Z) :
  forallb well_formed good = true ->
  find (has_index target_index) (flat_map preorder good) = None ->
  (height (PList good) <= S depth)%nat ->
  find_element_by_index (S depth) (good ++ tl) target_index
  = find_element_by_index (S depth) tl target_index.
Proof.
  induction good as [|item good IH]; intros Hwf Hnone Hheight; [reflexivity|].
  cbn [forallb] in Hwf. apply andb_prop in Hwf. destruct Hwf as [Hitem Hgood].
  rewrite height_cons in Hheight.
  cbn [flat_map] in Hnone. apply find_app_none_inv in Hnone.
  destruct Hnone as [Hhere Hlater].
  assert (height (PList good) <= S depth)%nat as Hrest
      by (cbn [height] in *; lia).
  specialize (IH Hgood Hlater Hrest).
  cbn [app]. rewrite find_element_cons.
  destruct item as [| | | | |d]; try discriminate.
  rewrite preorder_dict in Hhere. cbn [find has_index] in Hhere.
  destruct (eq_int (dict_get d "index" PNone) target_index); [discriminate|].
  rewrite well_formed_dict in Hitem. cbv zeta. unfold dict_get.
  destruct (assoc "children" d) as [c|] eqn:Hchildren; [|exact IH].
  destruct c as [| | | |l|]; try discriminate.
  pose proof (assoc_height _ _ _ Hchildren) as Hlow.
  destruct l as [|x l]; [exact IH|].
  cbn [truthy iterate].
  rewrite (find_element_first_match depth (x :: l) target_index Hitem) by lia.
  unfold first_match. rewrite Hhere. exact IH.
Qed.

(** X12.  The search stops at the first element that is not a dict: when
    the elements before it are well formed and none of their nodes has the
    index, the resolver raises the AttributeError of [item.get], whatever
    comes after that element, the node looked for included. *)
Theorem element_that_is_no_dict_stops_the_search
        (self : Wrapper) (good : list pyval) (bad : pyval) (rest : list pyval)
        (index : Z) :
  clickable_elements_cache self = PList (good ++ bad :: rest) ->
  forallb well_formed good = true ->
  find (has_index index) (flat_map preorder good) = None ->
  (forall d, bad <> PDict d) ->
  _extract_element_coordinates_by_index self index
  = Some (Raised (Raise AttributeError
                        ("'" ++ type_name bad
                             ++ "' object has no attribute 'get'"))).
Proof.
  intros Hcache Hwf Hnone Hbad.
  unfold _extract_element_coordinates_by_index. rewrite Hcache.
  assert (truthy (PList (good ++ bad :: rest)) = true) as ->
      by (destruct good; reflexivity).
  cbn [negb iterate].
  rewrite (find_element_skips _ good (bad :: rest) index Hwf Hnone)
    by (pose proof (height_prefix good (bad :: rest)); lia).
  rewrite find_element_cons.
  destruct bad as [| | | | |d]; try reflexivity.
  exfalso. exact (Hbad d eq_refl).
Qed.

Lemma element_that_is_no_dict_stops_the_search_witness :
  _extract_element_coordinates_by_index
    (set_cache (init 100)
               (PList [PDict [("index", PInt 1); ("bounds", PStr "0,0,10,10")];
                       PStr "divider";
                       PDict [("index", PInt 3); ("bounds", PStr "4,4,6,6")]]))
    3
  = Some (Raised (Raise AttributeError "'str' object has no attribute 'get'")).
Proof.
  apply (element_that_is_no_dict_stops_the_search
           _ [PDict [("index", PInt 1); ("bounds", PStr "0,0,10,10")]]
           (PStr "divider")
           [PDict [("index", PInt 3); ("bounds", PStr "4,4,6,6")]] 3).
  - reflexivity.
  - reflexivity.
  - reflexivity.
  - discriminate.
Defined.

(** ** Integers written by str and read by int *)

Lemma digits_step (acc : Z) (b : bool) (c : ascii) (k : Z) (s : string) :
  digit c = Some k -> digits acc b (String c s) = digits (10 * acc + k) true s.
Proof. intros H. cbn [digits]. rewrite H. reflexivity. Qed.

Ltac digit_step :=
  cbn [NilEmpty.string_of_uint];
  erewrite digits_step by (vm_compute; reflexivity).

Lemma digits_of_uint_acc (l : Decimal.uint) :
  forall acc : positive,
    digits (Z.pos acc) true (NilEmpty.string_of_uint l)
    = Some (Z.pos (Pos.of_uint_acc l acc)).
Proof.
  induction l as [|l IH|l IH|l IH|l IH|l IH|l IH|l IH|l IH|l IH|l IH];
    intros acc; [reflexivity|..];
    digit_step; cbn [Pos.of_uint_acc]; rewrite <- IH; f_equal; lia.
Qed.

Lemma digits_of_uint (d : Decimal.uint) :
  forall b : bool,
    b = true \/ d <> Decimal.Nil ->
    digits 0 b (NilEmpty.string_of_uint d) = Some (Z.of_N (Pos.of_uint d)).
Proof.
  induction d as [|l IH|l IH|l IH|l IH|l IH|l IH|l IH|l IH|l IH|l IH];
    intros b Hb.
  - destruct Hb as [->|Hnil]; [reflexivity|contradiction].
  - digit_step. cbn [Pos.of_uint]. apply IH. left. reflexivity.
  - digit_step. exact (digits_of_uint_acc l 1).
  - digit_step. exact (digits_of_uint_acc l 2).
  - digit_step. exact (digits_of_uint_acc l 3).
  - digit_step. exact (digits_of_uint_acc l 4).
  - digit_step. exact (digits_of_uint_acc l 5).
  - digit_step. exact (digits_of_uint_acc l 6).
  - digit_step. exact (digits_of_uint_acc l 7).
  - digit_step. exact (digits_of_uint_acc l 8).
  - digit_step. exact (digits_of_uint_acc l 9).
Qed.

(** An unsigned literal is read from its first digit on. *)
Lemma parse_unsigned (d : Decimal.uint) :
  d <> Decimal.Nil ->
  parse_int (NilEmpty.string_of_uint d) = digits 0 false (NilEmpty.string_of_uint d).
Proof.
  destruct d; [contradiction|..]; reflexivity.
Qed.

(** [int(str(n)) == n]. *)
Lemma parse_int_str_of_int (n : Z) : parse_int (str_of_int n) = Some n.
Proof.
  destruct n as [|p|p]; [reflexivity|..]; unfold str_of_int; cbn [Z.to_int].
  - pose proof (DecimalPos.Unsigned.to_uint_nonnil p) as Hnil.
    unfold NilZero.string_of_int, NilZero.string_of_uint.
    destruct (Pos.to_uint p) eqn:Hd; [contradiction|..]; rewrite <- Hd in *;
      (rewrite parse_unsigned by exact Hnil;
       rewrite digits_of_uint by (right; exact Hnil);
       rewrite DecimalPos.Unsigned.of_to; reflexivity).
  - pose proof (DecimalPos.Unsigned.to_uint_nonnil p) as Hnil.
    unfold NilZero.string_of_int, NilZero.string_of_uint.
    assert (parse_int (String "-" (NilEmpty.string_of_uint (Pos.to_uint p)))
            = option_map Z.opp
                         (digits 0 false (NilEmpty.string_of_uint (Pos.to_uint p))))
      as Hsign by reflexivity.
    destruct (Pos.to_uint p) eqn:Hd; [contradiction|..]; rewrite <- Hd in *;
      (rewrite Hsign; rewrite digits_of_uint by (right; exact Hnil);
       rewrite DecimalPos.Unsigned.of_to; reflexivity).
Qed.

Lemma split_at_separator (sep : ascii) (a rest : string) :
  contains sep a = false ->
  split sep (a ++ String sep rest) = a :: split sep rest.
Proof.
  induction a as [|c a IH]; intros Hfree.
  - cbn [append split]. rewrite Ascii.eqb_refl. reflexivity.
  - cbn [contains] in Hfree. apply Bool.orb_false_iff in Hfree.
    destruct Hfree as [Hc Ha].
    cbn [append split]. rewrite Hc, (IH Ha). reflexivity.
Qed.

Lemma split_without_separator (sep : ascii) (a : string) :
  contains sep a = false -> split sep a = [a].
Proof.
  induction a as [|c a IH]; intros Hfree; [reflexivity|].
  cbn [contains] in Hfree. apply Bool.orb_false_iff in Hfree.
  destruct Hfree as [Hc Ha].
  cbn [split]. rewrite Hc, (IH Ha). reflexivity.
Qed.

Lemma no_comma_in_uint (d : Decimal.uint) :
  contains comma (NilEmpty.string_of_uint d) = false.
Proof.
  induction d; cbn [NilEmpty.string_of_uint contains]; [reflexivity|..];
    rewrite IHd; reflexivity.
Qed.

Lemma no_comma_in_str_of_int (n : Z) : contains comma (str_of_int n) = false.
Proof.
  unfold str_of_int, NilZero.string_of_int, NilZero.string_of_uint.
  destruct n as [|p|p]; cbn [Z.to_int]; [reflexivity|..].
  - destruct (Pos.to_uint p) eqn:Hd; [reflexivity|..];
      rewrite <- Hd; apply no_comma_in_uint.
  - cbn [contains].
    destruct (Pos.to_uint p) eqn:Hd; [reflexivity|..];
      rewrite <- Hd; rewrite no_comma_in_uint; reflexivity.
Qed.

Lemma scan_step (b : bool) (count : nat) (c : ascii) (k : Z) (s : string) :
  digit c = Some k -> scan b count (String c s) = scan true (S count) s.
Proof. intros H. cbn [scan]. rewrite H. reflexivity. Qed.

Lemma scan_uint (d : Decimal.uint) :
  forall (b : bool) (count : nat),
    b = true \/ d <> Decimal.Nil ->
    scan b count (NilEmpty.string_of_uint d)
    = Some (count + String.length (NilEmpty.string_of_uint d))%nat.
Proof.
  induction d as [|l IH|l IH|l IH|l IH|l IH|l IH|l IH|l IH|l IH|l IH];
    intros b count Hb; cbn [NilEmpty.string_of_uint];
    [destruct Hb as [->|Hnil]; [cbn [scan String.length]; f_equal; lia
                               |contradiction]|..];
    (erewrite scan_step by (vm_compute; reflexivity));
    (rewrite IH by (left; reflexivity));
    cbn [String.length]; f_equal; lia.
Qed.

Lemma digit_run_unsigned (d : Decimal.uint) :
  d <> Decimal.Nil ->
  digit_run (NilEmpty.string_of_uint d) = scan false 0 (NilEmpty.string_of_uint d).
Proof.
  destruct d; [contradiction|..]; reflexivity.
Qed.

(** The digits [int] counts in [str(n)] are the digits of [n]. *)
Lemma digit_run_str_of_int (n : Z) :
  digit_run (str_of_int n) = Some (digit_count n).
Proof.
  destruct n as [|p|p]; [reflexivity|..];
    unfold digit_count, str_of_int; cbn [Z.abs Z.to_int];
    pose proof (DecimalPos.Unsigned.to_uint_nonnil p) as Hnil;
    unfold NilZero.string_of_int, NilZero.string_of_uint.
  - destruct (Pos.to_uint p) eqn:Hd; [contradiction|..]; rewrite <- Hd in *;
      (rewrite digit_run_unsigned by exact Hnil;
       rewrite scan_uint by (right; exact Hnil); reflexivity).
  - assert (digit_run (String "-" (NilEmpty.string_of_uint (Pos.to_uint p)))
            = scan false 0 (NilEmpty.string_of_uint (Pos.to_uint p)))
      as Hsign by reflexivity.
    destruct (Pos.to_uint p) eqn:Hd; [contradiction|..]; rewrite <- Hd in *;
      (rewrite Hsign; rewrite scan_uint by (right; exact Hnil); reflexivity).
Qed.

(** [int(str(n)) == n] within the digit limit. *)
Lemma int_str_of_int (n : Z) :
  (digit_count n <= max_str_digits)%nat -> int (str_of_int n) = Returned n.
Proof.
  intros Hn. unfold int. rewrite digit_run_str_of_int.
  destruct (Nat.ltb_spec max_str_digits (digit_count n)); [lia|].
  rewrite parse_int_str_of_int. reflexivity.
Qed.

Lemma ints_of_strs (ns : list Z) :
  Forall (fun n => (digit_count n <= max_str_digits)%nat) ns ->
  ints (map str_of_int ns) = Returned ns.
Proof.
  intros Hns. induction Hns as [|n ns Hn _ IH]; [reflexivity|].
  cbn [map ints]. rewrite (int_str_of_int n Hn), IH. reflexivity.
Qed.

Ltac few_digits := apply Nat.leb_le; vm_compute; reflexivity.

(** X13.  Bounds written as four integers in decimal, commas between them,
    are read back whole: for every left, top, right and bottom of at most
    4300 digits, negative ones included, an element whose [bounds] is
    "<left>,<top>,<right>,<bottom>" resolves to
    ((left+right) div 2, (top+bottom) div 2). *)
Theorem bounds_of_four_integers_resolve
        (d : list (string * pyval)) (index left_ top right_ bottom : Z) :
  dict_get d "bounds" PNone
  = PStr (str_of_int left_ ++ "," ++ str_of_int top ++ ","
            ++ str_of_int right_ ++ "," ++ str_of_int bottom) ->
  Forall (fun n => (digit_count n <= max_str_digits)%nat)
         [left_; top; right_; bottom] ->
  center_of (PDict d) index
  = Returned ((left_ + right_) / 2, (top + bottom) / 2).
Proof.
  intros Hbounds Hdigits.
  apply (center_of_bounds
           (PDict d) index
           (str_of_int left_ ++ "," ++ str_of_int top ++ ","
              ++ str_of_int right_ ++ "," ++ str_of_int bottom)
           left_ top right_ bottom).
  - cbn [get]. rewrite Hbounds. reflexivity.
  - change ("," ++ str_of_int top ++ "," ++ str_of_int right_ ++ ","
                ++ str_of_int bottom)
      with (String comma (str_of_int top ++ String comma
                            (str_of_int right_ ++ String comma
                                                (str_of_int bottom)))).
    rewrite !split_at_separator by apply no_comma_in_str_of_int.
    rewrite split_without_separator by apply no_comma_in_str_of_int.
    exact (ints_of_strs [left_; top; right_; bottom] Hdigits).
Qed.

(** X14.  The numbers a tool sends are read back by [int] as they were
    given, for numbers of at most 4300 digits: the request that
    [tap_by_index(index)] writes has as parameters {"index": s} with a
    string [s] that [int] reads as [index], and so it is with the key code
    of [press_key] and the five numbers of [swipe]. *)
Theorem numbers_sent_read_back
        (E : Env) (self : Wrapper) (w : World) (index keycode : Z)
        (start_x start_y end_x end_y duration_ms : Z) :
  0 < poll_interval self ->
  Forall (fun n => (digit_count n <= max_str_digits)%nat)
         [index; keycode; start_x; start_y; end_x; end_y; duration_ms] ->
  (exists r w' s,
      tap_by_index E self index w = Some (r, w')
      /\ requests (trace w')
         = PDict [("actionType", PStr "tap_by_index");
                  ("parameters", PDict [("index", PStr s)]);
                  ("timestamp", PInt (clock w));
                  ("actionId", PStr (uuid4 E (uuids w)))] :: requests (trace w)
      /\ int s = Returned index)
  /\ (exists r w' s,
         press_key E self keycode w = Some (r, w')
         /\ requests (trace w')
            = PDict [("actionType", PStr "press_key");
                     ("parameters", PDict [("keycode", PStr s)]);
                     ("timestamp", PInt (clock w));
                     ("actionId", PStr (uuid4 E (uuids w)))] :: requests (trace w)
         /\ int s = Returned keycode)
  /\ (exists r w' s1 s2 s3 s4 s5,
         swipe E self start_x start_y end_x end_y duration_ms w = Some (r, w')
         /\ requests (trace w')
            = PDict [("actionType", PStr "swipe");
                     ("parameters",
                      PDict [("start_x", PStr s1); ("start_y", PStr s2);
                             ("end_x", PStr s3); ("end_y", PStr s4);
                             ("duration_ms", PStr s5)]);
                     ("timestamp", PInt (clock w));
                     ("actionId", PStr (uuid4 E (uuids w)))] :: requests (trace w)
         /\ ints [s1; s2; s3; s4; s5]
            = Returned [start_x; start_y; end_x; end_y; duration_ms]).
Proof.
  intros Hp Hdigits.
  inversion Hdigits as [|? ? Hindex H1]; subst.
  inversion H1 as [|? ? Hkeycode H2]; subst.
  pose proof H2 as Hfive.
  inversion H2 as [|? ? Hsx H3]; subst. inversion H3 as [|? ? Hsy H4]; subst.
  inversion H4 as [|? ? Hex H5]; subst. inversion H5 as [|? ? Hey H6]; subst.
  inversion H6 as [|? ? Hdur _]; subst.
  split; [|split].
  - destruct (execute_ends E self "tap_by_index" [("index", str_of_int index)]
                           w Hp) as (r & w' & Hrun & Hsent).
    exists r, w', (str_of_int index).
    split; [|split; [exact Hsent|exact (int_str_of_int index Hindex)]].
    unfold tap_by_index, with_str. rewrite (str_int_within index Hindex).
    exact Hrun.
  - destruct (execute_ends E self "press_key" [("keycode", str_of_int keycode)]
                           w Hp) as (r & w' & Hrun & Hsent).
    exists r, w', (str_of_int keycode).
    split; [|split; [exact Hsent|exact (int_str_of_int keycode Hkeycode)]].
    unfold press_key, with_str. rewrite (str_int_within keycode Hkeycode).
    exact Hrun.
  - destruct (execute_ends E self "swipe"
                           [("start_x", str_of_int start_x);
                            ("start_y", str_of_int start_y);
                            ("end_x", str_of_int end_x);
                            ("end_y", str_of_int end_y);
                            ("duration_ms", str_of_int duration_ms)]
                           w Hp) as (r & w' & Hrun & Hsent).
    exists (match r with Returned v => Returned (success_of v) | Raised e => Raised e end),
           w', (str_of_int start_x), (str_of_int start_y), (str_of_int end_x),
           (str_of_int end_y), (str_of_int duration_ms).
    split; [|split; [exact Hsent|]].
    + unfold swipe, with_str.
      rewrite (str_int_within start_x Hsx), (str_int_within start_y Hsy),
        (str_int_within end_x Hex), (str_int_within end_y Hey),
        (str_int_within duration_ms Hdur).
      unfold and_then. rewrite Hrun. destruct r; reflexivity.
    + exact (ints_of_strs [start_x; start_y; end_x; end_y; duration_ms] Hfive).
Qed.

Lemma numbers_sent_read_back_witness :
  exists r w' s,
    tap_by_index (Demo.env Demo.untouched) (init 100) (-12)
                 (Demo.boot Demo.nothing) = Some (r, w')
    /\ requests (trace w')
       = [PDict [("actionType", PStr "tap_by_index");
                 ("parameters", PDict [("index", PStr s)]);
                 ("timestamp", PInt 1700000000000);
                 ("actionId", PStr "id-0")]]
    /\ int s = Returned (-12).
Proof.
  destruct (numbers_sent_read_back
              (Demo.env Demo.untouched) (init 100)
              (Demo.boot Demo.nothing) (-12) 0 0 0 0 0 0)
    as ((r & w' & s & Hrun & Hsent & Hread) & _).
  - reflexivity.
  - repeat (constructor; [few_digits|]). constructor.
  - exists r, w', s. split; [exact Hrun|]. split; [exact Hsent | exact Hread].
Defined.

Lemma bounds_of_four_integers_resolve_witness :
  center_of (PDict [("index", PInt 7); ("bounds", PStr "-3,0,4,9")]) 7
  = Returned (0, 4).
Proof.
  apply (bounds_of_four_integers_resolve
           [("index", PInt 7); ("bounds", PStr "-3,0,4,9")] 7 (-3) 0 4 9 eq_refl).
  repeat (constructor; [few_digits|]). constructor.
Defined.

(** ** More on remember *)

Lemma rstrip_twice (s : string) : rstrip (rstrip s) = rstrip s.
Proof.
  induction s as [|c s IH]; [reflexivity|].
  cbn [rstrip]. destruct (rstrip s) as [|c' r] eqn:Hr.
  - destruct (isspace c) eqn:Hc; [reflexivity|].
    cbn [rstrip]. rewrite Hc. reflexivity.
  - cbn [rstrip]. cbn [rstrip] in IH. rewrite IH. reflexivity.
Qed.

Lemma rstrip_keeps_head (c : ascii) (s : string) :
  rstrip (String c s) = EmptyString \/ exists r, rstrip (String c s) = String c r.
Proof.
  cbn [rstrip]. destruct (rstrip s); [destruct (isspace c)|]; eauto.
Qed.

Lemma lstrip_head (s : string) :
  lstrip s = EmptyString
  \/ exists c r, lstrip s = String c r /\ isspace c = false.
Proof.
  induction s as [|c s IH]; [left; reflexivity|].
  cbn [lstrip]. destruct (isspace c) eqn:Hc; [exact IH|].
  right. eauto.
Qed.

Lemma strip_twice (s : string) : strip (strip s) = strip s.
Proof.
  unfold strip.
  assert (lstrip (rstrip (lstrip s)) = rstrip (lstrip s)) as ->;
    [|apply rstrip_twice].
  destruct (lstrip_head s) as [->|(c & r & -> & Hc)]; [reflexivity|].
  destruct (rstrip_keeps_head c r) as [->|(r' & ->)]; [reflexivity|].
  cbn [lstrip]. rewrite Hc. reflexivity.
Qed.

Lemma Forall_last_items {A : Type} (P : A -> Prop) (n : nat) (l : list A) :
  Forall P l -> Forall P (last_items n l).
Proof.
  unfold last_items. generalize (List.length l - n)%nat as k.
  intros k H. revert k. induction H as [|x l Hx H IH]; intros [|k]; cbn [skipn];
    auto.
Qed.

(** X15.  Every note in the log is trimmed: whatever is given to
    [remember], in any number of calls on a fresh wrapper, no entry of the
    log begins or ends with a blank ([strip] leaves it as it is). *)
Theorem notes_in_memory_are_trimmed (poll_interval : Z) (infos : list pyval) :
  Forall (fun note => strip note = note /\ lstrip note = note /\ rstrip note = note)
         (memory (remember_all (init poll_interval) infos)).
Proof.
  rewrite remember_all_memory by (cbn; lia).
  apply Forall_last_items. cbn [init memory app].
  induction (accepted infos) as [|s l IH]; [constructor|].
  cbn [map]. constructor; [|exact IH].
  assert (lstrip (strip s) = strip s) as Hleft.
  { unfold strip.
    destruct (lstrip_head s) as [->|(c & r & -> & Hc)]; [reflexivity|].
    destruct (rstrip_keeps_head c r) as [->|(r' & ->)]; [reflexivity|].
    cbn [lstrip]. rewrite Hc. reflexivity. }
  split; [apply strip_twice|]. split; [exact Hleft|].
  unfold strip. apply rstrip_twice.
Qed.

(** X16.  [remember] changes the log and nothing else, and what it refuses
    changes nothing: a value that is not a str, or the empty str, gives the
    message "Error: Please provide valid information to remember." and the
    wrapper as it was; a str that is not empty gives "Remembered: " with the
    str as given and puts the str, stripped, at the end of the log, be it
    empty after the stripping. *)
Theorem remember_accepts_nonempty_strs (self : Wrapper) (information : pyval) :
  let '(message, self') := remember self information in
  clickable_elements_cache self' = clickable_elements_cache self
  /\ success self' = success self
  /\ reason self' = reason self
  /\ finished self' = finished self
  /\ poll_interval self' = poll_interval self
  /\ ((forall s, information = PStr s -> s = "") ->
      message = "Error: Please provide valid information to remember."
      /\ self' = self)
  /\ (forall s, information = PStr s -> s <> "" ->
        message = "Remembered: " ++ s
        /\ exists kept, memory self' = (kept ++ [strip s])%list).
Proof.
  destruct information as [| | |s| |];
    try (cbn [remember]; repeat split; try reflexivity; discriminate).
  unfold remember. cbn [truthy].
  destruct (s =? "")%string eqn:Hs.
  - apply String.eqb_eq in Hs. subst s. cbn [negb].
    split; [reflexivity|]. split; [reflexivity|]. split; [reflexivity|].
    split; [reflexivity|]. split; [reflexivity|].
    split; [intros _; split; reflexivity|].
    intros s' Heq Hne. inversion Heq. congruence.
  - apply String.eqb_neq in Hs. cbn [negb].
    split; [reflexivity|]. split; [reflexivity|]. split; [reflexivity|].
    split; [reflexivity|]. split; [reflexivity|].
    split; [intros Hempty; exfalso; exact (Hs (Hempty s eq_refl))|].
    intros s' Heq _. inversion Heq; subst s'. split; [reflexivity|].
    cbn [set_memory memory].
    destruct (max_memory_items <? List.length (memory self ++ [strip s]))%nat.
    + unfold last_items.
      rewrite length_app. cbn [List.length].
      set (k := (List.length (memory self) + 1 - max_memory_items)%nat).
      destruct (Nat.le_gt_cases k (List.length (memory self))) as [Hk|Hk].
      * exists (skipn k (memory self)). rewrite skipn_app.
        replace (k - List.length (memory self))%nat with 0%nat by lia.
        reflexivity.
      * unfold k, max_memory_items in Hk. lia.
    + exists (memory self). reflexivity.
Qed.

Lemma remember_accepts_nonempty_strs_witness :
  remember (init 100) (PStr "  hi ")
  = ("Remembered:   hi ", set_memory (init 100) ["hi"]).
Proof.
  pose proof (remember_accepts_nonempty_strs (init 100) (PStr "  hi ")) as H.
  destruct (remember (init 100) (PStr "  hi ")) as [message self'] eqn:Hrun.
  rewrite <- Hrun. reflexivity.
Defined.

(** ** More on the tools *)

Lemma execute_removes_once (E : Env) (self : Wrapper) (action_type : string)
      (parameters : list (string * string)) (w : World) :
  0 < poll_interval self ->
  exists r w',
    _execute_action E self action_type parameters w = Some (r, w')
    /\ requests (trace w')
       = action_data action_type parameters (clock w) (uuid4 E (uuids w))
           :: requests (trace w)
    /\ ((forall k fs, actions_file (executor E k fs) = actions_file fs) ->
        actions_file (files w')
        = Doc (action_data action_type parameters (clock w) (uuid4 E (uuids w))))
    /\ (count is_remove (trace w') <= S (count is_remove (trace w)))%nat.
Proof.
  intros Hp.
  destruct (execute_sends E self action_type parameters w Hp)
    as (r & w' & Hrun & Hsent & Hfile).
  exists r, w'. split; [exact Hrun|]. split; [exact Hsent|]. split; [exact Hfile|].
  destruct (execute_course E self action_type parameters w Hp)
    as (n & _ & [[_ Hrun']|(_ & r' & w'' & Hcheck & Hrun')]);
    rewrite Hrun in Hrun'; inversion Hrun'; subst.
  - rewrite at_look_removes.
    change (count is_remove (trace (submitted E action_type parameters w)))
      with (count is_remove (trace w)). lia.
  - pose proof (at_look_removes E self ResultFile n
                                (submitted E action_type parameters w)) as Hsame.
    change (count is_remove (trace (submitted E action_type parameters w)))
      with (count is_remove (trace w)) in Hsame.
    destruct (check_result_keeps _ _ _ _ _ Hcheck)
      as (_ & _ & _ & [[_ Hc]|(_ & _ & Hc)]); lia.
Qed.

(** A call whose numbers are within the digit limit is the call of
    [_execute_action] with the name and the parameters of [request_of]. *)
Lemma perform_sendable (E : Env) (self : Wrapper) (c : call) (w : World) :
  sendable c = true ->
  let selfc := match c with
               | Complete s t => mark_complete self s t
               | _ => self
               end in
  forall r w',
    _execute_action E selfc (fst (request_of c)) (snd (request_of c)) w
    = Some (r, w') ->
    exists r', perform E self c w = Some (r', selfc, w').
Proof.
  intros Hsend selfc r w' Hrun.
  destruct c; cbn [sendable] in Hsend;
    repeat match goal with
           | H : (_ && _) = true |- _ => apply andb_prop in H; destruct H
           end;
    repeat match goal with
           | H : within_limit ?n = true |- _ =>
               apply within_limit_count in H; apply str_int_within in H
           end;
    cbn [request_of fst snd] in Hrun; unfold selfc in *;
    cbn [perform];
    unfold tap_by_index, swipe, drag, input_text, back, press_key, start_app,
      take_screenshot, list_packages, get_apps, complete, and_then, answered,
      with_str;
    repeat match goal with
           | H : str_int _ = _ |- _ => rewrite H; clear H
           end;
    rewrite Hrun;
    destruct r as [v|e]; try (eexists; reflexivity).
  destruct v as [| | | | |d]; try (eexists; reflexivity).
  destruct (has_key "image_base64" d); [|eexists; reflexivity].
  destruct (b64decode E (dict_get d "image_base64" PNone));
    eexists; reflexivity.
Qed.

(** A call with a number beyond the digit limit raises at [str] and does
    nothing else. *)
Lemma perform_unsendable (E : Env) (self : Wrapper) (c : call) (w : World) :
  sendable c = false ->
  perform E self c w
  = Some (Raised (Raise ValueError
                        "Exceeds the limit (4300 digits) for integer string conversion; use sys.set_int_max_str_digits() to increase the limit"),
          self, w).
Proof.
  intros Hnot.
  destruct c; cbn [sendable] in Hnot; try discriminate Hnot;
    unfold within_limit in Hnot; revert Hnot;
    cbn [perform];
    unfold tap_by_index, swipe, drag, input_text, press_key, and_then, answered,
      with_str, str_int;
    repeat match goal with
           | |- context [(max_str_digits <? digit_count ?n)%nat] =>
               destruct (max_str_digits <? digit_count n)%nat
           end;
    cbn [negb andb]; intros Hnot; try discriminate Hnot; reflexivity.
Qed.

(** X17.  Every tool that reaches the executor, called with numbers of at
    most 4300 digits, writes exactly one request to the actions file: the
    object with its name as [actionType], its arguments as strings under
    [parameters], the time of the call and the identifier drawn, whether the
    call then returns or raises; the actions file holds it when the call
    ends unless the executor has changed the file.  The tool removes the
    result file once at most; it leaves the memory log, the cached tree and
    the poll interval as they were; no tool but [complete] changes the
    wrapper at all, and none sets [finished] back to false.  Called with a
    longer number, the tool raises the ValueError of [str] and writes
    nothing. *)
Theorem every_tool_sends_one_request
        (E : Env) (self : Wrapper) (c : call) (w : World) :
  0 < poll_interval self ->
  (sendable c = true ->
   let request :=
     PDict [("actionType", PStr (fst (request_of c)));
            ("parameters",
             PDict (map (fun kv => (fst kv, PStr (snd kv))) (snd (request_of c))));
            ("timestamp", PInt (clock w));
            ("actionId", PStr (uuid4 E (uuids w)))] in
   exists r self' w',
     perform E self c w = Some (r, self', w')
     /\ requests (trace w') = request :: requests (trace w)
     /\ ((forall k fs, actions_file (executor E k fs) = actions_file fs) ->
         actions_file (files w') = Doc request)
     /\ (count is_remove (trace w') <= S (count is_remove (trace w)))%nat
     /\ memory self' = memory self
     /\ clickable_elements_cache self' = clickable_elements_cache self
     /\ poll_interval self' = poll_interval self
     /\ ((forall s t, c <> Complete s t) -> self' = self)
     /\ (finished self = true -> finished self' = true))
  /\ (sendable c = false ->
      perform E self c w
      = Some (Raised (Raise ValueError
                            "Exceeds the limit (4300 digits) for integer string conversion; use sys.set_int_max_str_digits() to increase the limit"),
              self, w)).
Proof.
  intros Hp. split; [|apply perform_unsendable].
  intros Hsend request.
  pose proof (perform_sendable E self c w Hsend) as Hperform. cbv zeta in Hperform.
  set (selfc := match c with
                | Complete s t => mark_complete self s t
                | _ => self
                end) in *.
  assert (poll_interval selfc = poll_interval self) as Hpoll
      by (unfold selfc; destruct c; reflexivity).
  assert (0 < poll_interval selfc) as Hp' by (rewrite Hpoll; exact Hp).
  destruct (execute_removes_once E selfc (fst (request_of c))
                                 (snd (request_of c)) w Hp')
    as (r & w' & Hrun & Hsent & Hfile & Hrem).
  destruct (Hperform r w' Hrun) as [r' Hr'].
  exists r', selfc, w'.
  split; [exact Hr'|]. split; [exact Hsent|]. split; [exact Hfile|].
  split; [exact Hrem|].
  split; [unfold selfc; destruct c; reflexivity|].
  split; [unfold selfc; destruct c; reflexivity|].
  split; [exact Hpoll|].
  split.
  - intros Hother. unfold selfc. destruct c; try reflexivity.
    exfalso. exact (Hother _ _ eq_refl).
  - unfold selfc. destruct c; try (intros Hdone; exact Hdone).
    intros _. reflexivity.
Qed.

Lemma every_tool_sends_one_request_witness :
  exists r self' w',
    perform (Demo.env Demo.untouched) (init 100)
            (Swipe 10 20 30 40 300) (Demo.boot Demo.nothing)
    = Some (r, self', w')
    /\ actions_file (files w')
       = Doc (PDict [("actionType", PStr "swipe");
                     ("parameters",
                      PDict [("start_x", PStr "10"); ("start_y", PStr "20");
                             ("end_x", PStr "30"); ("end_y", PStr "40");
                             ("duration_ms", PStr "300")]);
                     ("timestamp", PInt 1700000000000);
                     ("actionId", PStr "id-0")]).
Proof.
  destruct (proj1 (every_tool_sends_one_request
                     (Demo.env Demo.untouched) (init 100) (Swipe 10 20 30 40 300)
                     (Demo.boot Demo.nothing) eq_refl))
    as (r & self' & w' & Hrun & _ & Hfile & _).
  - vm_compute. reflexivity.
  - exists r, self', w'. split; [exact Hrun|]. apply Hfile. reflexivity.
Defined.

(** The call that finds its answer. *)
Lemma execute_answer (E : Env) (self : Wrapper) (action_type : string)
      (parameters : list (string * string)) (w : World)
      (n : nat) (d : list (string * pyval)) :
  0 < poll_interval self ->
  let action_id := uuid4 E (uuids w) in
  let w1 := submitted E action_type parameters w in
  let seen := fun j => at_look ResultFile E self j w1 in
  (forall j, (j < n)%nat ->
             passed_over action_id (result_file (files (seen j))) = true) ->
  clock (seen n) - clock w1 < max_wait_time ->
  result_file (files (seen n)) = Doc (PDict d) ->
  eq_str (dict_get d "actionId" PNone) action_id = true ->
  _execute_action E self action_type parameters w
  = Some (if truthy (dict_get d "success" PNone)
          then match decode_fault E (dict_get d "result" (PStr "")) with
               | Some e => Raised e
               | None => Returned (decode E (dict_get d "result" (PStr "")))
               end
          else Raised (Raise Exception
                             ("Action failed: "
                                ++ str (dict_get d "error" (PStr "Unknown error")))),
          remove (probe ResultFile (seen n))).
Proof.
  intros Hp action_id w1 seen Hpass Hclock Hfile Hid.
  destruct (execute_reaches E self action_type parameters w n Hp Hpass Hclock)
    as [Hrun Hfuel].
  rewrite Hrun.
  destruct (enough - n)%nat as [|fuel] eqn:Hleft; [lia|].
  exact (poll_answer E self action_type parameters w fuel (seen n) d
                     Hclock Hfile Hid).
Qed.

(** X18.  A successful answer that lacks what the tool reads from it (the
    payload is not an object, or has no such key) does not make [swipe],
    [drag], [list_packages] or [get_apps] fail: the first two return False,
    the other two the empty list; [take_screenshot] raises
    ValueError("Screenshot failed").  The result file is removed all the
    same and the wrapper is as before.  (An exception of [json.loads] that
    its handler misses is raised instead, the file removed; a [swipe] or
    [drag] with a number of more than 4300 digits has raised at [str] and
    written nothing.) *)
Theorem answer_without_the_field_read
        (E : Env) (self : Wrapper) (c : call) (w : World)
        (n : nat) (d : list (string * pyval)) (key : string) :
  0 < poll_interval self ->
  let action_id := uuid4 E (uuids w) in
  let w1 := submitted E (fst (request_of c)) (snd (request_of c)) w in
  let seen := fun j => at_look ResultFile E self j w1 in
  (forall j, (j < n)%nat ->
             passed_over action_id (result_file (files (seen j))) = true) ->
  clock (seen n) - clock w1 < max_wait_time ->
  result_file (files (seen n)) = Doc (PDict d) ->
  eq_str (dict_get d "actionId" PNone) action_id = true ->
  truthy (dict_get d "success" PNone) = true ->
  field_read c = Some key ->
  lacks key (decode E (dict_get d "result" (PStr ""))) = true ->
  perform E self c w
  = if sendable c then
      Some (match decode_fault E (dict_get d "result" (PStr "")) with
            | Some e => Raised e
            | None =>
                match c with
                | TakeScreenshot => Raised (Raise ValueError "Screenshot failed")
                | Swipe _ _ _ _ _ | Drag _ _ _ _ _ => Returned (Value (PBool false))
                | _ => Returned (Value (PList []))
                end
            end,
            self, remove (probe ResultFile (seen n)))
    else
      Some (Raised (Raise ValueError
                          "Exceeds the limit (4300 digits) for integer string conversion; use sys.set_int_max_str_digits() to increase the limit"),
            self, w).
Proof.
  intros Hp action_id w1 seen Hpass Hclock Hfile Hid Hsuccess Hfield Hlacks.
  destruct (sendable c) eqn:Hsend; [|apply perform_unsendable; exact Hsend].
  pose proof (execute_answer E self (fst (request_of c)) (snd (request_of c))
                             w n d Hp Hpass Hclock Hfile Hid) as Hrun.
  rewrite Hsuccess in Hrun. fold w1 seen in Hrun.
  destruct c; try discriminate; inversion Hfield; subst key;
    cbn [sendable] in Hsend;
    repeat match goal with
           | H : (_ && _) = true |- _ => apply andb_prop in H; destruct H
           end;
    repeat match goal with
           | H : within_limit ?n = true |- _ =>
               apply within_limit_count in H; apply str_int_within in H
           end;
    cbn [request_of fst snd] in Hrun;
    cbn [perform];
    unfold swipe, drag, take_screenshot, list_packages, get_apps, and_then,
      answered, with_str;
    repeat match goal with
           | H : str_int _ = _ |- _ => rewrite H; clear H
           end;
    rewrite Hrun;
    (destruct (decode_fault E (dict_get d "result" (PStr ""))); [reflexivity|]);
    destruct (decode E (dict_get d "result" (PStr ""))) as [| | | | |d'];
    try reflexivity;
    cbn [lacks] in Hlacks; apply Bool.negb_true_iff in Hlacks;
    unfold success_of, field_or_empty, dict_get;
    try rewrite Hlacks; unfold has_key in Hlacks;
    destruct (assoc _ d'); try discriminate; reflexivity.
Qed.

(** The executor answers a swipe with the payload [true]. *)
Lemma answer_without_the_field_read_witness :
  exists w',
    perform (Demo.env (Demo.writes_at 0
                         (Demo.answer_to "id-0" [("success", PBool true);
                                                 ("result", PStr "true")])))
            (init 100) (Swipe 10 20 30 40 300) (Demo.boot Demo.nothing)
    = Some (Returned (Value (PBool false)), init 100, w').
Proof.
  eexists.
  apply (answer_without_the_field_read
           (Demo.env (Demo.writes_at 0
                        (Demo.answer_to "id-0" [("success", PBool true);
                                                ("result", PStr "true")])))
           (init 100) (Swipe 10 20 30 40 300) (Demo.boot Demo.nothing)
           1%nat [("actionId", PStr "id-0"); ("success", PBool true);
                  ("result", PStr "true")] "success").
  - reflexivity.
  - intros [|j] Hj; [reflexivity | lia].
  - vm_compute. reflexivity.
  - reflexivity.
  - reflexivity.
  - reflexivity.
  - reflexivity.
  - reflexivity.
Defined.

(** ** The entry point *)

Lemma json_char_printable (c : ascii) :
  every_char (in_range 32 126) (json_char c) = true.
Proof.
  destruct c as [[] [] [] [] [] [] [] []]; vm_compute; reflexivity.
Qed.

Lemma every_char_app (test : ascii -> bool) (a b : string) :
  every_char test (a ++ b) = every_char test a && every_char test b.
Proof.
  induction a as [|c a IH]; [reflexivity|].
  cbn [append every_char]. rewrite IH. apply Bool.andb_assoc.
Qed.

Lemma json_str_printable (s : string) :
  every_char (in_range 32 126) (json_str s) = true.
Proof.
  unfold json_str. cbn [every_char]. rewrite every_char_app.
  assert (every_char (in_range 32 126) (json_chars s) = true) as ->.
  { induction s as [|c s IH]; [reflexivity|].
    cbn [json_chars]. rewrite every_char_app, json_char_printable, IH.
    reflexivity. }
  reflexivity.
Qed.

(** X19.  A run of the script calls [print] exactly once.  The text goes to
    the standard output, with no exit status set, exactly when the goal and
    the configuration path are not empty, the configuration loads and the
    agent returns; in every other case it goes to the error stream, nothing
    is written to the standard output and the exit status is 1.  The text on
    the standard output is printable ASCII throughout, so it is one line
    whatever the result holds; so is the text on the error stream, but for
    the message of a configuration that does not load, which is printed as
    it comes after "Error loading config: ". *)
Theorem main_prints_once {Config : Type} (L : Launch Config) :
  ((exists text,
       stdout (main L) = [text] /\ stderr (main L) = []
       /\ exit_status (main L) = None
       /\ every_char (in_range 32 126) text = true)
   \/ (exists text,
          stdout (main L) = [] /\ stderr (main L) = [text]
          /\ exit_status (main L) = Some 1
          /\ (every_char (in_range 32 126) text = true
              \/ exists e,
                  from_yaml L (environ_get L "DROIDRUN_CONFIG") = Raised e
                  /\ text = "Error loading config: " ++ exn_msg e)))
  /\ (exit_status (main L) = None
      <-> environ_get L "DROIDRUN_GOAL" <> ""
          /\ environ_get L "DROIDRUN_CONFIG" <> ""
          /\ exists config result,
              from_yaml L (environ_get L "DROIDRUN_CONFIG") = Returned config
              /\ run_agent L (environ_get L "DROIDRUN_GOAL") config (init 100)
                 = Returned result).
Proof.
  unfold main. cbn [truthy].
  destruct (environ_get L "DROIDRUN_GOAL" =? "")%string eqn:Hgoal;
    [apply String.eqb_eq in Hgoal|apply String.eqb_neq in Hgoal]; cbn [negb].
  { split.
    - right. eexists. split; [reflexivity|]. split; [reflexivity|].
      split; [reflexivity|]. left. reflexivity.
    - split; [discriminate|]. intros (Hg & _). contradiction. }
  destruct (environ_get L "DROIDRUN_CONFIG" =? "")%string eqn:Hconfig;
    [apply String.eqb_eq in Hconfig|apply String.eqb_neq in Hconfig]; cbn [negb].
  { split.
    - right. eexists. split; [reflexivity|]. split; [reflexivity|].
      split; [reflexivity|]. left. reflexivity.
    - split; [discriminate|]. intros (_ & Hc & _). contradiction. }
  destruct (from_yaml L (environ_get L "DROIDRUN_CONFIG")) as [config|e] eqn:Hyaml.
  2: { split.
       - right. eexists. split; [reflexivity|]. split; [reflexivity|].
         split; [reflexivity|]. right. exists e. split; reflexivity.
       - split; [discriminate|]. intros (_ & _ & c & r & Hc & _). discriminate. }
  destruct (run_agent L (environ_get L "DROIDRUN_GOAL") config (init 100))
    as [result0|e] eqn:Hagent.
  - split.
    + left. eexists. split; [reflexivity|]. split; [reflexivity|].
      split; [reflexivity|].
      cbn [json_dumps map join fold_left fst snd].
      rewrite !every_char_app, !json_str_printable. reflexivity.
    + split; [intros _|reflexivity].
      split; [exact Hgoal|]. split; [exact Hconfig|]. eauto.
  - split.
    + right. eexists. split; [reflexivity|]. split; [reflexivity|].
      split; [reflexivity|]. left.
      cbn [json_dumps map join fold_left fst snd].
      rewrite !every_char_app, !json_str_printable. reflexivity.
    + split; [discriminate|]. intros (_ & _ & c & r & Hc & Hr).
      inversion Hc; subst. rewrite Hagent in Hr. discriminate.
Qed.

(** X20.  The start-up checks come in order and stop the script before it
    does anything else: without a goal the script prints "Error:
    DROIDRUN_GOAL not set" on the error stream, nothing on the standard
    output, and exits with status 1, whatever the other variables hold; with
    a goal and without a configuration path it does the same with "Error:
    DROIDRUN_CONFIG not set"; in both cases neither the configuration loader
    nor the agent has any part in the outcome. *)
Theorem main_checks_goal_then_config
        {Config Config' : Type} (L : Launch Config) (L' : Launch Config') :
  (environ_get L "DROIDRUN_GOAL" = "" ->
   main L = {| stdout := [];
               stderr := ["Error: DROIDRUN_GOAL not set"];
               exit_status := Some 1 |})
  /\ (environ_get L "DROIDRUN_GOAL" <> "" ->
      environ_get L "DROIDRUN_CONFIG" = "" ->
      main L = {| stdout := [];
                  stderr := ["Error: DROIDRUN_CONFIG not set"];
                  exit_status := Some 1 |})
  /\ ((forall name, environ L name = environ L' name) ->
      environ_get L "DROIDRUN_GOAL" = ""
      \/ environ_get L "DROIDRUN_CONFIG" = "" ->
      main L = main L').
Proof.
  assert (forall (C : Type) (K : Launch C),
             environ_get K "DROIDRUN_GOAL" = "" ->
             main K = {| stdout := [];
                         stderr := ["Error: DROIDRUN_GOAL not set"];
                         exit_status := Some 1 |}) as Hgoal.
  { intros C K H. unfold main. rewrite H. reflexivity. }
  assert (forall (C : Type) (K : Launch C),
             environ_get K "DROIDRUN_GOAL" <> "" ->
             environ_get K "DROIDRUN_CONFIG" = "" ->
             main K = {| stdout := [];
                         stderr := ["Error: DROIDRUN_CONFIG not set"];
                         exit_status := Some 1 |}) as Hconfig.
  { intros C K Hg Hc. unfold main. rewrite Hc. cbn [truthy].
    apply String.eqb_neq in Hg. rewrite Hg. reflexivity. }
  split; [apply Hgoal|]. split; [apply Hconfig|].
  intros Hsame Hmissing.
  assert (forall name, environ_get L' name = environ_get L name) as Hget
      by (intros name; unfold environ_get; rewrite Hsame; reflexivity).
  destruct (string_dec (environ_get L "DROIDRUN_GOAL") "") as [Hg|Hg].
  - rewrite (Hgoal _ L Hg), (Hgoal _ L') by (rewrite Hget; exact Hg).
    reflexivity.
  - destruct Hmissing as [Hm|Hm]; [contradiction|].
    rewrite (Hconfig _ L Hg Hm), (Hconfig _ L')
      by (rewrite Hget; assumption).
    reflexivity.
Qed.

Lemma main_checks_goal_then_config_witness :
  main {| environ := fun name =>
                       if (name =? "DROIDRUN_CONFIG")%string
                       then Some "config.yaml" else None;
          from_yaml := fun _ => Returned tt;
          run_agent := fun _ _ _ => Returned "done" |}
  = {| stdout := [];
       stderr := ["Error: DROIDRUN_GOAL not set"];
       exit_status := Some 1 |}.
Proof.
  apply (proj1 (main_checks_goal_then_config
                  {| environ := fun name =>
                                  if (name =? "DROIDRUN_CONFIG")%string
                                  then Some "config.yaml" else None;
                     from_yaml := fun _ => Returned tt;
                     run_agent := fun _ _ _ => Returned "done" |}
                  {| environ := fun _ => None;
                     from_yaml := fun _ => Returned tt;
                     run_agent := fun _ _ _ => Returned "done" |})).
  reflexivity.
Defined.

(** ** How the operations compose *)

(** X21.  The completion status is not written once only: a second
    [complete] replaces the flag and the reason of the first (the reason
    given, or the canned message of the second flag when it is empty),
    [finished] stays true, and each of the two calls writes its own
    "complete" request, under identifiers drawn one after the other. *)
Theorem second_complete_replaces_the_first
        (E : Env) (self : Wrapper) (w : World)
        (success1 success2 : bool) (reason1 reason2 : string) :
  0 < poll_interval self ->
  exists r1 self1 w1 r2 self2 w2,
    complete E self success1 reason1 w = Some (r1, self1, w1)
    /\ complete E self1 success2 reason2 w1 = Some (r2, self2, w2)
    /\ success self2 = Some success2
    /\ reason self2
       = Some (if (reason2 =? "")%string
               then if success2 then "Task completed successfully."
                    else "Task failed."
               else reason2)
    /\ finished self1 = true /\ finished self2 = true
    /\ requests (trace w2)
       = PDict [("actionType", PStr "complete");
                ("parameters",
                 PDict [("success", PStr (if success2 then "True" else "False"));
                        ("reason", PStr reason2)]);
                ("timestamp", PInt (clock w1));
                ("actionId", PStr (uuid4 E (S (uuids w))))]
           :: PDict [("actionType", PStr "complete");
                     ("parameters",
                      PDict [("success",
                              PStr (if success1 then "True" else "False"));
                             ("reason", PStr reason1)]);
                     ("timestamp", PInt (clock w));
                     ("actionId", PStr (uuid4 E (uuids w)))]
           :: requests (trace w)
    /\ ((forall k fs, actions_file (executor E k fs) = actions_file fs) ->
        actions_file (files w2)
        = Doc (PDict [("actionType", PStr "complete");
                      ("parameters",
                       PDict [("success",
                               PStr (if success2 then "True" else "False"));
                              ("reason", PStr reason2)]);
                      ("timestamp", PInt (clock w1));
                      ("actionId", PStr (uuid4 E (S (uuids w))))])).
Proof.
  intros Hp.
  destruct (execute_sends E (mark_complete self success1 reason1) "complete"
                          [("success", str_of_bool success1); ("reason", reason1)]
                          w Hp) as (r1 & w1 & Hrun1 & Hsent1 & _).
  destruct (execute_sends E (mark_complete (mark_complete self success1 reason1)
                                           success2 reason2) "complete"
                          [("success", str_of_bool success2); ("reason", reason2)]
                          w1 Hp) as (r2 & w2 & Hrun2 & Hsent2 & Hfile2).
  assert (uuids w1 = S (uuids w)) as Hdrawn.
  { rewrite execute_polls in Hrun1. apply poll_uuids in Hrun1. exact Hrun1. }
  exists (match r1 with Returned _ => Returned tt | Raised e => Raised e end),
         (mark_complete self success1 reason1), w1,
         (match r2 with Returned _ => Returned tt | Raised e => Raised e end),
         (mark_complete (mark_complete self success1 reason1) success2 reason2),
         w2.
  split; [unfold complete; rewrite Hrun1; destruct r1; reflexivity|].
  split; [unfold complete; rewrite Hrun2; destruct r2; reflexivity|].
  split; [reflexivity|].
  split.
  { cbn [mark_complete reason truthy]. destruct (reason2 =? "")%string; reflexivity. }
  split; [reflexivity|]. split; [reflexivity|].
  split.
  - rewrite Hsent2, Hsent1, Hdrawn.
    destruct success1, success2; reflexivity.
  - intros Hkeep. rewrite (Hfile2 Hkeep), Hdrawn.
    destruct success2; reflexivity.
Qed.

Lemma second_complete_replaces_the_first_witness :
  exists r1 self1 w1 r2 self2 w2,
    complete (Demo.env Demo.untouched) (init 100) false "" (Demo.boot Demo.nothing)
    = Some (r1, self1, w1)
    /\ complete (Demo.env Demo.untouched) self1 true "done" w1
       = Some (r2, self2, w2)
    /\ success self2 = Some true
    /\ reason self2 = Some "done".
Proof.
  destruct (second_complete_replaces_the_first
              (Demo.env Demo.untouched) (init 100) (Demo.boot Demo.nothing)
              false true "" "done" eq_refl)
    as (r1 & self1 & w1 & r2 & self2 & w2 & H1 & H2 & Hs & Hr & _).
  exists r1, self1, w1, r2, self2, w2. auto.
Defined.

(** X22.  The resolver works on the tree of the last state read: after a
    call of [get_state] that reads a state document whose [a11yTree] is a
    non-empty list of well-formed elements, the resolver answers with the
    first node of that list in preorder that has the index, or raises
    ValueError("No element found with index <index>") when there is none,
    whatever tree was cached before. *)
Theorem resolver_uses_the_tree_read
        (E : Env) (self : Wrapper) (w : World) (n : nat)
        (d : list (string * pyval)) (item : pyval) (items : list pyval)
        (index : Z) :
  let seen := fun j => at_look StateFile E self j w in
  (n < max_retries)%nat ->
  (forall j, (j < n)%nat -> not_ready (state_file (files (seen j))) = true) ->
  state_file (files (seen n)) = Doc (PDict d) ->
  dict_get d "a11yTree" (PList []) = PList (item :: items) ->
  forallb well_formed (item :: items) = true ->
  let '(_, self', _) := get_state E self w in
  _extract_element_coordinates_by_index self' index
  = match find (has_index index) (flat_map preorder (item :: items)) with
    | Some element => Some (center_of element index)
    | None =>
        Some (Raised (Raise ValueError
                            ("No element found with index " ++ str_of_int index)))
    end.
Proof.
  intros seen Hn Hnot Hfile Htree Hwf.
  rewrite (get_state_reaches E self n w Hn Hnot).
  cbn [get_state_from]. fold (seen n). rewrite Hfile.
  cbn [a11y_tree]. rewrite Htree. cbn [len].
  unfold _extract_element_coordinates_by_index.
  cbn [set_cache clickable_elements_cache truthy negb iterate].
  rewrite (find_element_first_match _ (item :: items) index Hwf
                                    (Nat.le_succ_diag_r _)).
  rewrite first_match_truthy. unfold first_match.
  destruct (find (has_index index) (flat_map preorder (item :: items)));
    reflexivity.
Qed.

(** The state file holds the example tree; an older tree is in the cache. *)
Lemma resolver_uses_the_tree_read_witness :
  let w := Demo.boot {| state_file := Doc (PDict [("a11yTree", PList Demo.tree)]);
                        actions_file := Missing; result_file := Missing |} in
  let old := set_cache (init 100) (PList [PDict [("index", PInt 3);
                                                 ("bounds", PStr "0,0,2,2")]]) in
  let '(_, self', _) := get_state (Demo.env Demo.untouched) old w in
  _extract_element_coordinates_by_index self' 3 = Some (Returned (5, 5)).
Proof.
  intros w old.
  exact (resolver_uses_the_tree_read
           (Demo.env Demo.untouched) old w 0 [("a11yTree", PList Demo.tree)]
           _ _ 3 ltac:(unfold max_retries; lia) ltac:(intros j Hj; lia)
           eq_refl eq_refl eq_refl).
Defined.

(** A run with a goal, a configuration that loads and an agent that
    returns. *)
Lemma main_prints_once_witness :
  exit_status
    (main {| environ := fun name =>
                          if (name =? "DROIDRUN_GOAL")%string then Some "open mail"
                          else if (name =? "DROIDRUN_CONFIG")%string
                               then Some "config.yaml" else None;
             from_yaml := fun _ => Returned tt;
             run_agent := fun _ _ _ => Returned "done" |})
  = None.
Proof.
  apply (proj2 (main_prints_once _)).
  split; [discriminate|]. split; [discriminate|].
  exists tt, "done". split; reflexivity.
Defined.
